(** * Hanvon userspace tablet driver (hanvon-libusb.c): model and properties

    A shallow embedding of the driver's device table ([find_device]), the
    packet decoder ([report_buttons], [callback_default]), the evdev set-up
    ([init_ctrl]) and the hotplug state machine ([hotplug_callback]).

    The C code talks to two libraries (libusb, libevdev) and keeps its
    session in file-level statics.  The model threads the statics through a
    small state monad that also records, in program order, every library
    call and every DEBUG line the code issues; the return codes of the
    library calls are supplied by an [environment].

    What the model leaves out: the printf lines; the DEBUG lines of
    [find_device]; the string and pointer arguments of DEBUG; the calls that
    only fill in the libevdev description (they are updates of a record,
    not entries of the trace); [display_packets], which only prints and is
    called nowhere.  [main] is modelled as a function of what libusb and
    the kernel run during its library calls; the relation [reachable] is
    the statics its callbacks can lead to.  C integers are [Z]: the
    arithmetic of the source is on bytes and on a wheel position in
    0..0x3f, far from any overflow; the one conversion that can leave the
    range of its type, the unsigned index that [find_device] returns as an
    int, is written out ([int_of_unsigned]). *)

From Stdlib Require Import ZArith List String Bool Lia.
Import ListNotations.
Local Open Scope Z_scope.

(** ** Constants of the source file *)

Definition VENDOR_ID_HANVON     : Z := 0x0b57.
Definition PRODUCT_ID_AM3M      : Z := 0x8528.
Definition PRODUCT_ID_AM0806    : Z := 0x8502.
Definition PRODUCT_ID_AM0605    : Z := 0x8503.
Definition PRODUCT_ID_AM1107    : Z := 0x8505.
Definition PRODUCT_ID_AM1209    : Z := 0x8501.
Definition PRODUCT_ID_RL0604    : Z := 0x851f.
Definition PRODUCT_ID_RL0504    : Z := 0x851d.
Definition PRODUCT_ID_GP0806    : Z := 0x8039.
Definition PRODUCT_ID_GP0806B   : Z := 0x8511.
Definition PRODUCT_ID_GP0605    : Z := 0x8512.
Definition PRODUCT_ID_GP0605A   : Z := 0x803a.
Definition PRODUCT_ID_GP0504    : Z := 0x8037.
Definition PRODUCT_ID_NXS1513   : Z := 0x8030.
Definition PRODUCT_ID_GP0906    : Z := 0x8521.
Definition PRODUCT_ID_APPIV0906 : Z := 0x8532.

Definition AM_PACKET_LEN   : Z := 10.
Definition AM_RESOLUTION   : Z := 40.
Definition AM_MAX_ABS_X    : Z := 0x27DE.
Definition AM_MAX_ABS_Y    : Z := 0x1CFE.
Definition AM_MAX_TILT_X   : Z := 0x3F.
Definition AM_MAX_TILT_Y   : Z := 0x7F.
Definition AM_MAX_PRESSURE : Z := 0x400.
Definition APPIV_MAX_ABS_X : Z := 0x5750.
Definition APPIV_MAX_ABS_Y : Z := 0x3692.

Definition BUTTON_EVENT_GP   : Z := 0x01.
Definition PEN_EVENT         : Z := 0x02.
Definition BUTTON_EVENT_0906 : Z := 0x0C.

(** ** Constants of the two libraries

    The event types and codes of <linux/input-event-codes.h> are an
    enumeration: the driver only passes them on, so their numbers do not
    matter, only that they are distinct names. *)

Inductive ev_type : Type := EV_SYN | EV_KEY | EV_REL | EV_ABS.

Inductive ev_code : Type :=
| SYN_REPORT
| BTN_0 | BTN_1 | BTN_2 | BTN_3 | BTN_4 | BTN_5 | BTN_6 | BTN_7
| BTN_MIDDLE
| BTN_TOOL_PEN | BTN_TOOL_RUBBER | BTN_TOUCH | BTN_STYLUS | BTN_STYLUS2
| ABS_X | ABS_Y | ABS_PRESSURE | ABS_TILT_X | ABS_TILT_Y
| REL_WHEEL.

Inductive input_prop : Type := INPUT_PROP_POINTER | INPUT_PROP_DIRECT.

Definition BUS_USB : Z := 0x03.

(** libusb.h: enum libusb_error, the members the driver compares with. *)
Definition LIBUSB_SUCCESS             : Z := 0.
Definition LIBUSB_ERROR_NO_DEVICE     : Z := -4.
Definition LIBUSB_ERROR_NOT_FOUND     : Z := -5.
Definition LIBUSB_ERROR_BUSY          : Z := -6.
Definition LIBUSB_ERROR_NOT_SUPPORTED : Z := -12.

(** errno.h *)
Definition EIO    : Z := 5.
Definition ENOMEM : Z := 12.
Definition EINVAL : Z := 22.

Inductive libusb_transfer_status : Type :=
| LIBUSB_TRANSFER_COMPLETED
| LIBUSB_TRANSFER_ERROR
| LIBUSB_TRANSFER_TIMED_OUT
| LIBUSB_TRANSFER_CANCELLED
| LIBUSB_TRANSFER_STALL
| LIBUSB_TRANSFER_NO_DEVICE
| LIBUSB_TRANSFER_OVERFLOW.

Definition transfer_status_code (s : libusb_transfer_status) : Z :=
  match s with
  | LIBUSB_TRANSFER_COMPLETED => 0
  | LIBUSB_TRANSFER_ERROR => 1
  | LIBUSB_TRANSFER_TIMED_OUT => 2
  | LIBUSB_TRANSFER_CANCELLED => 3
  | LIBUSB_TRANSFER_STALL => 4
  | LIBUSB_TRANSFER_NO_DEVICE => 5
  | LIBUSB_TRANSFER_OVERFLOW => 6
  end.

Inductive libusb_hotplug_event : Type :=
| LIBUSB_HOTPLUG_EVENT_DEVICE_ARRIVED
| LIBUSB_HOTPLUG_EVENT_DEVICE_LEFT
| LIBUSB_HOTPLUG_EVENT_OTHER (n : Z).

Definition hotplug_event_code (e : libusb_hotplug_event) : Z :=
  match e with
  | LIBUSB_HOTPLUG_EVENT_DEVICE_ARRIVED => 1
  | LIBUSB_HOTPLUG_EVENT_DEVICE_LEFT => 2
  | LIBUSB_HOTPLUG_EVENT_OTHER n => n
  end.

(** ** Data *)

Record libusb_device_descriptor : Type := {
  idVendor  : Z;
  idProduct : Z;
  bcdDevice : Z
}.

(** A [libusb_device *]: its address stands for its identity;
    [dev_descriptor] is what libusb_get_device_descriptor yields for it
    ([None] when that call fails). *)
Record libusb_device : Type := {
  dev_addr       : Z;
  dev_descriptor : option libusb_device_descriptor
}.

(** An open handle; [libusb_get_device] is the device it was opened on. *)
Record libusb_device_handle : Type := {
  libusb_get_device : libusb_device
}.

(** struct input_absinfo, without its field [value], which the source
    leaves at 0. *)
Record input_absinfo : Type := {
  minimum    : Z;
  maximum    : Z;
  fuzz       : Z;
  flat       : Z;
  resolution : Z
}.

(** The libevdev device under construction in [init_ctrl]. *)
Record libevdev : Type := {
  evdev_name    : string;
  id_vendor     : Z;
  id_product    : Z;
  id_bustype    : Z;
  id_version    : Z;
  properties    : list input_prop;
  event_types   : list ev_type;
  event_codes   : list (ev_type * ev_code * option input_absinfo)
}.

(** A uinput device created from an evdev description. *)
Record libevdev_uinput : Type := {
  uinput_evdev : libevdev
}.

Record libusb_transfer : Type := {
  dev_handle    : option libusb_device_handle;
  endpoint      : Z;
  status        : libusb_transfer_status;
  buffer        : list Z;      (* the bytes of g_buffer *)
  tx_length     : Z;
  actual_length : Z;
  user_data     : option libevdev_uinput;
  timeout       : Z
}.

(** The file-level statics.  [g_buffer] lives in the transfer that points
    to it. *)
Record globals : Type := {
  g_dev_handle     : option libusb_device_handle;
  g_uidev          : option libevdev_uinput;
  g_evdev          : option libevdev;
  g_tx             : option libusb_transfer;
  g_running        : bool;
  g_wheel_position : Z
}.

Definition initial_globals : globals :=
  {| g_dev_handle := None; g_uidev := None; g_evdev := None; g_tx := None;
     g_running := true; g_wheel_position := 0 |}.

Definition set_dev_handle (h : option libusb_device_handle) (g : globals) : globals :=
  {| g_dev_handle := h; g_uidev := g_uidev g; g_evdev := g_evdev g;
     g_tx := g_tx g; g_running := g_running g;
     g_wheel_position := g_wheel_position g |}.

Definition set_uidev (u : option libevdev_uinput) (g : globals) : globals :=
  {| g_dev_handle := g_dev_handle g; g_uidev := u; g_evdev := g_evdev g;
     g_tx := g_tx g; g_running := g_running g;
     g_wheel_position := g_wheel_position g |}.

Definition set_evdev (e : option libevdev) (g : globals) : globals :=
  {| g_dev_handle := g_dev_handle g; g_uidev := g_uidev g; g_evdev := e;
     g_tx := g_tx g; g_running := g_running g;
     g_wheel_position := g_wheel_position g |}.

Definition set_tx (t : option libusb_transfer) (g : globals) : globals :=
  {| g_dev_handle := g_dev_handle g; g_uidev := g_uidev g; g_evdev := g_evdev g;
     g_tx := t; g_running := g_running g;
     g_wheel_position := g_wheel_position g |}.

Definition set_running (b : bool) (g : globals) : globals :=
  {| g_dev_handle := g_dev_handle g; g_uidev := g_uidev g; g_evdev := g_evdev g;
     g_tx := g_tx g; g_running := b;
     g_wheel_position := g_wheel_position g |}.

Definition set_wheel_position (w : Z) (g : globals) : globals :=
  {| g_dev_handle := g_dev_handle g; g_uidev := g_uidev g; g_evdev := g_evdev g;
     g_tx := g_tx g; g_running := g_running g;
     g_wheel_position := w |}.

(** ** Observable actions

    One constructor per library function the driver calls with an effect,
    named as in the source, plus [DEBUG] with the format string of the
    source line and its integer arguments.  A pointer argument that may be
    null is an option. *)

Module Call.

Inductive t : Type :=
| libevdev_uinput_write_event (ud : libevdev_uinput) (type : ev_type) (code : ev_code) (value : Z)
| DEBUG (msg : string) (args : list Z)
| libusb_open (dev : libusb_device)
| libusb_close (h : option libusb_device_handle)
| libusb_kernel_driver_active (h : option libusb_device_handle) (interface : Z)
| libusb_detach_kernel_driver (h : option libusb_device_handle) (interface : Z)
| libusb_attach_kernel_driver (h : option libusb_device_handle) (interface : Z)
| libusb_claim_interface (h : option libusb_device_handle) (interface : Z)
| libusb_release_interface (h : option libusb_device_handle) (interface : Z)
| libusb_alloc_transfer (iso_packets : Z)
| libusb_free_transfer (tx : option libusb_transfer)
| libusb_submit_transfer (tx : option libusb_transfer)
| libusb_cancel_transfer (tx : option libusb_transfer)
| libevdev_new
| libevdev_free (evdev : libevdev)
| libevdev_uinput_create_from_device (evdev : libevdev)
| libevdev_uinput_destroy (ud : option libevdev_uinput).

Arguments DEBUG msg%_string args%_list.

End Call.

(** What the libraries answer during one callback.  Each libusb function
    is called at most once per callback, so one return code each is enough;
    libevdev_uinput_write_event and libevdev_enable_event_code are called
    many times, and their return code is a function of the arguments. *)
Record environment : Type := {
  uinput_write_event_rc   : libevdev_uinput -> ev_type -> ev_code -> Z -> Z;
  submit_transfer_rc      : Z;
  cancel_transfer_rc      : Z;
  open_rc                 : Z;
  kernel_driver_active_rc : Z;
  detach_kernel_driver_rc : Z;
  attach_kernel_driver_rc : Z;
  claim_interface_rc      : Z;
  release_interface_rc    : Z;
  alloc_transfer_ok       : bool;
  evdev_new_ok            : bool;
  enable_event_code_rc    : ev_type -> ev_code -> Z;
  uinput_create_rc        : Z
}.

(** ** The monad: statics in, statics and trace out *)

Record result (A : Type) : Type := {
  value : A;
  state : globals;
  trace : list Call.t
}.
Arguments value {A} _.
Arguments state {A} _.
Arguments trace {A} _.

Definition M (A : Type) : Type := globals -> result A.

Definition ret {A : Type} (a : A) : M A :=
  fun g => {| value := a; state := g; trace := [] |}.

Definition bind {A B : Type} (m : M A) (f : A -> M B) : M B :=
  fun g =>
    let r1 := m g in
    let r2 := f (value r1) (state r1) in
    {| value := value r2; state := state r2; trace := trace r1 ++ trace r2 |}.

Declare Scope driver_scope.
Delimit Scope driver_scope with drv.
Notation "x <- m ;; k" := (bind m (fun x => k))
  (at level 61, m at next level, right associativity) : driver_scope.
Notation "m ;; k" := (bind m (fun _ => k))
  (at level 61, right associativity) : driver_scope.
Local Open Scope driver_scope.

Definition get : M globals :=
  fun g => {| value := g; state := g; trace := [] |}.

Definition modify (f : globals -> globals) : M unit :=
  fun g => {| value := tt; state := f g; trace := [] |}.

Definition emit (c : Call.t) : M unit :=
  fun g => {| value := tt; state := g; trace := [c] |}.

(** [if (c) { m }] *)
Definition when_ (c : bool) (m : M unit) : M unit :=
  if c then m else ret tt.

(** C truth value of an int. *)
Definition nonzero (z : Z) : bool := negb (z =? 0).

(** [!!x] *)
Definition lnot_lnot (z : Z) : Z := if z =? 0 then 0 else 1.

Definition is_null {A : Type} (p : option A) : bool :=
  match p with None => true | Some _ => false end.

(** [data[i]] on a byte buffer. *)
Definition byte_at (data : list Z) (i : Z) : Z := nth (Z.to_nat i) data 0.

(** Conversion of an int to [uint16_t]. *)
Definition uint16 (z : Z) : Z := z mod 65536.

(** ** The device table: find_device *)

(** The case labels of the switch in [find_device], in source order. *)
Definition supported_products : list Z :=
  [ PRODUCT_ID_AM3M; PRODUCT_ID_AM0806; PRODUCT_ID_AM0605; PRODUCT_ID_AM1107;
    PRODUCT_ID_AM1209; PRODUCT_ID_RL0604; PRODUCT_ID_RL0504; PRODUCT_ID_GP0806;
    PRODUCT_ID_GP0806B; PRODUCT_ID_GP0605; PRODUCT_ID_GP0605A; PRODUCT_ID_GP0504;
    PRODUCT_ID_NXS1513; PRODUCT_ID_GP0906; PRODUCT_ID_APPIV0906 ].

Definition case_of (labels : list Z) (x : Z) : bool := existsb (Z.eqb x) labels.

(** [int] and [unsigned int] are 32 bits wide. *)
Definition INT_MAX  : Z := 2147483647.
Definition UINT_MAX : Z := 4294967295.

(** Conversion of an unsigned int to int, as in [return i] of
    [find_device]: the value when it is at most INT_MAX; above, the
    language leaves the result to the implementation, and gcc and clang
    reduce it modulo 2^32 into the range of int. *)
Definition int_of_unsigned (u : Z) : Z :=
  if u <=? INT_MAX then u else u - (UINT_MAX + 1).

(** The loop of [find_device] from index [i] on, [n] entries left.
    A null entry and an entry whose descriptor cannot be read are skipped.
    The index is an unsigned int below [count], itself at most UINT_MAX, so
    that [i++] does not wrap; the index found is returned as an int. *)
Fixpoint find_device_from (list : list (option libusb_device)) (i : Z) (n : nat) : Z :=
  match n with
  | O => -1
  | S n' =>
      match nth (Z.to_nat i) list None with
      | None => find_device_from list (i + 1) n'
      | Some dev =>
          match dev_descriptor dev with
          | None => find_device_from list (i + 1) n'
          | Some desc =>
              if (idVendor desc =? VENDOR_ID_HANVON)
                 && case_of supported_products (idProduct desc)
              then int_of_unsigned i
              else find_device_from list (i + 1) n'
          end
      end
  end.

(** [find_device(list, count)]; a null [list] is [None]; [count] is an
    unsigned int, the number of iterations of the loop.  The DEBUG lines
    of this function are not recorded. *)
Definition find_device (list : option (list (option libusb_device))) (count : nat) : Z :=
  match list with
  | None => -1
  | Some l => find_device_from l 0 count
  end.

(** ** The packet decoder *)

(** lbuttons and rbuttons *)
Definition lbuttons : list ev_code := [BTN_0; BTN_1; BTN_2; BTN_3].
Definition rbuttons : list ev_code := [BTN_4; BTN_5; BTN_6; BTN_7].

Definition button_at (buttons : list ev_code) (i : Z) : ev_code :=
  nth (Z.to_nat i) buttons BTN_0.

Section Driver.

Variable env : environment.

Definition DEBUG (msg : string) (args : list Z) : M unit :=
  emit (Call.DEBUG msg args).
Arguments DEBUG msg%_string args%_list.

Definition libevdev_uinput_write_event
  (ud : libevdev_uinput) (type : ev_type) (code : ev_code) (v : Z) : M Z :=
  emit (Call.libevdev_uinput_write_event ud type code v) ;;
  ret (uinput_write_event_rc env ud type code v).

Definition libusb_submit_transfer (tx : option libusb_transfer) : M Z :=
  emit (Call.libusb_submit_transfer tx) ;;
  ret (submit_transfer_rc env).

(** [report_buttons(ud, buttons, num_buttons, data)].  The button code is
    left out of the arguments recorded for the DEBUG lines. *)
Definition report_buttons
  (ud : libevdev_uinput) (buttons : list ev_code) (num_buttons : Z) (data : Z) : M unit :=
  if Z.land data 0xf0 =? 0xa0 then
    when_ (num_buttons >? 1)
      (err <- libevdev_uinput_write_event ud EV_KEY (button_at buttons 1)
                (lnot_lnot (Z.land data 0x02)) ;;
       when_ (nonzero err) (DEBUG "err reporting button %d: %d" [err])) ;;
    when_ (num_buttons >? 2)
      (err <- libevdev_uinput_write_event ud EV_KEY (button_at buttons 2)
                (lnot_lnot (Z.land data 0x04)) ;;
       when_ (nonzero err) (DEBUG "err reporting button %d: %d" [err])) ;;
    when_ (num_buttons >? 3)
      (err <- libevdev_uinput_write_event ud EV_KEY (button_at buttons 3)
                (lnot_lnot (Z.land data 0x08)) ;;
       when_ (nonzero err) (DEBUG "err reporting button %d: %d" [err]))
  else if data <=? 0x3f then
    g <- get ;;
    let delta := data - g_wheel_position g in
    let delta :=
      if Z.abs delta >? Z.quot 0x3f 2 then
        (if delta >? 0 then delta - 0x40 else delta + 0x40)
      else delta in
    when_ (nonzero delta)
      (err <- libevdev_uinput_write_event ud EV_REL REL_WHEEL delta ;;
       when_ (nonzero err) (DEBUG "err reporting wheel: %d" [err]) ;;
       modify (set_wheel_position data))
  else ret tt.

(** The arm [case BUTTON_EVENT_GP:] of the switch in [callback_default]. *)
Definition case_BUTTON_EVENT_GP (ud : libevdev_uinput) (tx : libusb_transfer) : M unit :=
  let data := byte_at (buffer tx) in
  if actual_length tx <? 5 then
    DEBUG "BUTTON_EVENT_GP packet too short (%d bytes)" [actual_length tx]
  else
    when_ (data 1 =? 0x55)
      (report_buttons ud lbuttons (Z.of_nat (List.length lbuttons)) (data 2)) ;;
    when_ (data 3 =? 0xAA)
      (report_buttons ud rbuttons (Z.of_nat (List.length rbuttons)) (data 4)).

(** The arm [case PEN_EVENT:]. *)
Definition case_PEN_EVENT (ud : libevdev_uinput) (tx : libusb_transfer) : M unit :=
  let data := byte_at (buffer tx) in
  if actual_length tx <? AM_PACKET_LEN then
    DEBUG "PEN_EVENT packet too short (%d bytes)" [actual_length tx]
  else
    let tool_type :=
      if nonzero (Z.land (data 1) 0x20) then BTN_TOOL_RUBBER else BTN_TOOL_PEN in
    err <- libevdev_uinput_write_event ud EV_KEY tool_type
             (lnot_lnot (Z.land (data 1) (Z.lor (Z.lor 0x80 0x10) 0x01))) ;;
    when_ (nonzero err) (DEBUG "err reporting tool type: %d" [err]) ;;
    when_ (nonzero (Z.land (data 1) (Z.lor (Z.lor 0x80 0x10) 0x01)))
      (let x_raw := uint16 (Z.lor (Z.shiftl (uint16 (data 2)) 8) (data 3)) in
       let y_raw := uint16 (Z.lor (Z.shiftl (uint16 (data 4)) 8) (data 5)) in
       err <- libevdev_uinput_write_event ud EV_ABS ABS_X x_raw ;;
       when_ (nonzero err) (DEBUG "err reporting ABS_X: %d" [err]) ;;
       err <- libevdev_uinput_write_event ud EV_ABS ABS_Y y_raw ;;
       when_ (nonzero err) (DEBUG "err reporting ABS_Y: %d" [err]) ;;
       let pressure_raw := uint16 (Z.lor (Z.shiftl (uint16 (data 6)) 8) (data 7)) in
       err <- libevdev_uinput_write_event ud EV_ABS ABS_PRESSURE (Z.shiftr pressure_raw 6) ;;
       when_ (nonzero err) (DEBUG "err reporting ABS_PRESSURE: %d" [err]) ;;
       err <- libevdev_uinput_write_event ud EV_ABS ABS_TILT_X (data 8) ;;
       when_ (nonzero err) (DEBUG "err reporting ABS_TILT_X: %d" [err]) ;;
       err <- libevdev_uinput_write_event ud EV_ABS ABS_TILT_Y (data 9) ;;
       when_ (nonzero err) (DEBUG "err reporting ABS_TILT_Y: %d" [err])) ;;
    err <- libevdev_uinput_write_event ud EV_KEY BTN_TOUCH (lnot_lnot (Z.land (data 1) 0x01)) ;;
    when_ (nonzero err) (DEBUG "err reporting BTN_TOUCH: %d" [err]) ;;
    err <- libevdev_uinput_write_event ud EV_KEY BTN_STYLUS (lnot_lnot (Z.land (data 1) 0x02)) ;;
    when_ (nonzero err) (DEBUG "err reporting BTN_STYLUS: %d" [err]).

(** The arm [case BUTTON_EVENT_0906:]. *)
Definition case_BUTTON_EVENT_0906 (ud : libevdev_uinput) (tx : libusb_transfer) : M unit :=
  let data := byte_at (buffer tx) in
  if actual_length tx <? 4 then
    DEBUG "BUTTON_EVENT_0906 packet too short (%d bytes)" [actual_length tx]
  else
    err <- libevdev_uinput_write_event ud EV_KEY (button_at lbuttons 0)
             (lnot_lnot (Z.land (data 3) 0x01)) ;;
    when_ (nonzero err) (DEBUG "err: %d" [err]) ;;
    err <- libevdev_uinput_write_event ud EV_KEY (button_at lbuttons 1)
             (lnot_lnot (Z.land (data 3) 0x02)) ;;
    when_ (nonzero err) (DEBUG "err: %d" [err]) ;;
    err <- libevdev_uinput_write_event ud EV_KEY (button_at lbuttons 2)
             (lnot_lnot (Z.land (data 3) 0x04)) ;;
    when_ (nonzero err) (DEBUG "err: %d" [err]) ;;
    err <- libevdev_uinput_write_event ud EV_KEY (button_at lbuttons 3)
             (lnot_lnot (Z.land (data 3) 0x08)) ;;
    when_ (nonzero err) (DEBUG "err: %d" [err]).

(** [switch(data[0])] *)
Definition switch_msgtype (ud : libevdev_uinput) (tx : libusb_transfer) : M unit :=
  let data := byte_at (buffer tx) in
  if data 0 =? BUTTON_EVENT_GP then case_BUTTON_EVENT_GP ud tx
  else if data 0 =? PEN_EVENT then case_PEN_EVENT ud tx
  else if data 0 =? BUTTON_EVENT_0906 then case_BUTTON_EVENT_0906 ud tx
  else DEBUG "Unknown message type received: 0x%02x" [data 0].

(** The code from the label [resubmit:] on. *)
Definition resubmit (tx : libusb_transfer) : M unit :=
  g <- get ;;
  if g_running g && negb (is_null (g_dev_handle g)) then
    err <- libusb_submit_transfer (Some tx) ;;
    when_ (nonzero err) (DEBUG "Error resubmitting transfer: %s (%d)" [err])
  else
    DEBUG "Not resubmitting transfer (running=%d, handle=%p)" [Z.b2z (g_running g)].

(** [callback_default(tx)] *)
Definition callback_default (tx : libusb_transfer) : M unit :=
  match status tx with
  | LIBUSB_TRANSFER_COMPLETED =>
      match user_data tx with
      | None =>
          DEBUG "Error: uinput device handle is NULL in callback." [] ;;
          resubmit tx
      | Some ud =>
          if actual_length tx <? 1 then
            DEBUG "Received empty or too short packet (%d bytes)" [actual_length tx] ;;
            resubmit tx
          else
            switch_msgtype ud tx ;;
            err <- libevdev_uinput_write_event ud EV_SYN SYN_REPORT 0 ;;
            when_ (nonzero err) (DEBUG "Error writing EV_SYN: %d (%s)" [err]) ;;
            resubmit tx
      end
  | _ =>
      DEBUG "Transfer failed or cancelled: %s (%d)" [transfer_status_code (status tx)]
  end.

(** ** init_ctrl: the evdev description of a tablet *)

(** What libevdev_new returns: a description with nothing set. *)
Definition empty_evdev : libevdev :=
  {| evdev_name := EmptyString; id_vendor := 0; id_product := 0; id_bustype := 0;
     id_version := 0; properties := []; event_types := []; event_codes := [] |}.

Definition libevdev_set_name (e : libevdev) (s : string) : libevdev :=
  {| evdev_name := s; id_vendor := id_vendor e; id_product := id_product e;
     id_bustype := id_bustype e; id_version := id_version e;
     properties := properties e; event_types := event_types e;
     event_codes := event_codes e |}.

Definition libevdev_set_id_vendor (e : libevdev) (v : Z) : libevdev :=
  {| evdev_name := evdev_name e; id_vendor := v; id_product := id_product e;
     id_bustype := id_bustype e; id_version := id_version e;
     properties := properties e; event_types := event_types e;
     event_codes := event_codes e |}.

Definition libevdev_set_id_product (e : libevdev) (v : Z) : libevdev :=
  {| evdev_name := evdev_name e; id_vendor := id_vendor e; id_product := v;
     id_bustype := id_bustype e; id_version := id_version e;
     properties := properties e; event_types := event_types e;
     event_codes := event_codes e |}.

Definition libevdev_set_id_bustype (e : libevdev) (v : Z) : libevdev :=
  {| evdev_name := evdev_name e; id_vendor := id_vendor e; id_product := id_product e;
     id_bustype := v; id_version := id_version e;
     properties := properties e; event_types := event_types e;
     event_codes := event_codes e |}.

Definition libevdev_set_id_version (e : libevdev) (v : Z) : libevdev :=
  {| evdev_name := evdev_name e; id_vendor := id_vendor e; id_product := id_product e;
     id_bustype := id_bustype e; id_version := v;
     properties := properties e; event_types := event_types e;
     event_codes := event_codes e |}.

Definition libevdev_enable_property (e : libevdev) (p : input_prop) : libevdev :=
  {| evdev_name := evdev_name e; id_vendor := id_vendor e; id_product := id_product e;
     id_bustype := id_bustype e; id_version := id_version e;
     properties := properties e ++ [p]; event_types := event_types e;
     event_codes := event_codes e |}.

Definition libevdev_enable_event_type (e : libevdev) (t : ev_type) : libevdev :=
  {| evdev_name := evdev_name e; id_vendor := id_vendor e; id_product := id_product e;
     id_bustype := id_bustype e; id_version := id_version e;
     properties := properties e; event_types := event_types e ++ [t];
     event_codes := event_codes e |}.

(** [libevdev_enable_event_code(evdev, type, code, data)]: the return code
    and the description afterwards, unchanged when the call fails. *)
Definition libevdev_enable_event_code
  (e : libevdev) (t : ev_type) (c : ev_code) (data : option input_absinfo) : Z * libevdev :=
  let rc := enable_event_code_rc env t c in
  (rc,
   if rc <? 0 then e
   else
     {| evdev_name := evdev_name e; id_vendor := id_vendor e; id_product := id_product e;
        id_bustype := id_bustype e; id_version := id_version e;
        properties := properties e; event_types := event_types e;
        event_codes := event_codes e ++ [(t, c, data)] |}).

(** A call whose return code the source ignores. *)
Definition enable_key (e : libevdev) (c : ev_code) : libevdev :=
  snd (libevdev_enable_event_code e EV_KEY c None).

Definition set_maximum (m : Z) (a : input_absinfo) : input_absinfo :=
  {| minimum := minimum a; maximum := m; fuzz := fuzz a; flat := flat a;
     resolution := resolution a |}.

(** The switch "Enable device-specific buttons": the codes each group of
    case labels enables, in source order. *)
Definition device_buttons (idProduct : Z) : list ev_code :=
  if case_of [ PRODUCT_ID_AM3M; PRODUCT_ID_AM0806; PRODUCT_ID_AM0605;
               PRODUCT_ID_GP0806; PRODUCT_ID_GP0806B; PRODUCT_ID_GP0605;
               PRODUCT_ID_GP0605A; PRODUCT_ID_GP0504; PRODUCT_ID_NXS1513;
               PRODUCT_ID_GP0906 ] idProduct
  then [BTN_0; BTN_1; BTN_2; BTN_3]
  else if case_of [PRODUCT_ID_AM1107; PRODUCT_ID_AM1209] idProduct
  then [BTN_0; BTN_1; BTN_2; BTN_3; BTN_4; BTN_5; BTN_6; BTN_7]
  else if case_of [PRODUCT_ID_APPIV0906] idProduct
  then [BTN_MIDDLE; BTN_0; BTN_1; BTN_2; BTN_3; BTN_4; BTN_5; BTN_6; BTN_7]
  else if case_of [PRODUCT_ID_RL0604; PRODUCT_ID_RL0504] idProduct
  then [BTN_0; BTN_1; BTN_2; BTN_3]
  else [].

(** The switch "Set specific device name". *)
Definition device_name (idProduct : Z) : string :=
  if idProduct =? PRODUCT_ID_NXS1513 then "Hanvon Nilox NXS1513"
  else if idProduct =? PRODUCT_ID_GP0504 then "Hanvon Graphicpal 0504"
  else if idProduct =? PRODUCT_ID_GP0806 then "Hanvon Graphicpal 0806"
  else if idProduct =? PRODUCT_ID_GP0605A then "Hanvon Graphicpal 0605A"
  else if idProduct =? PRODUCT_ID_AM1209 then "Hanvon ArtMaster AM1209"
  else if idProduct =? PRODUCT_ID_AM0806 then "Hanvon ArtMaster AM0806"
  else if idProduct =? PRODUCT_ID_AM0605 then "Hanvon ArtMaster AM0605"
  else if idProduct =? PRODUCT_ID_AM1107 then "Hanvon Art Master AM1107"
  else if idProduct =? PRODUCT_ID_GP0806B then "Hanvon Graphicpal 0806B"
  else if idProduct =? PRODUCT_ID_GP0605 then "Hanvon Graphicpal 0605"
  else if idProduct =? PRODUCT_ID_RL0504 then "Hanvon Rollick 0504"
  else if idProduct =? PRODUCT_ID_RL0604 then "Hanvon Rollick 0604"
  else if idProduct =? PRODUCT_ID_GP0906 then "Hanvon Graphicpal 0906"
  else if idProduct =? PRODUCT_ID_AM3M then "Hanvon Art Master III"
  else if idProduct =? PRODUCT_ID_APPIV0906 then "Hanvon Art Painter Pro APPIV0906"
  else "Hanvon Tablet (Unknown Model)".

Definition libevdev_new : M (option libevdev) :=
  emit Call.libevdev_new ;;
  ret (if evdev_new_ok env then Some empty_evdev else None).

Definition libevdev_free (e : libevdev) : M unit :=
  emit (Call.libevdev_free e).

(** [libevdev_uinput_create_from_device(evdev, LIBEVDEV_UINPUT_OPEN_MANAGED,
    &g_uidev)]: on success the new device is stored through the pointer. *)
Definition libevdev_uinput_create_from_device (e : libevdev) : M Z :=
  emit (Call.libevdev_uinput_create_from_device e) ;;
  let rc := uinput_create_rc env in
  when_ (negb (rc <? 0)) (modify (set_uidev (Some {| uinput_evdev := e |}))) ;;
  ret rc.

(** The label [error_free_evdev:]. *)
Definition error_free_evdev (evdev : libevdev) (rc : Z) : M Z :=
  libevdev_free evdev ;;
  modify (set_evdev None) ;;
  ret rc.

(** The part of [init_ctrl] up to the ABS axes, on the description just
    created: name, ids, properties, EV_SYN and the EV_KEY tool codes. *)
Definition common_properties (desc : libusb_device_descriptor) (evdev : libevdev) : libevdev :=
  let evdev := libevdev_set_name evdev "Hanvon Tablet (Userspace)" in
  let evdev := libevdev_set_id_vendor evdev (idVendor desc) in
  let evdev := libevdev_set_id_product evdev (idProduct desc) in
  let evdev := libevdev_set_id_bustype evdev BUS_USB in
  let evdev := libevdev_set_id_version evdev (bcdDevice desc) in
  let evdev := libevdev_enable_property evdev INPUT_PROP_POINTER in
  let evdev := libevdev_enable_property evdev INPUT_PROP_DIRECT in
  let evdev := libevdev_enable_event_type evdev EV_SYN in
  let evdev := snd (libevdev_enable_event_code evdev EV_SYN SYN_REPORT None) in
  let evdev := libevdev_enable_event_type evdev EV_KEY in
  let evdev := enable_key evdev BTN_TOOL_PEN in
  let evdev := enable_key evdev BTN_TOOL_RUBBER in
  let evdev := enable_key evdev BTN_TOUCH in
  let evdev := enable_key evdev BTN_STYLUS in
  let evdev := enable_key evdev BTN_STYLUS2 in
  libevdev_enable_event_type evdev EV_ABS.

(** The part of [init_ctrl] after the ABS axes: REL_WHEEL (a failure is
    only logged), the device-specific buttons, the device name. *)
Definition wheel_buttons_name (desc : libusb_device_descriptor) (evdev : libevdev) : M libevdev :=
  let evdev := libevdev_enable_event_type evdev EV_REL in
  let '(rc, evdev) := libevdev_enable_event_code evdev EV_REL REL_WHEEL None in
  when_ (rc <? 0)
    (DEBUG "Failed to enable REL_WHEEL: %s (Ignoring, might not be critical)" []) ;;
  let evdev := fold_left enable_key (device_buttons (idProduct desc)) evdev in
  ret (libevdev_set_name evdev (device_name (idProduct desc))).

(** [init_ctrl(dev, &g_evdev, &g_uidev)], the only call in the source: the
    two out-pointers are the statics.  [g_evdev] holds the description as
    configured so far each time the function hands control to a library or
    returns.  The printf lines are not recorded. *)
Definition init_ctrl (dev : option libusb_device) : M Z :=
  modify (set_wheel_position 0) ;;
  match dev with
  | None =>
      DEBUG "init_ctrl called with NULL device" [] ;;
      ret (- EINVAL)
  | Some dev =>
  match dev_descriptor dev with
  | None =>
      DEBUG "Failed to get device descriptor: %s" [] ;;
      ret (- EIO)
  | Some desc =>
  new <- libevdev_new ;;
  modify (set_evdev new) ;;
  match new with
  | None =>
      DEBUG "Failed to create evdev device: %s" [] ;;
      ret (- ENOMEM)
  | Some evdev =>
  let evdev := common_properties desc evdev in
  let abs := {| minimum := 0;
                maximum := if idProduct desc =? PRODUCT_ID_APPIV0906
                           then APPIV_MAX_ABS_X else AM_MAX_ABS_X;
                fuzz := 4; flat := 0; resolution := AM_RESOLUTION |} in
  let '(rc, evdev) := libevdev_enable_event_code evdev EV_ABS ABS_X (Some abs) in
  if rc <? 0 then
    DEBUG "Failed to enable ABS_X: %s" [rc] ;; error_free_evdev evdev rc
  else
  let abs := set_maximum (if idProduct desc =? PRODUCT_ID_APPIV0906
                          then APPIV_MAX_ABS_Y else AM_MAX_ABS_Y) abs in
  let '(rc, evdev) := libevdev_enable_event_code evdev EV_ABS ABS_Y (Some abs) in
  if rc <? 0 then
    DEBUG "Failed to enable ABS_Y: %s" [rc] ;; error_free_evdev evdev rc
  else
  let abs := {| minimum := minimum abs; maximum := AM_MAX_PRESSURE;
                fuzz := 0; flat := 0; resolution := 0 |} in
  let '(rc, evdev) := libevdev_enable_event_code evdev EV_ABS ABS_PRESSURE (Some abs) in
  if rc <? 0 then
    DEBUG "Failed to enable ABS_PRESSURE: %s" [rc] ;; error_free_evdev evdev rc
  else
  let abs := set_maximum AM_MAX_TILT_X abs in
  let '(rc, evdev) := libevdev_enable_event_code evdev EV_ABS ABS_TILT_X (Some abs) in
  if rc <? 0 then
    DEBUG "Failed to enable ABS_TILT_X: %s" [rc] ;; error_free_evdev evdev rc
  else
  let abs := set_maximum AM_MAX_TILT_Y abs in
  let '(rc, evdev) := libevdev_enable_event_code evdev EV_ABS ABS_TILT_Y (Some abs) in
  if rc <? 0 then
    DEBUG "Failed to enable ABS_TILT_Y: %s" [rc] ;; error_free_evdev evdev rc
  else
  evdev <- wheel_buttons_name desc evdev ;;
  modify (set_evdev (Some evdev)) ;;
  rc <- libevdev_uinput_create_from_device evdev ;;
  if rc <? 0 then
    DEBUG "Failed to create uinput device: %s (%d)" [rc; rc] ;;
    error_free_evdev evdev rc
  else
    ret 0
  end end end.

(** [sigterm_handler(signum)] *)
Definition sigterm_handler (signum : Z) : M unit :=
  DEBUG "Received signal %d, initiating shutdown..." [signum] ;;
  modify (set_running false).

(** ** hotplug_callback: the session state machine *)

(** A block of statements that may execute [return z]: [inl z] when it
    did, [inr tt] when control falls through to the next statement. *)
Definition block : Type := M (Z + unit).

Definition return_ (z : Z) : block := ret (inl z).

Definition fall_through : block := ret (inr tt).

Definition then_ (b : block) (k : block) : block :=
  r <- b ;;
  match r with
  | inl z => ret (inl z)
  | inr _ => k
  end.

Notation "b ;;; k" := (then_ b k)
  (at level 62, right associativity) : driver_scope.

(** A function body made of such a block followed by [return z]. *)
Definition body (b : block) (z : Z) : M Z :=
  r <- b ;;
  ret (match r with inl z' => z' | inr _ => z end).

(** [libusb_open(dev, &g_dev_handle)]: on success the handle is stored
    through the pointer. *)
Definition libusb_open (dev : libusb_device) : M Z :=
  emit (Call.libusb_open dev) ;;
  let rc := open_rc env in
  when_ (rc =? LIBUSB_SUCCESS)
    (modify (set_dev_handle (Some {| libusb_get_device := dev |}))) ;;
  ret rc.

Definition libusb_close (h : option libusb_device_handle) : M unit :=
  emit (Call.libusb_close h).

Definition libusb_kernel_driver_active (h : option libusb_device_handle) (i : Z) : M Z :=
  emit (Call.libusb_kernel_driver_active h i) ;;
  ret (kernel_driver_active_rc env).

Definition libusb_detach_kernel_driver (h : option libusb_device_handle) (i : Z) : M Z :=
  emit (Call.libusb_detach_kernel_driver h i) ;;
  ret (detach_kernel_driver_rc env).

Definition libusb_attach_kernel_driver (h : option libusb_device_handle) (i : Z) : M Z :=
  emit (Call.libusb_attach_kernel_driver h i) ;;
  ret (attach_kernel_driver_rc env).

Definition libusb_claim_interface (h : option libusb_device_handle) (i : Z) : M Z :=
  emit (Call.libusb_claim_interface h i) ;;
  ret (claim_interface_rc env).

Definition libusb_release_interface (h : option libusb_device_handle) (i : Z) : M Z :=
  emit (Call.libusb_release_interface h i) ;;
  ret (release_interface_rc env).

(** What libusb_alloc_transfer(0) returns on success: a zeroed transfer. *)
Definition zeroed_transfer : libusb_transfer :=
  {| dev_handle := None; endpoint := 0; status := LIBUSB_TRANSFER_COMPLETED;
     buffer := []; tx_length := 0; actual_length := 0; user_data := None;
     timeout := 0 |}.

Definition libusb_alloc_transfer (iso_packets : Z) : M (option libusb_transfer) :=
  emit (Call.libusb_alloc_transfer iso_packets) ;;
  ret (if alloc_transfer_ok env then Some zeroed_transfer else None).

Definition libusb_free_transfer (tx : option libusb_transfer) : M unit :=
  emit (Call.libusb_free_transfer tx).

Definition libusb_cancel_transfer (tx : option libusb_transfer) : M Z :=
  emit (Call.libusb_cancel_transfer tx) ;;
  ret (cancel_transfer_rc env).

Definition libevdev_uinput_destroy (ud : option libevdev_uinput) : M unit :=
  emit (Call.libevdev_uinput_destroy ud).

(** [g_buffer] as the program starts. *)
Definition g_buffer : list Z := repeat 0 (Z.to_nat AM_PACKET_LEN).

(** [libusb_fill_interrupt_transfer(g_tx, dev_handle, endpoint, buffer,
    length, callback_default, user_data, timeout)] *)
Definition libusb_fill_interrupt_transfer
  (h : option libusb_device_handle) (ep : Z) (buf : list Z) (len : Z)
  (ud : option libevdev_uinput) (tmo : Z) : M unit :=
  modify (fun g =>
    set_tx (option_map (fun tx =>
      {| dev_handle := h; endpoint := ep; status := status tx;
         buffer := buf; tx_length := len; actual_length := actual_length tx;
         user_data := ud; timeout := tmo |}) (g_tx g)) g).

(** The branch for LIBUSB_HOTPLUG_EVENT_DEVICE_ARRIVED, one definition per
    paragraph of the source, in source order. *)

(** The single-device test: a session is already there. *)
Definition single_device_check (desc : libusb_device_descriptor) : block :=
  g <- get ;;
  if negb (is_null (g_dev_handle g)) then
    DEBUG "INFO: Another Hanvon device is already active. Ignoring new device %04x:%04x."
      [idVendor desc; idProduct desc] ;;
    return_ 0
  else fall_through.

(** The test of [find_device] on the arriving device alone. *)
Definition supported_check (dev : libusb_device) : block :=
  if find_device (Some [Some dev]) 1 <? 0 then return_ 0 else fall_through.

(** "Attempting to open..." *)
Definition open_device (dev : libusb_device) (desc : libusb_device_descriptor) : block :=
  DEBUG "Supported device %04x:%04x arrived. Attempting to open..."
    [idVendor desc; idProduct desc] ;;
  rc <- libusb_open dev ;;
  if negb (rc =? LIBUSB_SUCCESS) then
    DEBUG "Error opening device %04x:%04x: %s" [idVendor desc; idProduct desc; rc] ;;
    modify (set_dev_handle None) ;;
    return_ 0
  else fall_through.

(** "Detach kernel driver if active on interface 0" *)
Definition detach_driver : block :=
  g <- get ;;
  rc <- libusb_kernel_driver_active (g_dev_handle g) 0 ;;
  if rc =? 1 then
    DEBUG "Kernel driver active on interface 0. Detaching..." [] ;;
    rc <- libusb_detach_kernel_driver (g_dev_handle g) 0 ;;
    if negb (rc =? LIBUSB_SUCCESS) then
      DEBUG "Error detaching kernel driver: %s. Closing device." [rc] ;;
      libusb_close (g_dev_handle g) ;;
      modify (set_dev_handle None) ;;
      return_ 0
    else fall_through
  else if (rc <? 0) && negb (rc =? LIBUSB_ERROR_NOT_SUPPORTED) then
    DEBUG "Error checking kernel driver status: %s. Closing device." [rc] ;;
    libusb_close (g_dev_handle g) ;;
    modify (set_dev_handle None) ;;
    return_ 0
  else fall_through.

(** "Claim interface 0" *)
Definition claim_interface : block :=
  g <- get ;;
  rc <- libusb_claim_interface (g_dev_handle g) 0 ;;
  if negb (rc =? LIBUSB_SUCCESS) then
    DEBUG "Error claiming interface 0: %s" [rc] ;;
    libusb_attach_kernel_driver (g_dev_handle g) 0 ;;
    libusb_close (g_dev_handle g) ;;
    modify (set_dev_handle None) ;;
    return_ 0
  else
    DEBUG "Interface 0 claimed successfully." [] ;;
    fall_through.

(** "Initialize evdev/uinput controls" *)
Definition initialize_controls (dev : libusb_device) : block :=
  rc <- init_ctrl (Some dev) ;;
  if rc <? 0 then
    DEBUG "Error: Could not initialize controls for the device (%d)." [rc] ;;
    g <- get ;;
    libusb_release_interface (g_dev_handle g) 0 ;;
    libusb_attach_kernel_driver (g_dev_handle g) 0 ;;
    libusb_close (g_dev_handle g) ;;
    modify (set_dev_handle None) ;;
    match g_evdev g with
    | Some e => libevdev_free e ;; modify (set_evdev None)
    | None => ret tt
    end ;;
    modify (set_uidev None) ;;
    return_ 0
  else fall_through.

(** "Allocate the interrupt transfer" *)
Definition allocate_transfer : block :=
  tx <- libusb_alloc_transfer 0 ;;
  modify (set_tx tx) ;;
  if is_null tx then
    DEBUG "Error allocating transfer" [] ;;
    g <- get ;;
    libevdev_uinput_destroy (g_uidev g) ;;
    modify (set_uidev None) ;; modify (set_evdev None) ;;
    libusb_release_interface (g_dev_handle g) 0 ;;
    libusb_attach_kernel_driver (g_dev_handle g) 0 ;;
    libusb_close (g_dev_handle g) ;;
    modify (set_dev_handle None) ;;
    return_ 0
  else fall_through.

(** "Fill the interrupt transfer request" and "Submit the first transfer" *)
Definition submit_first_transfer (desc : libusb_device_descriptor) : block :=
  g <- get ;;
  libusb_fill_interrupt_transfer (g_dev_handle g) 0x81 g_buffer AM_PACKET_LEN
    (g_uidev g) 0 ;;
  g <- get ;;
  rc <- libusb_submit_transfer (g_tx g) ;;
  if negb (rc =? LIBUSB_SUCCESS) then
    DEBUG "Error submitting initial transfer: %s" [rc] ;;
    libusb_free_transfer (g_tx g) ;; modify (set_tx None) ;;
    libevdev_uinput_destroy (g_uidev g) ;;
    modify (set_uidev None) ;; modify (set_evdev None) ;;
    libusb_release_interface (g_dev_handle g) 0 ;;
    libusb_attach_kernel_driver (g_dev_handle g) 0 ;;
    libusb_close (g_dev_handle g) ;; modify (set_dev_handle None) ;;
    fall_through
  else
    DEBUG "Device %04x:%04x initialized and first transfer submitted."
      [idVendor desc; idProduct desc] ;;
    fall_through.

Definition device_arrived (dev : libusb_device) (desc : libusb_device_descriptor) : block :=
  single_device_check desc ;;;
  supported_check dev ;;;
  open_device dev desc ;;;
  detach_driver ;;;
  claim_interface ;;;
  initialize_controls dev ;;;
  allocate_transfer ;;;
  submit_first_transfer desc.

(** [libusb_get_device(g_dev_handle) == dev]: equality of two pointers. *)
Definition same_device (d1 d2 : libusb_device) : bool :=
  dev_addr d1 =? dev_addr d2.

(** The branch for LIBUSB_HOTPLUG_EVENT_DEVICE_LEFT. *)
Definition device_left (dev : libusb_device) (desc : libusb_device_descriptor) : M unit :=
  g <- get ;;
  if match g_dev_handle g with
     | Some h => same_device (libusb_get_device h) dev
     | None => false
     end
  then
    DEBUG "Handling departure of active device %04x:%04x." [idVendor desc; idProduct desc] ;;
    when_ (negb (is_null (g_tx g)))
      (DEBUG "Cancelling active transfer..." [] ;;
       rc <- libusb_cancel_transfer (g_tx g) ;;
       when_ (negb (rc =? LIBUSB_SUCCESS) && negb (rc =? LIBUSB_ERROR_NOT_FOUND))
         (DEBUG "Error cancelling transfer: %s" [rc]) ;;
       libusb_free_transfer (g_tx g) ;;
       modify (set_tx None)) ;;
    when_ (negb (is_null (g_uidev g)))
      (DEBUG "Destroying uinput device..." [] ;;
       libevdev_uinput_destroy (g_uidev g) ;;
       modify (set_uidev None) ;;
       modify (set_evdev None)) ;;
    DEBUG "Releasing interface 0..." [] ;;
    rc <- libusb_release_interface (g_dev_handle g) 0 ;;
    when_ (negb (rc =? LIBUSB_SUCCESS) && negb (rc =? LIBUSB_ERROR_NO_DEVICE))
      (DEBUG "Error releasing interface: %s" [rc]) ;;
    DEBUG "Attempting to re-attach kernel driver..." [] ;;
    rc <- libusb_attach_kernel_driver (g_dev_handle g) 0 ;;
    when_ (negb (rc =? LIBUSB_SUCCESS) && negb (rc =? LIBUSB_ERROR_NO_DEVICE)
           && negb (rc =? LIBUSB_ERROR_NOT_SUPPORTED) && negb (rc =? LIBUSB_ERROR_BUSY))
      (DEBUG "Error re-attaching kernel driver: %s" [rc]) ;;
    DEBUG "Closing device handle..." [] ;;
    libusb_close (g_dev_handle g) ;;
    modify (set_dev_handle None) ;;
    DEBUG "Device %04x:%04x cleanup complete." [idVendor desc; idProduct desc]
  else
    DEBUG "INFO: Device %04x:%04x left, but it wasn't the active device or no device was active."
      [idVendor desc; idProduct desc].

(** [hotplug_callback(ctx, dev, event, user_data)]; [ctx] and [user_data]
    are not used by the source. *)
Definition hotplug_callback (dev : libusb_device) (event : libusb_hotplug_event) : M Z :=
  match dev_descriptor dev with
  | None =>
      DEBUG "Hotplug: Failed to get descriptor for event %d" [hotplug_event_code event] ;;
      ret 0
  | Some desc =>
      DEBUG "Hotplug event: %s for device %04x:%04x" [idVendor desc; idProduct desc] ;;
      body
        match event with
        | LIBUSB_HOTPLUG_EVENT_DEVICE_ARRIVED => device_arrived dev desc
        | LIBUSB_HOTPLUG_EVENT_DEVICE_LEFT => device_left dev desc ;; fall_through
        | LIBUSB_HOTPLUG_EVENT_OTHER n =>
            DEBUG "Unhandled hotplug event: %d" [n] ;; fall_through
        end
        0
  end.

End Driver.

(** ** Reading a trace *)

Record input_event : Type := {
  type  : ev_type;
  code  : ev_code;
  value_ : Z
}.

(** The events written to the uinput device, in order. *)
Fixpoint uinput_events (t : list Call.t) : list input_event :=
  match t with
  | [] => []
  | Call.libevdev_uinput_write_event _ ty c v :: t' =>
      {| type := ty; code := c; value_ := v |} :: uinput_events t'
  | _ :: t' => uinput_events t'
  end.

(** The calls into libusb and libevdev other than event writes: what the
    callback did to resources. *)
Fixpoint resource_calls (t : list Call.t) : list Call.t :=
  match t with
  | [] => []
  | Call.libevdev_uinput_write_event _ _ _ _ :: t' => resource_calls t'
  | Call.DEBUG _ _ :: t' => resource_calls t'
  | c :: t' => c :: resource_calls t'
  end.

(** Whether the callback handed the transfer back to libusb. *)
Definition submitted (t : list Call.t) : bool :=
  existsb (fun c => match c with Call.libusb_submit_transfer _ => true | _ => false end) t.

(** ** The vocabulary of the specification

    The specification speaks of semantic events and of decode errors; the
    code writes evdev triples and DEBUG lines.  [evdev_of] is the triple a
    semantic event stands for, [decode_error_of] the error a DEBUG line of
    the decoder stands for. *)

Inductive tool : Type := pen | eraser.
Inductive abs_axis : Type := AbsX | AbsY | AbsPressure | AbsTiltX | AbsTiltY.
Inductive rel_axis : Type := Wheel.

Inductive SemanticEvent : Type :=
| ToolState (t : tool) (active : bool)
| Touch (down : bool)
| StylusButton (index : nat) (pressed : bool)
| AbsAxis (a : abs_axis) (v : Z)
| RelAxis (a : rel_axis) (delta : Z)
| Button (index : nat) (pressed : bool)
| SyncBatchEnd.

Definition key (c : ev_code) (b : bool) : input_event :=
  {| type := EV_KEY; code := c; value_ := Z.b2z b |}.

Definition evdev_of (e : SemanticEvent) : input_event :=
  match e with
  | ToolState pen b => key BTN_TOOL_PEN b
  | ToolState eraser b => key BTN_TOOL_RUBBER b
  | Touch b => key BTN_TOUCH b
  | StylusButton O b => key BTN_STYLUS b
  | StylusButton (S _) b => key BTN_STYLUS2 b
  | AbsAxis AbsX v => {| type := EV_ABS; code := ABS_X; value_ := v |}
  | AbsAxis AbsY v => {| type := EV_ABS; code := ABS_Y; value_ := v |}
  | AbsAxis AbsPressure v => {| type := EV_ABS; code := ABS_PRESSURE; value_ := v |}
  | AbsAxis AbsTiltX v => {| type := EV_ABS; code := ABS_TILT_X; value_ := v |}
  | AbsAxis AbsTiltY v => {| type := EV_ABS; code := ABS_TILT_Y; value_ := v |}
  | RelAxis Wheel d => {| type := EV_REL; code := REL_WHEEL; value_ := d |}
  | Button i b => key (nth i (lbuttons ++ rbuttons) BTN_MIDDLE) b
  | SyncBatchEnd => {| type := EV_SYN; code := SYN_REPORT; value_ := 0 |}
  end.

Inductive DecodeError : Type :=
| TooShort
| UnknownMessageType (byte0 : Z).

Definition decode_error_of (c : Call.t) : option DecodeError :=
  match c with
  | Call.DEBUG msg args =>
      if (msg =? "Received empty or too short packet (%d bytes)")%string
         || (msg =? "BUTTON_EVENT_GP packet too short (%d bytes)")%string
         || (msg =? "PEN_EVENT packet too short (%d bytes)")%string
         || (msg =? "BUTTON_EVENT_0906 packet too short (%d bytes)")%string
      then Some TooShort
      else if (msg =? "Unknown message type received: 0x%02x")%string
      then Some (UnknownMessageType (hd 0 args))
      else None
  | _ => None
  end.

Fixpoint decode_errors (t : list Call.t) : list DecodeError :=
  match t with
  | [] => []
  | c :: t' =>
      match decode_error_of c with
      | Some e => e :: decode_errors t'
      | None => decode_errors t'
      end
  end.

(** A byte of a packet. *)
Definition is_byte (z : Z) : Prop := 0 <= z < 256.

(** An environment in which every library call succeeds. *)
Definition all_succeed : environment :=
  {| uinput_write_event_rc := fun _ _ _ _ => 0;
     submit_transfer_rc := LIBUSB_SUCCESS;
     cancel_transfer_rc := LIBUSB_SUCCESS;
     open_rc := LIBUSB_SUCCESS;
     kernel_driver_active_rc := 1;
     detach_kernel_driver_rc := LIBUSB_SUCCESS;
     attach_kernel_driver_rc := LIBUSB_SUCCESS;
     claim_interface_rc := LIBUSB_SUCCESS;
     release_interface_rc := LIBUSB_SUCCESS;
     alloc_transfer_ok := true;
     evdev_new_ok := true;
     enable_event_code_rc := fun _ _ => 0;
     uinput_create_rc := 0 |}.

(** *** Device profiles

    The profile of the specification is what [init_ctrl] puts into the
    evdev description of a product. *)

Inductive ButtonSet : Type := NoButtons | FourLeft | EightSplit | NineMixed.

Record DeviceProfile : Type := {
  vendorId    : Z;
  productId   : Z;
  displayName : string;
  maxX        : Z;
  maxY        : Z;
  maxPressure : Z;
  maxTiltX    : Z;
  maxTiltY    : Z;
  buttonSet   : ButtonSet;
  hasWheel    : bool
}.

Definition ev_type_eqb (a b : ev_type) : bool :=
  match a, b with
  | EV_SYN, EV_SYN | EV_KEY, EV_KEY | EV_REL, EV_REL | EV_ABS, EV_ABS => true
  | _, _ => false
  end.

Definition ev_code_index (c : ev_code) : Z :=
  match c with
  | SYN_REPORT => 0
  | BTN_0 => 1 | BTN_1 => 2 | BTN_2 => 3 | BTN_3 => 4
  | BTN_4 => 5 | BTN_5 => 6 | BTN_6 => 7 | BTN_7 => 8
  | BTN_MIDDLE => 9
  | BTN_TOOL_PEN => 10 | BTN_TOOL_RUBBER => 11 | BTN_TOUCH => 12
  | BTN_STYLUS => 13 | BTN_STYLUS2 => 14
  | ABS_X => 15 | ABS_Y => 16 | ABS_PRESSURE => 17
  | ABS_TILT_X => 18 | ABS_TILT_Y => 19
  | REL_WHEEL => 20
  end.

Definition ev_code_eqb (a b : ev_code) : bool :=
  ev_code_index a =? ev_code_index b.

Definition has_code (e : libevdev) (t : ev_type) (c : ev_code) : bool :=
  existsb (fun x => ev_type_eqb (fst (fst x)) t && ev_code_eqb (snd (fst x)) c)
          (event_codes e).

(** The maximum declared for an ABS axis, 0 when the axis is absent. *)
Definition abs_maximum (e : libevdev) (c : ev_code) : Z :=
  match find (fun x => ev_type_eqb (fst (fst x)) EV_ABS && ev_code_eqb (snd (fst x)) c)
             (event_codes e) with
  | Some (_, _, Some a) => maximum a
  | _ => 0
  end.

Definition button_set_of (e : libevdev) : ButtonSet :=
  if has_code e EV_KEY BTN_MIDDLE then NineMixed
  else if has_code e EV_KEY BTN_4 then EightSplit
  else if has_code e EV_KEY BTN_0 then FourLeft
  else NoButtons.

Definition profile_of (e : libevdev) : DeviceProfile :=
  {| vendorId := id_vendor e;
     productId := id_product e;
     displayName := evdev_name e;
     maxX := abs_maximum e ABS_X;
     maxY := abs_maximum e ABS_Y;
     maxPressure := abs_maximum e ABS_PRESSURE;
     maxTiltX := abs_maximum e ABS_TILT_X;
     maxTiltY := abs_maximum e ABS_TILT_Y;
     buttonSet := button_set_of e;
     hasWheel := has_code e EV_REL REL_WHEEL |}.

Definition device (addr vendor product : Z) : libusb_device :=
  {| dev_addr := addr;
     dev_descriptor :=
       Some {| idVendor := vendor; idProduct := product; bcdDevice := 0 |} |}.

(** [lookup] of the specification, as [hotplug_callback] performs it on an
    arrival: the device is accepted when [find_device] finds it in the
    one-element list, and its profile is the description [init_ctrl]
    builds for it. *)
Definition lookup (vendorId productId : Z) : option DeviceProfile :=
  let dev := device 0 vendorId productId in
  if find_device (Some [Some dev]) 1 <? 0 then None
  else option_map profile_of
         (g_evdev (state (init_ctrl all_succeed (Some dev) initial_globals))).

(** The relative-axis events written. *)
Definition rel_events (t : list Call.t) : list input_event :=
  filter (fun e => ev_type_eqb (type e) EV_REL) (uinput_events t).

(** Number of SYN_REPORT markers written. *)
Definition is_sync (e : input_event) : bool :=
  ev_type_eqb (type e) EV_SYN && ev_code_eqb (code e) SYN_REPORT.

Definition sync_reports (t : list Call.t) : nat :=
  List.length (filter is_sync (uinput_events t)).

(** The test [find_device] applies to one entry of its list. *)
Definition is_supported_entry (entry : option libusb_device) : bool :=
  match entry with
  | Some dev =>
      match dev_descriptor dev with
      | Some desc =>
          (idVendor desc =? VENDOR_ID_HANVON)
          && case_of supported_products (idProduct desc)
      | None => false
      end
  | None => false
  end.

(** *** Packets the decoder rejects *)

(** The three length checks of the switch. *)
Definition too_short (tx : libusb_transfer) : Prop :=
  let byte0 := byte_at (buffer tx) 0 in
  (byte0 = BUTTON_EVENT_GP /\ actual_length tx < 5)
  \/ (byte0 = PEN_EVENT /\ actual_length tx < 10)
  \/ (byte0 = BUTTON_EVENT_0906 /\ actual_length tx < 4).

(** A message type the switch has no case for. *)
Definition unknown_type (byte0 : Z) : Prop :=
  byte0 <> BUTTON_EVENT_GP /\ byte0 <> PEN_EVENT /\ byte0 <> BUTTON_EVENT_0906.

(** *** The wheel delta in the words of the specification

    "compute delta = byte - wheel.last; if |delta| > threshold assume 6-bit
    wrap-around and correct by +-0x40".  The specification names the
    threshold 0x20; the source compares with 0x3f / 2. *)
Definition spec_wheel_delta (threshold last byte : Z) : Z :=
  let delta := byte - last in
  if Z.abs delta >? threshold then
    (if delta >? 0 then delta - 0x40 else delta + 0x40)
  else delta.

Definition spec_wheel_events (threshold last byte : Z) : list SemanticEvent :=
  let delta := spec_wheel_delta threshold last byte in
  if delta =? 0 then [] else [RelAxis Wheel delta].

(** *** The steps of an arrival and their undoing *)

Inductive acquisition_step : Type :=
| step_open
| step_detach
| step_claim
| step_sink
| step_alloc
| step_submit.

Definition acquisition_order : list acquisition_step :=
  [step_open; step_detach; step_claim; step_sink; step_alloc; step_submit].

Definition step_index (k : acquisition_step) : nat :=
  match k with
  | step_open => 0
  | step_detach => 1
  | step_claim => 2
  | step_sink => 3
  | step_alloc => 4
  | step_submit => 5
  end.

(** The steps completed when step [k] fails. *)
Definition steps_before (k : acquisition_step) : list acquisition_step :=
  firstn (step_index k) acquisition_order.

(** What [init_ctrl] returns for a device; it does not depend on the
    statics (lemma [init_ctrl_outcome]). *)
Definition init_ctrl_rc (env : environment) (dev : libusb_device) : Z :=
  value (init_ctrl env (Some dev) initial_globals).

(** The first step of an arrival that the environment makes fail, in the
    sense of the test the source applies to that step's return code: first
    among the steps that follow the kernel-driver hand-off, then among all
    of them. *)
Definition failing_after_detach (env : environment) (dev : libusb_device) : option acquisition_step :=
  if negb (claim_interface_rc env =? LIBUSB_SUCCESS) then Some step_claim
  else if init_ctrl_rc env dev <? 0 then Some step_sink
  else if negb (alloc_transfer_ok env) then Some step_alloc
  else if negb (submit_transfer_rc env =? LIBUSB_SUCCESS) then Some step_submit
  else None.

Definition failing_step (env : environment) (dev : libusb_device) : option acquisition_step :=
  if negb (open_rc env =? LIBUSB_SUCCESS) then Some step_open
  else if (if kernel_driver_active_rc env =? 1
           then negb (detach_kernel_driver_rc env =? LIBUSB_SUCCESS)
           else (kernel_driver_active_rc env <? 0)
                && negb (kernel_driver_active_rc env =? LIBUSB_ERROR_NOT_SUPPORTED))
  then Some step_detach
  else failing_after_detach env dev.

(** The call that gives back what a completed step acquired. *)
Definition undo
  (h : option libusb_device_handle) (ud : option libevdev_uinput)
  (tx : option libusb_transfer) (k : acquisition_step) : list Call.t :=
  match k with
  | step_open => [Call.libusb_close h]
  | step_detach => [Call.libusb_attach_kernel_driver h 0]
  | step_claim => [Call.libusb_release_interface h 0]
  | step_sink => [Call.libevdev_uinput_destroy ud]
  | step_alloc => [Call.libusb_free_transfer tx]
  | step_submit => []
  end.

(** The completed steps undone, last one first. *)
Definition rollback
  (h : option libusb_device_handle) (ud : option libevdev_uinput)
  (tx : option libusb_transfer) (k : acquisition_step) : list Call.t :=
  flat_map (undo h ud tx) (rev (steps_before k)).

Definition is_release (c : Call.t) : bool :=
  match c with
  | Call.libusb_close _
  | Call.libusb_attach_kernel_driver _ _
  | Call.libusb_release_interface _ _
  | Call.libevdev_uinput_destroy _
  | Call.libusb_free_transfer _ => true
  | _ => false
  end.

(** No session: every handle is null. *)
Definition session_empty (g : globals) : Prop :=
  g_dev_handle g = None /\ g_uidev g = None /\ g_evdev g = None /\ g_tx g = None.

(** What a callback leaves behind: its value, the statics, and the calls
    it made on resources. *)
Definition outcome {A : Type} (r : result A) : A * globals * list Call.t :=
  (value r, state r, resource_calls (trace r)).

(** A session: every handle is set. *)
Definition session_active (g : globals) : Prop :=
  is_null (g_dev_handle g) = false /\ is_null (g_uidev g) = false
  /\ is_null (g_evdev g) = false /\ is_null (g_tx g) = false.

(** The stored wheel position is a 6-bit value. *)
Definition wheel_in_range (g : globals) : Prop :=
  0 <= g_wheel_position g <= 0x3f.

(** Either no session or a whole one, and a wheel position in range. *)
Definition session_invariant (g : globals) : Prop :=
  (session_empty g \/ session_active g) /\ wheel_in_range g.

(** The statics the program can be in: it starts from [initial_globals]
    and then runs its three callbacks, on any device, on any transfer of
    bytes and with any answers from the libraries. *)
Inductive reachable : globals -> Prop :=
| reach_start : reachable initial_globals
| reach_hotplug (env : environment) (dev : libusb_device)
    (event : libusb_hotplug_event) (g : globals) :
    reachable g -> reachable (state (hotplug_callback env dev event g))
| reach_transfer (env : environment) (tx : libusb_transfer) (g : globals) :
    reachable g -> Forall is_byte (buffer tx) ->
    reachable (state (callback_default env tx g))
| reach_signal (signum : Z) (g : globals) :
    reachable g -> reachable (state (sigterm_handler signum g)).

(** *** Sessions and packets for the examples *)

Definition example_sink : libevdev_uinput := {| uinput_evdev := empty_evdev |}.

(** A completed transfer that delivered [packet] to the sink [ud]. *)
Definition completed_transfer (ud : option libevdev_uinput) (packet : list Z) : libusb_transfer :=
  {| dev_handle := None; endpoint := 0x81; status := LIBUSB_TRANSFER_COMPLETED;
     buffer := packet; tx_length := AM_PACKET_LEN;
     actual_length := Z.of_nat (List.length packet);
     user_data := ud; timeout := 0 |}.

(** The statics once a tablet of product [product] has arrived and every
    step went well. *)
Definition session_of (product : Z) : globals :=
  state (hotplug_callback all_succeed (device 1 VENDOR_ID_HANVON product)
           LIBUSB_HOTPLUG_EVENT_DEVICE_ARRIVED initial_globals).

(** An environment in which the uinput device cannot be created and
    everything else succeeds. *)
Definition uinput_create_fails : environment :=
  {| uinput_write_event_rc := uinput_write_event_rc all_succeed;
     submit_transfer_rc := submit_transfer_rc all_succeed;
     cancel_transfer_rc := cancel_transfer_rc all_succeed;
     open_rc := open_rc all_succeed;
     kernel_driver_active_rc := kernel_driver_active_rc all_succeed;
     detach_kernel_driver_rc := detach_kernel_driver_rc all_succeed;
     attach_kernel_driver_rc := attach_kernel_driver_rc all_succeed;
     claim_interface_rc := claim_interface_rc all_succeed;
     release_interface_rc := release_interface_rc all_succeed;
     alloc_transfer_ok := alloc_transfer_ok all_succeed;
     evdev_new_ok := evdev_new_ok all_succeed;
     enable_event_code_rc := enable_event_code_rc all_succeed;
     uinput_create_rc := - ENOMEM |}.

(** The libraries when only the submission of a transfer fails. *)
Definition submit_fails : environment :=
  {| uinput_write_event_rc := uinput_write_event_rc all_succeed;
     submit_transfer_rc := LIBUSB_ERROR_NO_DEVICE;
     cancel_transfer_rc := cancel_transfer_rc all_succeed;
     open_rc := open_rc all_succeed;
     kernel_driver_active_rc := kernel_driver_active_rc all_succeed;
     detach_kernel_driver_rc := detach_kernel_driver_rc all_succeed;
     attach_kernel_driver_rc := attach_kernel_driver_rc all_succeed;
     claim_interface_rc := claim_interface_rc all_succeed;
     release_interface_rc := release_interface_rc all_succeed;
     alloc_transfer_ok := alloc_transfer_ok all_succeed;
     evdev_new_ok := evdev_new_ok all_succeed;
     enable_event_code_rc := enable_event_code_rc all_succeed;
     uinput_create_rc := uinput_create_rc all_succeed |}.

(** The statics after a tablet arrived, its wheel was turned to position
    5, and the tablet left. *)
Definition after_wheel_session : globals :=
  let dev := device 1 VENDOR_ID_HANVON PRODUCT_ID_AM1209 in
  let g1 := session_of PRODUCT_ID_AM1209 in
  let g2 := state (callback_default all_succeed
                     (completed_transfer (g_uidev g1) [0x01; 0x55; 0x05; 0x00; 0x00])
                     g1) in
  state (hotplug_callback all_succeed dev LIBUSB_HOTPLUG_EVENT_DEVICE_LEFT g2).

(** The pen packet of the specification's example, and the same packet
    cut to 9 bytes. *)
Definition pen_example : libusb_transfer :=
  completed_transfer (Some example_sink)
    [0x02; 0x81; 0x01; 0x02; 0x00; 0x10; 0x04; 0x00; 0x05; 0x06].

Definition short_pen_example : libusb_transfer :=
  completed_transfer (Some example_sink)
    [0x02; 0x81; 0x01; 0x02; 0x00; 0x10; 0x04; 0x00; 0x05].

(** A packet of no known message type. *)
Definition unknown_example : libusb_transfer :=
  completed_transfer (Some example_sink) [0x07; 0x00; 0x00; 0x00].

(** The session of an APPIV0906 and a compact-button packet, with the
    given byte 3, delivered to its sink. *)
Definition appiv_session : globals := session_of PRODUCT_ID_APPIV0906.

Definition compact_example (flags : Z) : libusb_transfer :=
  completed_transfer (g_uidev appiv_session) [0x0C; 0x00; 0x00; flags].

(** The session of a GP0504 and a second tablet. *)
Definition gp_session : globals := session_of PRODUCT_ID_GP0504.

Definition second_device : libusb_device :=
  device 2 VENDOR_ID_HANVON PRODUCT_ID_AM1209.

(** No session, the wheel position left at [w]. *)
Definition wheel_at (w : Z) : globals := set_wheel_position w initial_globals.

(** The profile of the running session. *)
Definition session_profile (g : globals) : option DeviceProfile :=
  option_map profile_of (g_evdev g).

(** An event other than the four buttons of [lbuttons] and the marker. *)
Definition is_extended (e : input_event) : bool :=
  negb (is_sync e) && negb (existsb (ev_code_eqb (code e)) lbuttons).

(** The specification's sentence on the compact-button arm, for one decode: bits beyond
    0x08 give rise to events exactly when the session's button set is
    NineMixed. *)
Definition compact_claim (env : environment) (g : globals) (tx : libusb_transfer) : Prop :=
  existsb is_extended (uinput_events (trace (callback_default env tx g))) = true
  <-> option_map buttonSet (session_profile g) = Some NineMixed.

(** *** Button bytes, transfers and the shape of events *)

(** [tx->status == LIBUSB_TRANSFER_COMPLETED] *)
Definition is_completed (s : libusb_transfer_status) : bool :=
  match s with LIBUSB_TRANSFER_COMPLETED => true | _ => false end.

(** The three buttons a button byte reports on one side: bits 0x02, 0x04
    and 0x08 are the buttons [first + 1], [first + 2] and [first + 3]. *)
Definition button_events (first : nat) (data : Z) : list SemanticEvent :=
  [ Button (first + 1) (Z.testbit data 1);
    Button (first + 2) (Z.testbit data 2);
    Button (first + 3) (Z.testbit data 3) ].

(** What the decoder may write: the marker; a key among the tool, touch,
    stylus and button codes of the switch, with value 0 or 1 (the buttons
    of the right set only for a packet with the right marker, [right]); a
    wheel step; an axis value within the width of its bytes. *)
Definition decoder_event (right : bool) (e : input_event) : Prop :=
  match type e with
  | EV_SYN => code e = SYN_REPORT /\ value_ e = 0
  | EV_KEY =>
      In (code e)
         ([BTN_TOOL_PEN; BTN_TOOL_RUBBER; BTN_TOUCH; BTN_STYLUS;
           BTN_0; BTN_1; BTN_2; BTN_3]
          ++ (if right then [BTN_5; BTN_6; BTN_7] else []))
      /\ (value_ e = 0 \/ value_ e = 1)
  | EV_REL => code e = REL_WHEEL /\ - 0x20 <= value_ e <= 0x20 /\ value_ e <> 0
  | EV_ABS =>
      match code e with
      | ABS_X | ABS_Y => 0 <= value_ e <= 0xffff
      | ABS_PRESSURE => 0 <= value_ e < AM_MAX_PRESSURE
      | ABS_TILT_X | ABS_TILT_Y => 0 <= value_ e <= 0xff
      | _ => False
      end
  end.

(** A packet that reaches [report_buttons] with the right button set. *)
Definition has_right_marker (tx : libusb_transfer) : bool :=
  (byte_at (buffer tx) 0 =? BUTTON_EVENT_GP) && (byte_at (buffer tx) 3 =? 0xAA).

(** A general-button packet with button bytes on both sides, and one with
    a wheel position on each side. *)
Definition both_sides_example : libusb_transfer :=
  completed_transfer (Some example_sink) [0x01; 0x55; 0xa6; 0xAA; 0xa8].

Definition two_wheels_example : libusb_transfer :=
  completed_transfer (Some example_sink) [0x01; 0x55; 0x05; 0xAA; 0x07].

(** *** Device lists and descriptions *)

(** A list of devices as libusb_get_device_list may return it: a null
    entry, a device whose descriptor cannot be read, a device of another
    vendor, two Hanvon tablets. *)
Definition device_list_example : list (option libusb_device) :=
  [ None;
    Some {| dev_addr := 1; dev_descriptor := None |};
    Some (device 2 0x056a PRODUCT_ID_AM1209);
    Some (device 3 VENDOR_ID_HANVON PRODUCT_ID_GP0504);
    Some (device 4 VENDOR_ID_HANVON PRODUCT_ID_AM1209) ].

(** The description [init_ctrl] ends with for a descriptor when no call
    fails, written out: identity, properties, event types, and the codes in
    the order the source enables them. *)
Definition full_description (desc : libusb_device_descriptor) : libevdev :=
  let appiv := idProduct desc =? PRODUCT_ID_APPIV0906 in
  let axis (m fz res : Z) :=
    Some {| minimum := 0; maximum := m; fuzz := fz; flat := 0; resolution := res |} in
  {| evdev_name := device_name (idProduct desc);
     id_vendor := idVendor desc;
     id_product := idProduct desc;
     id_bustype := BUS_USB;
     id_version := bcdDevice desc;
     properties := [INPUT_PROP_POINTER; INPUT_PROP_DIRECT];
     event_types := [EV_SYN; EV_KEY; EV_ABS; EV_REL];
     event_codes :=
       [ (EV_SYN, SYN_REPORT, None);
         (EV_KEY, BTN_TOOL_PEN, None); (EV_KEY, BTN_TOOL_RUBBER, None);
         (EV_KEY, BTN_TOUCH, None); (EV_KEY, BTN_STYLUS, None);
         (EV_KEY, BTN_STYLUS2, None);
         (EV_ABS, ABS_X,
          axis (if appiv then APPIV_MAX_ABS_X else AM_MAX_ABS_X) 4 AM_RESOLUTION);
         (EV_ABS, ABS_Y,
          axis (if appiv then APPIV_MAX_ABS_Y else AM_MAX_ABS_Y) 4 AM_RESOLUTION);
         (EV_ABS, ABS_PRESSURE, axis AM_MAX_PRESSURE 0 0);
         (EV_ABS, ABS_TILT_X, axis AM_MAX_TILT_X 0 0);
         (EV_ABS, ABS_TILT_Y, axis AM_MAX_TILT_Y 0 0);
         (EV_REL, REL_WHEEL, None) ]
       ++ map (fun c => (EV_KEY, c, None)) (device_buttons (idProduct desc)) |}.

(** The library calls of [init_ctrl] whose failure the source acts on all
    succeed. *)
Definition init_ctrl_succeeds (env : environment) : Prop :=
  evdev_new_ok env = true
  /\ (forall t c, 0 <= enable_event_code_rc env t c)
  /\ 0 <= uinput_create_rc env.

(** The button set the switch of [init_ctrl] gives a product. *)
Definition button_set_for (product : Z) : ButtonSet :=
  if product =? PRODUCT_ID_APPIV0906 then NineMixed
  else if (product =? PRODUCT_ID_AM1107) || (product =? PRODUCT_ID_AM1209) then EightSplit
  else FourLeft.

(** The return code of [init_ctrl] on a device whose descriptor can be
    read, in terms of what the libraries answer: the first failure among
    the allocation of the description, the five ABS axes in source order
    and the creation of the uinput device; 0 when there is none. *)
Definition first_failure (env : environment) : Z :=
  let axis c := enable_event_code_rc env EV_ABS c in
  if negb (evdev_new_ok env) then - ENOMEM
  else if axis ABS_X <? 0 then axis ABS_X
  else if axis ABS_Y <? 0 then axis ABS_Y
  else if axis ABS_PRESSURE <? 0 then axis ABS_PRESSURE
  else if axis ABS_TILT_X <? 0 then axis ABS_TILT_X
  else if axis ABS_TILT_Y <? 0 then axis ABS_TILT_Y
  else if uinput_create_rc env <? 0 then uinput_create_rc env
  else 0.

(** *** Sessions *)

(** The transfer of a session as [libusb_fill_interrupt_transfer] leaves
    it: endpoint 0x81, the 10-byte buffer, no timeout, the sink as user
    data. *)
Definition session_transfer
  (h : libusb_device_handle) (ud : libevdev_uinput) : libusb_transfer :=
  {| dev_handle := Some h; endpoint := 0x81; status := LIBUSB_TRANSFER_COMPLETED;
     buffer := g_buffer; tx_length := AM_PACKET_LEN; actual_length := 0;
     user_data := Some ud; timeout := 0 |}.

(** What an arrival on [dev] acquires besides the handle: the uinput
    device that [init_ctrl] leaves in [g_uidev], and the transfer filled in
    for the handle and that sink. *)
Definition acquired_sink (env : environment) (dev : libusb_device) : option libevdev_uinput :=
  g_uidev (state (init_ctrl env (Some dev) initial_globals)).

Definition acquired_transfer (env : environment) (dev : libusb_device) : option libusb_transfer :=
  option_map (session_transfer {| libusb_get_device := dev |}) (acquired_sink env dev).

(** The statics of a session on [dev] with the description [e]. *)
Definition session_on
  (dev : libusb_device) (e : libevdev) (running : bool) (wheel : Z) : globals :=
  let h := {| libusb_get_device := dev |} in
  let ud := {| uinput_evdev := e |} in
  {| g_dev_handle := Some h; g_uidev := Some ud; g_evdev := Some e;
     g_tx := Some (session_transfer h ud);
     g_running := running; g_wheel_position := wheel |}.

(** The calls that take a session down, in the order of the source. *)
Definition teardown_calls (g : globals) : list Call.t :=
  [ Call.libusb_cancel_transfer (g_tx g);
    Call.libusb_free_transfer (g_tx g);
    Call.libevdev_uinput_destroy (g_uidev g);
    Call.libusb_release_interface (g_dev_handle g) 0;
    Call.libusb_attach_kernel_driver (g_dev_handle g) 0;
    Call.libusb_close (g_dev_handle g) ].

(** The statics without a session: every handle null, the rest kept. *)
Definition without_session (g : globals) : globals :=
  {| g_dev_handle := None; g_uidev := None; g_evdev := None; g_tx := None;
     g_running := g_running g; g_wheel_position := g_wheel_position g |}.

(** The handles of the statics belong together: none is set, or all are,
    and then the uinput device was made from the description, and the
    transfer reads endpoint 0x81 of the open handle into the sink. *)
Definition session_consistent (g : globals) : Prop :=
  match g_dev_handle g, g_uidev g, g_evdev g, g_tx g with
  | None, None, None, None => True
  | Some h, Some ud, Some e, Some tx =>
      uinput_evdev ud = e /\ tx = session_transfer h ud
  | _, _, _, _ => False
  end.

(** A block that leaves the running flag alone, returns, if it returns,
    0, and writes no input event. *)
Definition quiet_block (b : block) : Prop :=
  forall g, g_running (state (b g)) = g_running g
            /\ (value (b g) = inl 0 \/ value (b g) = inr tt)
            /\ uinput_events (trace (b g)) = [].

(** ** main: start-up, the event loop, shutdown

    [main] hands control to libusb, which runs the two callbacks from
    inside libusb_hotplug_register_callback (the devices already present,
    because of LIBUSB_HOTPLUG_ENUMERATE) and from inside each
    libusb_handle_events_timeout_completed; the kernel runs
    [sigterm_handler] when one of the two signals arrives.  What runs, in
    which order and with which answers from the libraries is the
    [schedule]; the model of [main] is a function of it.  A signal is
    placed between two callbacks: the flag it clears is read only at the
    head of the loop and at the end of [callback_default], so that a signal
    during a callback acts as one before it. *)

Definition EXIT_SUCCESS : Z := 0.
Definition EXIT_FAILURE : Z := 1.
Definition LIBUSB_ERROR_INTERRUPTED : Z := -10.
Definition LIBUSB_HOTPLUG_MATCH_ANY : Z := -1.

(** The signals [main] installs [sigterm_handler] for. *)
Inductive handled_signal : Type := SIGINT | SIGTERM.

Definition signal_number (s : handled_signal) : Z :=
  match s with SIGINT => 2 | SIGTERM => 15 end.

Inductive delivery : Type :=
| hotplug_event (env : environment) (dev : libusb_device) (event : libusb_hotplug_event)
| transfer_done (env : environment) (tx : libusb_transfer)
| signal (s : handled_signal).

(** The return value of [hotplug_callback] goes to libusb. *)
Definition deliver (d : delivery) : M unit :=
  match d with
  | hotplug_event env dev event => hotplug_callback env dev event ;; ret tt
  | transfer_done env tx => callback_default env tx
  | signal s => sigterm_handler (signal_number s)
  end.

Fixpoint deliver_all (ds : list delivery) : M unit :=
  match ds with
  | [] => ret tt
  | d :: ds' => deliver d ;; deliver_all ds'
  end.

Record schedule : Type := {
  init_rc      : Z;      (* libusb_init *)
  has_hotplug  : bool;   (* libusb_has_capability(LIBUSB_CAP_HAS_HOTPLUG) *)
  register_rc  : Z;      (* libusb_hotplug_register_callback *)
  enumeration  : list delivery;   (* what runs during the registration *)
  rounds       : list (list delivery * Z);
      (* each libusb_handle_events_timeout_completed: what runs during
         it, and its return code *)
  shutdown_env : environment      (* the answers during main's cleanup *)
}.

Module Main.

(** The calls of [main] itself, and [driver] for the calls and DEBUG lines
    of the callbacks and of the cleanup, which are entries of [Call.t]. *)
Inductive call : Type :=
| driver (c : Call.t)
| libusb_init
| sigaction (s : handled_signal)
| libusb_has_capability
| libusb_hotplug_register_callback (vendor_id product_id dev_class : Z)
| libusb_handle_events_timeout_completed (seconds : Z)
| libusb_hotplug_deregister_callback
| libusb_exit.

Record result (A : Type) : Type := {
  returned : A;
  statics  : globals;
  calls    : list call
}.
Arguments returned {A} _.
Arguments statics {A} _.
Arguments calls {A} _.

Definition P (A : Type) : Type := globals -> result A.

Definition ret {A : Type} (a : A) : P A :=
  fun g => {| returned := a; statics := g; calls := [] |}.

Definition bind {A B : Type} (m : P A) (f : A -> P B) : P B :=
  fun g =>
    let r1 := m g in
    let r2 := f (returned r1) (statics r1) in
    {| returned := returned r2; statics := statics r2;
       calls := calls r1 ++ calls r2 |}.

(** A library call of [main]. *)
Definition call_ (c : call) : P unit :=
  fun g => {| returned := tt; statics := g; calls := [c] |}.

(** A piece of the driver run from [main]. *)
Definition lift {A : Type} (m : M A) : P A :=
  fun g =>
    let r := m g in
    {| returned := value r; statics := state r; calls := map driver (trace r) |}.

End Main.

Declare Scope main_scope.
Delimit Scope main_scope with main.
Notation "x <- m ;; k" := (Main.bind m (fun x => k))
  (at level 61, m at next level, right associativity) : main_scope.
Notation "m ;; k" := (Main.bind m (fun _ => k))
  (at level 61, right associativity) : main_scope.

(** The loop [while (g_running)] over the rounds of the schedule: [true]
    when the loop was left, [false] when the schedule ends with the loop
    still going.  After a round the source only logs: "interrupted" by
    DEBUG, any other error by fprintf. *)
Fixpoint event_loop (rounds : list (list delivery * Z)) : Main.P bool :=
  fun g =>
    if g_running g then
      match rounds with
      | [] => Main.ret false g
      | (ds, rc) :: rounds' =>
          (Main.call_ (Main.libusb_handle_events_timeout_completed 1) ;;
           Main.lift (deliver_all ds) ;;
           Main.lift (when_ ((rc <? 0) && (rc =? LIBUSB_ERROR_INTERRUPTED))
                        (DEBUG "libusb event handling interrupted." [])) ;;
           event_loop rounds')%main g
      end
    else Main.ret true g.

(** "Final cleanup for the active device" *)
Definition final_cleanup (env : environment) : M unit :=
  g <- get ;;
  when_ (negb (is_null (g_dev_handle g)))
    (DEBUG "Cleaning up active device before exit..." [] ;;
     when_ (negb (is_null (g_tx g)))
       (libusb_cancel_transfer env (g_tx g) ;;
        libusb_free_transfer (g_tx g) ;;
        modify (set_tx None)) ;;
     when_ (negb (is_null (g_uidev g)))
       (libevdev_uinput_destroy (g_uidev g) ;;
        modify (set_uidev None) ;;
        modify (set_evdev None)) ;;
     libusb_release_interface env (g_dev_handle g) 0 ;;
     libusb_attach_kernel_driver env (g_dev_handle g) 0 ;;
     libusb_close (g_dev_handle g) ;;
     modify (set_dev_handle None) ;;
     DEBUG "Active device cleanup complete." []).

(** [main()]: [Some] exit status, or [None] when the schedule ends with the
    event loop still going.  The fprintf and printf lines are not
    recorded. *)
Definition main (w : schedule) : Main.P (option Z) :=
  (Main.call_ Main.libusb_init ;;
   if init_rc w <? 0 then Main.ret (Some EXIT_FAILURE)
   else
     Main.lift (DEBUG "libusb initialized." []) ;;
     Main.call_ (Main.sigaction SIGINT) ;;
     Main.call_ (Main.sigaction SIGTERM) ;;
     Main.lift (DEBUG "Signal handlers registered." []) ;;
     Main.call_ Main.libusb_has_capability ;;
     if negb (has_hotplug w) then
       Main.call_ Main.libusb_exit ;;
       Main.ret (Some EXIT_FAILURE)
     else
       Main.lift (DEBUG "libusb hotplug capability detected." []) ;;
       Main.call_ (Main.libusb_hotplug_register_callback VENDOR_ID_HANVON
                     LIBUSB_HOTPLUG_MATCH_ANY LIBUSB_HOTPLUG_MATCH_ANY) ;;
       Main.lift (deliver_all (enumeration w)) ;;
       if negb (register_rc w =? LIBUSB_SUCCESS) then
         Main.call_ Main.libusb_exit ;;
         Main.ret (Some EXIT_FAILURE)
       else
         Main.lift (DEBUG "Hotplug callback registered. Waiting for events..." []) ;;
         left_loop <- event_loop (rounds w) ;;
         if left_loop then
           Main.lift (DEBUG "Exiting event loop." []) ;;
           Main.call_ Main.libusb_hotplug_deregister_callback ;;
           Main.lift (DEBUG "Hotplug callback deregistered." []) ;;
           Main.lift (final_cleanup (shutdown_env w)) ;;
           Main.call_ Main.libusb_exit ;;
           Main.lift (DEBUG "libusb exited." []) ;;
           Main.ret (Some EXIT_SUCCESS)
         else Main.ret None)%main.

(** *** Reading a schedule and a run of main *)

Definition is_signal (d : delivery) : bool :=
  match d with signal _ => true | _ => false end.

Definition is_hotplug (d : delivery) : bool :=
  match d with hotplug_event _ _ _ => true | _ => false end.

Definition has_signal (ds : list delivery) : bool := existsb is_signal ds.

(** The transfers libusb completes carry bytes. *)
Definition delivers_bytes (d : delivery) : Prop :=
  match d with
  | transfer_done _ tx => Forall is_byte (buffer tx)
  | _ => True
  end.

Definition schedule_of_bytes (w : schedule) : Prop :=
  Forall delivers_bytes (enumeration w)
  /\ Forall (fun round => Forall delivers_bytes (fst round)) (rounds w).

(** The three start-up calls whose failure ends [main]. *)
Definition startup_ok (w : schedule) : bool :=
  negb (init_rc w <? 0) && has_hotplug w && (register_rc w =? LIBUSB_SUCCESS).

(** The rounds the loop goes through: up to and including the first one
    during which a signal arrives. *)
Fixpoint rounds_run (rounds : list (list delivery * Z)) (running : bool) : nat :=
  match rounds with
  | [] => O
  | (ds, _) :: rounds' =>
      if running then S (rounds_run rounds' (negb (has_signal ds))) else O
  end.

Definition signalled (w : schedule) : bool :=
  has_signal (enumeration w) || existsb (fun round => has_signal (fst round)) (rounds w).

Definition is_poll (c : Main.call) : bool :=
  match c with Main.libusb_handle_events_timeout_completed _ => true | _ => false end.

(** The calls of main itself, in order. *)
Fixpoint own_calls (cs : list Main.call) : list Main.call :=
  match cs with
  | [] => []
  | Main.driver _ :: cs' => own_calls cs'
  | c :: cs' => c :: own_calls cs'
  end.

(** A schedule in which a tablet is present at start-up and SIGTERM
    arrives during the second round. *)
Definition schedule_example : schedule :=
  {| init_rc := 0; has_hotplug := true; register_rc := LIBUSB_SUCCESS;
     enumeration :=
       [hotplug_event all_succeed (device 1 VENDOR_ID_HANVON PRODUCT_ID_AM1209)
          LIBUSB_HOTPLUG_EVENT_DEVICE_ARRIVED];
     rounds :=
       [ ([transfer_done all_succeed pen_example], 0);
         ([signal SIGTERM], LIBUSB_ERROR_INTERRUPTED);
         ([transfer_done all_succeed pen_example], 0) ];
     shutdown_env := all_succeed |}.

(** A schedule in which libusb has no hotplug support. *)
Definition no_hotplug_example : schedule :=
  {| init_rc := 0; has_hotplug := false; register_rc := LIBUSB_SUCCESS;
     enumeration := []; rounds := []; shutdown_env := all_succeed |}.

(** * Properties *)

(** ** Traces *)

Lemma uinput_events_app (t1 t2 : list Call.t) :
  uinput_events (t1 ++ t2) = uinput_events t1 ++ uinput_events t2.
Proof.
  induction t1 as [|c t1 IH]; [reflexivity|].
  destruct c; cbn; rewrite IH; reflexivity.
Qed.

Lemma resource_calls_app (t1 t2 : list Call.t) :
  resource_calls (t1 ++ t2) = resource_calls t1 ++ resource_calls t2.
Proof.
  induction t1 as [|c t1 IH]; [reflexivity|].
  destruct c; cbn; rewrite IH; reflexivity.
Qed.

Lemma decode_errors_app (t1 t2 : list Call.t) :
  decode_errors (t1 ++ t2) = decode_errors t1 ++ decode_errors t2.
Proof.
  induction t1 as [|c t1 IH]; [reflexivity|].
  cbn [app decode_errors]. destruct (decode_error_of c); rewrite IH; reflexivity.
Qed.

Lemma sync_reports_app (t1 t2 : list Call.t) :
  sync_reports (t1 ++ t2) = (sync_reports t1 + sync_reports t2)%nat.
Proof.
  unfold sync_reports.
  rewrite uinput_events_app, filter_app, length_app. reflexivity.
Qed.

Lemma submitted_app (t1 t2 : list Call.t) :
  submitted (t1 ++ t2) = submitted t1 || submitted t2.
Proof. apply existsb_app. Qed.

(** A conditional DEBUG line changes nothing but the log. *)
Lemma when_DEBUG (c : bool) (msg : string) (args : list Z) (g : globals) :
  when_ c (DEBUG msg args) g =
  {| value := tt; state := g; trace := if c then [Call.DEBUG msg args] else [] |}.
Proof. destruct c; reflexivity. Qed.

Lemma uinput_events_log (c : bool) (msg : string) (args : list Z) :
  uinput_events (if c then [Call.DEBUG msg args] else []) = [].
Proof. destruct c; reflexivity. Qed.

Lemma resource_calls_log (c : bool) (msg : string) (args : list Z) :
  resource_calls (if c then [Call.DEBUG msg args] else []) = [].
Proof. destruct c; reflexivity. Qed.

Lemma sync_reports_log (c : bool) (msg : string) (args : list Z) :
  sync_reports (if c then [Call.DEBUG msg args] else []) = 0%nat.
Proof. destruct c; reflexivity. Qed.

Lemma submitted_log (c : bool) (msg : string) (args : list Z) :
  submitted (if c then [Call.DEBUG msg args] else []) = false.
Proof. destruct c; reflexivity. Qed.

Lemma decode_errors_log (c : bool) (msg : string) (args : list Z) :
  decode_error_of (Call.DEBUG msg args) = None ->
  decode_errors (if c then [Call.DEBUG msg args] else []) = [].
Proof.
  intros H. destruct c; [|reflexivity].
  cbn [decode_errors]. rewrite H. reflexivity.
Qed.

(** Symbolic execution of a monadic term applied to its statics. *)
Ltac run :=
  repeat (cbn [bind ret get modify emit value state trace when_ DEBUG
               libevdev_uinput_write_event libusb_submit_transfer
               g_dev_handle g_uidev g_evdev g_tx g_running g_wheel_position
               set_dev_handle set_uidev set_evdev set_tx set_running
               set_wheel_position];
          rewrite ?when_DEBUG).

Ltac events :=
  repeat (rewrite ?uinput_events_app, ?uinput_events_log;
          cbn [uinput_events app]).

(** ** Bits and bytes *)

Lemma lnot_lnot_b2z (z : Z) : lnot_lnot z = Z.b2z (nonzero z).
Proof. unfold lnot_lnot, nonzero. destruct (z =? 0); reflexivity. Qed.

Lemma land_pow2_testbit (z k : Z) :
  0 <= k -> Z.land z (2 ^ k) = if Z.testbit z k then 2 ^ k else 0.
Proof.
  intros Hk. apply Z.bits_inj'. intros n Hn.
  rewrite Z.land_spec, Z.pow2_bits_eqb by assumption.
  destruct (Z.eqb_spec k n) as [->|Hne].
  - destruct (Z.testbit z n); cbn.
    + rewrite Z.pow2_bits_eqb, Z.eqb_refl by assumption. reflexivity.
    + rewrite Z.bits_0. reflexivity.
  - rewrite andb_false_r.
    destruct (Z.testbit z k).
    + rewrite Z.pow2_bits_eqb by assumption.
      symmetry. apply Z.eqb_neq. assumption.
    + rewrite Z.bits_0. reflexivity.
Qed.

Lemma nonzero_land_bit (z k : Z) :
  0 <= k -> nonzero (Z.land z (2 ^ k)) = Z.testbit z k.
Proof.
  intros Hk. rewrite land_pow2_testbit by assumption. unfold nonzero.
  destruct (Z.testbit z k).
  - assert (0 < 2 ^ k) by (apply Z.pow_pos_nonneg; lia).
    destruct (Z.eqb_spec (2 ^ k) 0); [lia | reflexivity].
  - reflexivity.
Qed.

Lemma nonzero_lor (a b : Z) : nonzero (Z.lor a b) = nonzero a || nonzero b.
Proof.
  unfold nonzero.
  destruct (Z.eqb_spec (Z.lor a b) 0) as [H|H].
  - apply Z.lor_eq_0_iff in H. destruct H as [-> ->]. reflexivity.
  - destruct (Z.eqb_spec a 0) as [->|]; [|reflexivity].
    destruct (Z.eqb_spec b 0) as [->|]; [|reflexivity].
    exfalso. apply H. reflexivity.
Qed.

(** The proximity test of the pen arm: bits 0x80, 0x10 and 0x01. *)
Lemma nonzero_land_active (st : Z) :
  nonzero (Z.land st (Z.lor (Z.lor 0x80 0x10) 0x01)) =
  Z.testbit st 7 || Z.testbit st 4 || Z.testbit st 0.
Proof.
  rewrite !Z.land_lor_distr_r, !nonzero_lor.
  change 0x80 with (2 ^ 7). change 0x10 with (2 ^ 4). change 0x01 with (2 ^ 0).
  rewrite !nonzero_land_bit by lia. reflexivity.
Qed.

Lemma testbit_above (z n m : Z) :
  0 <= z < 2 ^ n -> 0 <= n <= m -> Z.testbit z m = false.
Proof.
  intros Hz Hnm. rewrite <- (Z.mod_small z (2 ^ n)) by assumption.
  apply Z.mod_pow2_bits_high. assumption.
Qed.

(** A wheel position never has the pattern of a button byte. *)
Lemma wheel_byte_is_no_button (data : Z) :
  0 <= data <= 0x3f -> (Z.land data 0xf0 =? 0xa0) = false.
Proof.
  intros Hdata. apply Z.eqb_neq. intros H.
  apply (f_equal (fun z => Z.testbit z 7)) in H.
  rewrite Z.land_spec in H.
  rewrite (testbit_above data 6 7) in H by (cbn; lia).
  discriminate H.
Qed.

(** Two bytes, high byte first, as the source assembles them. *)
Lemma be16 (hi lo : Z) :
  is_byte hi -> is_byte lo ->
  uint16 (Z.lor (Z.shiftl (uint16 hi) 8) lo) = 256 * hi + lo.
Proof.
  unfold is_byte, uint16. intros Hhi Hlo.
  rewrite (Z.mod_small hi) by lia.
  assert (Hdisj : Z.land (Z.shiftl hi 8) lo = 0).
  { apply Z.bits_inj'. intros n Hn.
    rewrite Z.land_spec, Z.bits_0.
    destruct (Z.ltb_spec n 8) as [Hlt|Hge].
    - rewrite Z.shiftl_spec_low by assumption. reflexivity.
    - rewrite andb_comm.
      destruct (Z.eqb_spec lo 0) as [->|Hnz].
      + rewrite Z.bits_0. reflexivity.
      + rewrite Z.bits_above_log2; [reflexivity | lia |].
        apply Z.log2_lt_pow2; [lia|].
        apply Z.lt_le_trans with (2 ^ 8); [cbn; lia|].
        apply Z.pow_le_mono_r; lia. }
  rewrite <- Z.lxor_lor, <- Z.add_nocarry_lxor by assumption.
  rewrite Z.shiftl_mul_pow2 by lia.
  change (2 ^ 8) with 256.
  rewrite Z.mod_small by lia. lia.
Qed.

(** ** The frame around the switch in callback_default *)

Lemma resubmit_state (env : environment) (tx : libusb_transfer) (g : globals) :
  state (resubmit env tx g) = g.
Proof.
  unfold resubmit. run.
  destruct (g_running g && negb (is_null (g_dev_handle g))); run; reflexivity.
Qed.

Lemma resubmit_events (env : environment) (tx : libusb_transfer) (g : globals) :
  uinput_events (trace (resubmit env tx g)) = [].
Proof.
  unfold resubmit. run.
  destruct (g_running g && negb (is_null (g_dev_handle g))); run; events; reflexivity.
Qed.

Lemma resubmit_decode_errors (env : environment) (tx : libusb_transfer) (g : globals) :
  decode_errors (trace (resubmit env tx g)) = [].
Proof.
  unfold resubmit. run.
  destruct (g_running g && negb (is_null (g_dev_handle g))); run.
  - cbn [app decode_errors decode_error_of].
    rewrite decode_errors_log by reflexivity. reflexivity.
  - reflexivity.
Qed.

Lemma resubmit_submitted (env : environment) (tx : libusb_transfer) (g : globals) :
  submitted (trace (resubmit env tx g)) =
  g_running g && negb (is_null (g_dev_handle g)).
Proof.
  unfold resubmit. run.
  destruct (g_running g && negb (is_null (g_dev_handle g))); run; reflexivity.
Qed.

(** On a completed transfer with a sink and at least one byte, the
    callback is the switch, then SYN_REPORT, then the resubmission. *)
Lemma callback_default_frame
  (env : environment) (tx : libusb_transfer) (ud : libevdev_uinput) (g : globals) :
  status tx = LIBUSB_TRANSFER_COMPLETED ->
  user_data tx = Some ud ->
  1 <= actual_length tx ->
  callback_default env tx g =
  bind (switch_msgtype env ud tx)
    (fun _ =>
       bind (libevdev_uinput_write_event env ud EV_SYN SYN_REPORT 0)
         (fun err =>
            bind (when_ (nonzero err) (DEBUG "Error writing EV_SYN: %d (%s)" [err]))
              (fun _ => resubmit env tx))) g.
Proof.
  intros Hst Hud Hlen. unfold callback_default. rewrite Hst, Hud.
  destruct (Z.ltb_spec (actual_length tx) 1); [lia | reflexivity].
Qed.

Lemma callback_default_events
  (env : environment) (tx : libusb_transfer) (ud : libevdev_uinput) (g : globals) :
  status tx = LIBUSB_TRANSFER_COMPLETED ->
  user_data tx = Some ud ->
  1 <= actual_length tx ->
  uinput_events (trace (callback_default env tx g)) =
  uinput_events (trace (switch_msgtype env ud tx g)) ++ [evdev_of SyncBatchEnd].
Proof.
  intros Hst Hud Hlen.
  rewrite (callback_default_frame env tx ud g Hst Hud Hlen).
  run. events. rewrite resubmit_events. reflexivity.
Qed.

Lemma callback_default_state
  (env : environment) (tx : libusb_transfer) (ud : libevdev_uinput) (g : globals) :
  status tx = LIBUSB_TRANSFER_COMPLETED ->
  user_data tx = Some ud ->
  1 <= actual_length tx ->
  state (callback_default env tx g) = state (switch_msgtype env ud tx g).
Proof.
  intros Hst Hud Hlen.
  rewrite (callback_default_frame env tx ud g Hst Hud Hlen).
  run. apply resubmit_state.
Qed.

Lemma callback_default_decode_errors
  (env : environment) (tx : libusb_transfer) (ud : libevdev_uinput) (g : globals) :
  status tx = LIBUSB_TRANSFER_COMPLETED ->
  user_data tx = Some ud ->
  1 <= actual_length tx ->
  decode_errors (trace (callback_default env tx g)) =
  decode_errors (trace (switch_msgtype env ud tx g)).
Proof.
  intros Hst Hud Hlen.
  rewrite (callback_default_frame env tx ud g Hst Hud Hlen).
  run. rewrite !decode_errors_app, resubmit_decode_errors.
  rewrite decode_errors_log by reflexivity.
  cbn [decode_errors decode_error_of]. rewrite !app_nil_r. reflexivity.
Qed.

Lemma callback_default_submitted
  (env : environment) (tx : libusb_transfer) (ud : libevdev_uinput) (g : globals) :
  status tx = LIBUSB_TRANSFER_COMPLETED ->
  user_data tx = Some ud ->
  1 <= actual_length tx ->
  submitted (trace (switch_msgtype env ud tx g)) = false ->
  submitted (trace (callback_default env tx g)) =
  g_running (state (switch_msgtype env ud tx g))
  && negb (is_null (g_dev_handle (state (switch_msgtype env ud tx g)))).
Proof.
  intros Hst Hud Hlen Hsw.
  rewrite (callback_default_frame env tx ud g Hst Hud Hlen).
  run. rewrite !submitted_app, Hsw, submitted_log, resubmit_submitted.
  reflexivity.
Qed.

(** ** The pen arm *)

Lemma case_PEN_EVENT_events
  (env : environment) (ud : libevdev_uinput) (tx : libusb_transfer) (g : globals) :
  AM_PACKET_LEN <= actual_length tx ->
  let data := byte_at (buffer tx) in
  let near := nonzero (Z.land (data 1) (Z.lor (Z.lor 0x80 0x10) 0x01)) in
  uinput_events (trace (case_PEN_EVENT env ud tx g)) =
  [ {| type := EV_KEY;
       code := if nonzero (Z.land (data 1) 0x20) then BTN_TOOL_RUBBER else BTN_TOOL_PEN;
       value_ := Z.b2z near |} ]
  ++ (if near then
        [ {| type := EV_ABS; code := ABS_X;
             value_ := uint16 (Z.lor (Z.shiftl (uint16 (data 2)) 8) (data 3)) |};
          {| type := EV_ABS; code := ABS_Y;
             value_ := uint16 (Z.lor (Z.shiftl (uint16 (data 4)) 8) (data 5)) |};
          {| type := EV_ABS; code := ABS_PRESSURE;
             value_ := Z.shiftr (uint16 (Z.lor (Z.shiftl (uint16 (data 6)) 8) (data 7))) 6 |};
          {| type := EV_ABS; code := ABS_TILT_X; value_ := data 8 |};
          {| type := EV_ABS; code := ABS_TILT_Y; value_ := data 9 |} ]
      else [])
  ++ [ key BTN_TOUCH (nonzero (Z.land (data 1) 0x01));
       key BTN_STYLUS (nonzero (Z.land (data 1) 0x02)) ].
Proof.
  intros Hlen data near. unfold case_PEN_EVENT.
  destruct (Z.ltb_spec (actual_length tx) AM_PACKET_LEN) as [?|_]; [lia|].
  fold data. rewrite !lnot_lnot_b2z. fold near. unfold key.
  destruct near; run; events; reflexivity.
Qed.

Lemma case_PEN_EVENT_state
  (env : environment) (ud : libevdev_uinput) (tx : libusb_transfer) (g : globals) :
  state (case_PEN_EVENT env ud tx g) = g.
Proof.
  unfold case_PEN_EVENT.
  destruct (actual_length tx <? AM_PACKET_LEN); [reflexivity|].
  destruct (nonzero (Z.land (byte_at (buffer tx) 1) (Z.lor (Z.lor 0x80 0x10) 0x01)));
    run; reflexivity.
Qed.

Lemma switch_msgtype_pen
  (env : environment) (ud : libevdev_uinput) (tx : libusb_transfer) :
  byte_at (buffer tx) 0 = PEN_EVENT ->
  switch_msgtype env ud tx = case_PEN_EVENT env ud tx.
Proof. intros H. unfold switch_msgtype. rewrite H. reflexivity. Qed.

(** C1, as amended: a 10-byte pen packet is decoded into the tool state
    (eraser when status bit 0x20 is set, pen otherwise; active when one of
    the status bits 0x80, 0x10, 0x01 is set), then, exactly when the tool is
    active, X, Y (big-endian 16 bit), pressure (big-endian 16 bit shifted
    right by 6) and the two tilt bytes, then Touch (bit 0x01) and
    StylusButton 0 (bit 0x02), then one SyncBatchEnd, in this order. *)
Theorem pen_packet_decoded
  (env : environment) (g : globals) (ud : libevdev_uinput) (tx : libusb_transfer)
  (st x_hi x_lo y_hi y_lo p_hi p_lo tilt_x tilt_y : Z) :
  status tx = LIBUSB_TRANSFER_COMPLETED ->
  user_data tx = Some ud ->
  actual_length tx = 10 ->
  buffer tx = [PEN_EVENT; st; x_hi; x_lo; y_hi; y_lo; p_hi; p_lo; tilt_x; tilt_y] ->
  Forall is_byte (buffer tx) ->
  let active := Z.testbit st 7 || Z.testbit st 4 || Z.testbit st 0 in
  uinput_events (trace (callback_default env tx g)) =
  map evdev_of
    ([ToolState (if Z.testbit st 5 then eraser else pen) active]
     ++ (if active then
           [ AbsAxis AbsX (256 * x_hi + x_lo);
             AbsAxis AbsY (256 * y_hi + y_lo);
             AbsAxis AbsPressure ((256 * p_hi + p_lo) / 2 ^ 6);
             AbsAxis AbsTiltX tilt_x;
             AbsAxis AbsTiltY tilt_y ]
         else [])
     ++ [Touch (Z.testbit st 0); StylusButton 0 (Z.testbit st 1); SyncBatchEnd]).
Proof.
  intros Hst Hud Hlen Hbuf Hbytes active.
  rewrite (callback_default_events env tx ud g Hst Hud) by lia.
  rewrite switch_msgtype_pen by (rewrite Hbuf; reflexivity).
  rewrite case_PEN_EVENT_events by (unfold AM_PACKET_LEN; lia).
  rewrite Hbuf in Hbytes.
  repeat match goal with
         | H : Forall _ (_ :: _) |- _ => inversion H; clear H; subst
         end.
  replace (byte_at (buffer tx) 1) with st by (rewrite Hbuf; reflexivity).
  replace (byte_at (buffer tx) 2) with x_hi by (rewrite Hbuf; reflexivity).
  replace (byte_at (buffer tx) 3) with x_lo by (rewrite Hbuf; reflexivity).
  replace (byte_at (buffer tx) 4) with y_hi by (rewrite Hbuf; reflexivity).
  replace (byte_at (buffer tx) 5) with y_lo by (rewrite Hbuf; reflexivity).
  replace (byte_at (buffer tx) 6) with p_hi by (rewrite Hbuf; reflexivity).
  replace (byte_at (buffer tx) 7) with p_lo by (rewrite Hbuf; reflexivity).
  replace (byte_at (buffer tx) 8) with tilt_x by (rewrite Hbuf; reflexivity).
  replace (byte_at (buffer tx) 9) with tilt_y by (rewrite Hbuf; reflexivity).
  rewrite nonzero_land_active. fold active.
  change (nonzero (Z.land st 32)) with (nonzero (Z.land st (2 ^ 5))).
  change (nonzero (Z.land st 1)) with (nonzero (Z.land st (2 ^ 0))).
  change (nonzero (Z.land st 2)) with (nonzero (Z.land st (2 ^ 1))).
  rewrite !nonzero_land_bit by lia.
  rewrite !be16 by assumption.
  rewrite Z.shiftr_div_pow2 by lia.
  destruct (Z.testbit st 5), active; reflexivity.
Qed.

(** The pen packet of the specification's example: status 0x81 has bit
    0x02 clear, so the stylus button is reported released. *)
Lemma pen_packet_decoded_witness :
  Forall is_byte (buffer pen_example) /\
  uinput_events (trace (callback_default all_succeed pen_example initial_globals)) =
  map evdev_of
    [ ToolState pen true; AbsAxis AbsX 0x0102; AbsAxis AbsY 0x0010;
      AbsAxis AbsPressure 16; AbsAxis AbsTiltX 5; AbsAxis AbsTiltY 6;
      Touch true; StylusButton 0 false; SyncBatchEnd ].
Proof.
  assert (Hbytes : Forall is_byte (buffer pen_example))
    by (repeat constructor; unfold is_byte; lia).
  split; [exact Hbytes|].
  exact (pen_packet_decoded all_succeed initial_globals example_sink pen_example
           0x81 0x01 0x02 0x00 0x10 0x04 0x00 0x05 0x06
           eq_refl eq_refl eq_refl eq_refl Hbytes).
Defined.

(** C1 as stated fails on its own example: for status 0x81 the code does
    not report StylusButton(0, true). *)
Lemma pen_packet_example_counterexample :
  uinput_events (trace (callback_default all_succeed pen_example initial_globals))
  <> map evdev_of
       [ ToolState pen true; AbsAxis AbsX 0x0102; AbsAxis AbsY 0x0010;
         AbsAxis AbsPressure 16; AbsAxis AbsTiltX 5; AbsAxis AbsTiltY 6;
         Touch true; StylusButton 0 true; SyncBatchEnd ].
Proof. vm_compute. intros H. discriminate H. Qed.

(** The second example of the specification: status 0x00 suppresses the
    Abs events. *)
Lemma pen_packet_out_of_proximity
  (env : environment) (g : globals) (ud : libevdev_uinput)
  (x_hi x_lo y_hi y_lo p_hi p_lo tilt_x tilt_y : Z) :
  uinput_events
    (trace (callback_default env
              (completed_transfer (Some ud)
                 [0x02; 0x00; x_hi; x_lo; y_hi; y_lo; p_hi; p_lo; tilt_x; tilt_y])
              g))
  = map evdev_of
      [ToolState pen false; Touch false; StylusButton 0 false; SyncBatchEnd].
Proof.
  rewrite (callback_default_events env _ ud g) by (reflexivity || (cbn; lia)).
  rewrite switch_msgtype_pen by reflexivity.
  rewrite case_PEN_EVENT_events by (unfold AM_PACKET_LEN; cbn; lia).
  reflexivity.
Qed.

(** ** The wheel branch of report_buttons *)

Lemma wheel_branch
  (env : environment) (ud : libevdev_uinput) (buttons : list ev_code)
  (num_buttons data : Z) (g : globals) :
  0 <= data <= 0x3f ->
  let delta := spec_wheel_delta 0x1f (g_wheel_position g) data in
  uinput_events (trace (report_buttons env ud buttons num_buttons data g)) =
    map evdev_of (spec_wheel_events 0x1f (g_wheel_position g) data)
  /\ g_wheel_position (state (report_buttons env ud buttons num_buttons data g)) =
       (if delta =? 0 then g_wheel_position g else data)
  /\ set_wheel_position (g_wheel_position g)
       (state (report_buttons env ud buttons num_buttons data g)) = g.
Proof.
  intros Hdata delta. unfold report_buttons.
  rewrite (wheel_byte_is_no_button data) by lia.
  destruct (Z.leb_spec data 0x3f) as [_|?]; [|lia].
  run.
  change (Z.quot 63 2) with 0x1f.
  unfold spec_wheel_events. fold (spec_wheel_delta 0x1f (g_wheel_position g) data).
  fold delta. unfold nonzero.
  destruct (delta =? 0); cbn [negb]; run; events.
  - repeat split. destruct g; reflexivity.
  - repeat split. destruct g; reflexivity.
Qed.

Lemma only_wheel_changed (w0 w : Z) (s g : globals) :
  set_wheel_position w0 s = g -> g_wheel_position s = w ->
  s = set_wheel_position w g.
Proof. intros <- <-. destruct s; reflexivity. Qed.

(** A general-button packet with the left marker and no right marker
    reaches [report_buttons] once, on byte 2 and the left button set. *)
Lemma left_marker_packet
  (env : environment) (ud : libevdev_uinput) (tx : libusb_transfer) (g : globals) :
  5 <= actual_length tx ->
  byte_at (buffer tx) 0 = BUTTON_EVENT_GP ->
  byte_at (buffer tx) 1 = 0x55 ->
  byte_at (buffer tx) 3 <> 0xAA ->
  let r := switch_msgtype env ud tx g in
  let r' := report_buttons env ud lbuttons 4 (byte_at (buffer tx) 2) g in
  trace r = trace r' ++ [] /\ state r = state r'.
Proof.
  intros Hlen H0 H1 H3. unfold switch_msgtype, case_BUTTON_EVENT_GP.
  rewrite H0, H1. cbn [Z.eqb BUTTON_EVENT_GP Pos.eqb].
  destruct (Z.ltb_spec (actual_length tx) 5) as [?|_]; [lia|].
  destruct (Z.eqb_spec (byte_at (buffer tx) 3) 0xAA) as [?|_]; [contradiction|].
  run. split; reflexivity.
Qed.

Lemma spec_wheel_delta_zero (last byte : Z) :
  0 <= last <= 0x3f -> 0 <= byte <= 0x3f ->
  (spec_wheel_delta 0x1f last byte =? 0) = (byte =? last).
Proof.
  intros Hl Hb. unfold spec_wheel_delta.
  destruct (Z.gtb_spec (Z.abs (byte - last)) 0x1f);
    destruct (Z.gtb_spec (byte - last) 0);
    destruct (Z.eqb_spec byte last);
    try (apply Z.eqb_eq; lia); try (apply Z.eqb_neq; lia).
Qed.

(** C2, as amended: in the wheel branch, with the stored position and the
    data byte both in 0..0x3f, the decoder computes delta = byte - previous,
    corrects it by 0x40 towards zero exactly when |delta| > 0x1f (that is
    0x3f / 2), writes a wheel event with the corrected delta exactly when it
    is not zero, and the stored position afterwards is the byte; nothing
    else in the statics changes.  The corrected delta lies in -0x20..0x20
    and differs from byte - previous by a multiple of 0x40. *)
Theorem wheel_delta_wrap_corrected
  (env : environment) (ud : libevdev_uinput) (buttons : list ev_code)
  (num_buttons data : Z) (g : globals) :
  0 <= g_wheel_position g <= 0x3f ->
  0 <= data <= 0x3f ->
  let previous := g_wheel_position g in
  let delta := spec_wheel_delta 0x1f previous data in
  let r := report_buttons env ud buttons num_buttons data g in
  uinput_events (trace r) =
    map evdev_of (if delta =? 0 then [] else [RelAxis Wheel delta])
  /\ state r = set_wheel_position data g
  /\ - 0x20 <= delta <= 0x20
  /\ (delta - (data - previous)) mod 0x40 = 0.
Proof.
  intros Hprev Hdata previous delta r.
  destruct (wheel_branch env ud buttons num_buttons data g Hdata)
    as (Hev & Hpos & Hrest).
  fold r in Hev, Hpos, Hrest. fold previous in Hpos, Hrest. fold delta in Hpos.
  split; [exact Hev|]. split.
  - apply (only_wheel_changed previous); [exact Hrest|].
    unfold delta in Hpos. rewrite spec_wheel_delta_zero in Hpos by assumption.
    destruct (Z.eqb_spec data previous); congruence.
  - unfold delta, spec_wheel_delta.
    destruct (Z.gtb_spec (Z.abs (data - previous)) 0x1f);
      destruct (Z.gtb_spec (data - previous) 0); split; try lia.
    + replace (data - previous - 64 - (data - previous)) with (-1 * 64) by lia.
      apply Z.mod_mul. lia.
    + replace (data - previous + 64 - (data - previous)) with (1 * 64) by lia.
      apply Z.mod_mul. lia.
    + rewrite Z.sub_diag. reflexivity.
    + rewrite Z.sub_diag. reflexivity.
Qed.

(** The wrap of the specification's example: from 0x3e to 0x01 is +3. *)
Lemma wheel_delta_wrap_corrected_witness :
  0 <= g_wheel_position (wheel_at 0x3e) <= 0x3f /\ 0 <= 0x01 <= 0x3f /\
  uinput_events
    (trace (report_buttons all_succeed example_sink lbuttons 4 0x01 (wheel_at 0x3e))) =
    map evdev_of [RelAxis Wheel 3]
  /\ state (report_buttons all_succeed example_sink lbuttons 4 0x01 (wheel_at 0x3e)) =
       wheel_at 0x01.
Proof.
  assert (Hprev : 0 <= g_wheel_position (wheel_at 0x3e) <= 0x3f) by (cbn; lia).
  assert (Hdata : 0 <= 0x01 <= 0x3f) by lia.
  split; [exact Hprev|]. split; [exact Hdata|].
  destruct (wheel_delta_wrap_corrected all_succeed example_sink lbuttons 4 0x01
              (wheel_at 0x3e) Hprev Hdata) as (Hev & Hst & _).
  split; [exact Hev | exact Hst].
Defined.

(** C2 as stated, with the threshold 0x20, fails where |delta| is 0x20:
    from position 0 the byte 0x20 is reported as -0x20, not +0x20. *)
Lemma wheel_threshold_counterexample :
  0 <= g_wheel_position initial_globals <= 0x3f /\ 0 <= 0x20 <= 0x3f /\
  uinput_events
    (trace (report_buttons all_succeed example_sink lbuttons 4 0x20 initial_globals))
  <> map evdev_of (spec_wheel_events 0x20 (g_wheel_position initial_globals) 0x20).
Proof.
  split; [cbn; lia|]. split; [lia|].
  vm_compute. intros H. discriminate H.
Qed.

(** The same, through [callback_default] on a whole packet. *)
Lemma wheel_threshold_packet :
  uinput_events
    (trace (callback_default all_succeed
              (completed_transfer (Some example_sink) [0x01; 0x55; 0x20; 0x00; 0x00])
              initial_globals))
  = map evdev_of [RelAxis Wheel (- 0x20); SyncBatchEnd].
Proof. vm_compute. reflexivity. Qed.

(** The wheel branch of [report_buttons] called twice in a row with the
    same position in 0..0x3f: the second call computes delta 0, writes no
    event, and the stored position is that value. *)
Lemma report_buttons_twice
  (env1 env2 : environment) (ud : libevdev_uinput) (buttons : list ev_code)
  (num_buttons v : Z) (g : globals) :
  0 <= g_wheel_position g <= 0x3f ->
  0 <= v <= 0x3f ->
  let g1 := state (report_buttons env1 ud buttons num_buttons v g) in
  let r2 := report_buttons env2 ud buttons num_buttons v g1 in
  v - g_wheel_position g1 = 0
  /\ spec_wheel_delta 0x1f (g_wheel_position g1) v = 0
  /\ uinput_events (trace r2) = []
  /\ g_wheel_position (state r2) = v
  /\ state r2 = g1.
Proof.
  intros Hprev Hv g1 r2.
  destruct (wheel_branch env1 ud buttons num_buttons v g Hv) as (_ & Hpos1 & _).
  fold g1 in Hpos1.
  rewrite spec_wheel_delta_zero in Hpos1 by assumption.
  assert (H1 : g_wheel_position g1 = v).
  { destruct (Z.eqb_spec v (g_wheel_position g)); congruence. }
  destruct (wheel_branch env2 ud buttons num_buttons v g1 Hv) as (Hev & Hpos & Hrest).
  fold r2 in Hev, Hpos, Hrest.
  assert (Hd : spec_wheel_delta 0x1f (g_wheel_position g1) v = 0).
  { rewrite H1. unfold spec_wheel_delta. rewrite Z.sub_diag. reflexivity. }
  unfold spec_wheel_events in Hev. rewrite Hd in Hev, Hpos.
  cbn [Z.eqb map] in Hev, Hpos.
  repeat split.
  - lia.
  - exact Hd.
  - exact Hev.
  - congruence.
  - rewrite (only_wheel_changed (g_wheel_position g1) v (state r2) g1 Hrest)
      by congruence.
    rewrite <- H1. destruct g1; reflexivity.
Qed.

Lemma report_buttons_twice_example :
  0 <= g_wheel_position (wheel_at 0x3e) <= 0x3f /\ 0 <= 0x05 <= 0x3f /\
  uinput_events
    (trace (report_buttons all_succeed example_sink lbuttons 4 0x05
              (state (report_buttons all_succeed example_sink lbuttons 4 0x05
                        (wheel_at 0x3e))))) = []
  /\ g_wheel_position
       (state (report_buttons all_succeed example_sink lbuttons 4 0x05
                 (state (report_buttons all_succeed example_sink lbuttons 4 0x05
                           (wheel_at 0x3e))))) = 0x05.
Proof.
  assert (Hprev : 0 <= g_wheel_position (wheel_at 0x3e) <= 0x3f) by (cbn; lia).
  assert (Hv : 0 <= 0x05 <= 0x3f) by lia.
  split; [exact Hprev|]. split; [exact Hv|].
  destruct (report_buttons_twice all_succeed all_succeed example_sink lbuttons 4
              0x05 (wheel_at 0x3e) Hprev Hv) as (_ & _ & Hev & Hpos & _).
  split; [exact Hev | exact Hpos].
Defined.

(** ** Short and unknown packets *)

Lemma switch_msgtype_too_short
  (env : environment) (ud : libevdev_uinput) (tx : libusb_transfer) (g : globals) :
  too_short tx ->
  exists msg,
    switch_msgtype env ud tx g = DEBUG msg [actual_length tx] g
    /\ decode_error_of (Call.DEBUG msg [actual_length tx]) = Some TooShort.
Proof.
  unfold too_short, switch_msgtype.
  intros [[H0 Hlen] | [[H0 Hlen] | [H0 Hlen]]]; rewrite H0.
  - exists "BUTTON_EVENT_GP packet too short (%d bytes)"%string.
    unfold case_BUTTON_EVENT_GP. cbn [BUTTON_EVENT_GP Z.eqb Pos.eqb].
    destruct (Z.ltb_spec (actual_length tx) 5); [|lia]. split; reflexivity.
  - exists "PEN_EVENT packet too short (%d bytes)"%string.
    unfold case_PEN_EVENT, AM_PACKET_LEN.
    cbn [PEN_EVENT BUTTON_EVENT_GP Z.eqb Pos.eqb].
    destruct (Z.ltb_spec (actual_length tx) 10); [|lia]. split; reflexivity.
  - exists "BUTTON_EVENT_0906 packet too short (%d bytes)"%string.
    unfold case_BUTTON_EVENT_0906.
    cbn [BUTTON_EVENT_0906 PEN_EVENT BUTTON_EVENT_GP Z.eqb Pos.eqb].
    destruct (Z.ltb_spec (actual_length tx) 4); [|lia]. split; reflexivity.
Qed.

(** C4, as amended: a packet of at least one byte that is shorter than its
    message type requires (type 0x01 under 5 bytes, 0x02 under 10, 0x0C
    under 4) is reported as TooShort; no tool, axis or button event is
    written, only the SyncBatchEnd that ends every batch; the statics, the
    wheel position among them, are unchanged. *)
Theorem short_packet_only_sync
  (env : environment) (g : globals) (ud : libevdev_uinput) (tx : libusb_transfer) :
  status tx = LIBUSB_TRANSFER_COMPLETED ->
  user_data tx = Some ud ->
  1 <= actual_length tx ->
  too_short tx ->
  let r := callback_default env tx g in
  decode_errors (trace r) = [TooShort]
  /\ uinput_events (trace r) = map evdev_of [SyncBatchEnd]
  /\ state r = g.
Proof.
  intros Hst Hud Hlen Hshort r. unfold r.
  destruct (switch_msgtype_too_short env ud tx g Hshort) as (msg & Hsw & Herr).
  rewrite (callback_default_decode_errors env tx ud g Hst Hud Hlen).
  rewrite (callback_default_events env tx ud g Hst Hud Hlen).
  rewrite (callback_default_state env tx ud g Hst Hud Hlen).
  rewrite Hsw. cbn [DEBUG emit trace state decode_errors uinput_events app map].
  rewrite Herr. repeat split.
Qed.

Lemma short_packet_only_sync_witness :
  1 <= actual_length short_pen_example /\ too_short short_pen_example /\
  decode_errors (trace (callback_default all_succeed short_pen_example initial_globals))
    = [TooShort]
  /\ uinput_events (trace (callback_default all_succeed short_pen_example initial_globals))
     = map evdev_of [SyncBatchEnd].
Proof.
  assert (Hlen : 1 <= actual_length short_pen_example) by (cbn; lia).
  assert (Hshort : too_short short_pen_example).
  { right. left. split; [reflexivity | cbn; lia]. }
  split; [exact Hlen|]. split; [exact Hshort|].
  destruct (short_packet_only_sync all_succeed initial_globals example_sink
              short_pen_example eq_refl eq_refl Hlen Hshort) as (Herr & Hev & _).
  split; [exact Herr | exact Hev].
Defined.

(** C4 as stated fails: a 9-byte pen packet does not give zero events. *)
Lemma short_packet_counterexample :
  too_short short_pen_example
  /\ uinput_events
       (trace (callback_default all_succeed short_pen_example initial_globals))
     <> [].
Proof.
  split.
  - right. left. split; [reflexivity | cbn; lia].
  - vm_compute. intros H. discriminate H.
Qed.

(** The empty packet is the one short packet that gives no event at all:
    the source leaves for [resubmit] before the switch. *)
Lemma empty_packet_no_event
  (env : environment) (g : globals) (tx : libusb_transfer) (ud : libevdev_uinput) :
  status tx = LIBUSB_TRANSFER_COMPLETED ->
  user_data tx = Some ud ->
  actual_length tx < 1 ->
  let r := callback_default env tx g in
  decode_errors (trace r) = [TooShort]
  /\ uinput_events (trace r) = []
  /\ state r = g.
Proof.
  intros Hst Hud Hlen r. unfold r, callback_default. rewrite Hst, Hud.
  destruct (Z.ltb_spec (actual_length tx) 1); [|lia].
  run. rewrite decode_errors_app, uinput_events_app.
  rewrite resubmit_decode_errors, resubmit_events, resubmit_state.
  repeat split.
Qed.

Lemma switch_msgtype_unknown
  (env : environment) (ud : libevdev_uinput) (tx : libusb_transfer) (g : globals) :
  unknown_type (byte_at (buffer tx) 0) ->
  switch_msgtype env ud tx g =
  DEBUG "Unknown message type received: 0x%02x" [byte_at (buffer tx) 0] g.
Proof.
  intros (H1 & H2 & H3). unfold switch_msgtype.
  destruct (Z.eqb_spec (byte_at (buffer tx) 0) BUTTON_EVENT_GP); [contradiction|].
  destruct (Z.eqb_spec (byte_at (buffer tx) 0) PEN_EVENT); [contradiction|].
  destruct (Z.eqb_spec (byte_at (buffer tx) 0) BUTTON_EVENT_0906); [contradiction|].
  reflexivity.
Qed.

(** C5, as amended: a packet whose first byte is none of 0x01, 0x02, 0x0C
    is reported as UnknownMessageType with that byte; no tool, axis or
    button event is written, only the SyncBatchEnd that ends every batch;
    the statics are unchanged and the transfer is handed back to libusb
    whenever the process is running and a device is open. *)
Theorem unknown_type_only_sync
  (env : environment) (g : globals) (ud : libevdev_uinput) (tx : libusb_transfer) :
  status tx = LIBUSB_TRANSFER_COMPLETED ->
  user_data tx = Some ud ->
  1 <= actual_length tx ->
  unknown_type (byte_at (buffer tx) 0) ->
  let r := callback_default env tx g in
  decode_errors (trace r) = [UnknownMessageType (byte_at (buffer tx) 0)]
  /\ uinput_events (trace r) = map evdev_of [SyncBatchEnd]
  /\ state r = g
  /\ submitted (trace r) = g_running g && negb (is_null (g_dev_handle g)).
Proof.
  intros Hst Hud Hlen Hunk r. unfold r.
  pose proof (switch_msgtype_unknown env ud tx g Hunk) as Hsw.
  rewrite (callback_default_decode_errors env tx ud g Hst Hud Hlen).
  rewrite (callback_default_events env tx ud g Hst Hud Hlen).
  rewrite (callback_default_state env tx ud g Hst Hud Hlen).
  rewrite (callback_default_submitted env tx ud g Hst Hud Hlen)
    by (rewrite Hsw; reflexivity).
  rewrite Hsw. repeat split.
Qed.

Lemma unknown_type_only_sync_witness :
  1 <= actual_length unknown_example
  /\ unknown_type (byte_at (buffer unknown_example) 0)
  /\ decode_errors (trace (callback_default all_succeed unknown_example gp_session))
     = [UnknownMessageType 0x07]
  /\ uinput_events (trace (callback_default all_succeed unknown_example gp_session))
     = map evdev_of [SyncBatchEnd]
  /\ submitted (trace (callback_default all_succeed unknown_example gp_session)) = true.
Proof.
  assert (Hlen : 1 <= actual_length unknown_example) by (cbn; lia).
  assert (Hunk : unknown_type (byte_at (buffer unknown_example) 0))
    by (repeat split; intros H; discriminate H).
  split; [exact Hlen|]. split; [exact Hunk|].
  destruct (unknown_type_only_sync all_succeed gp_session example_sink unknown_example
              eq_refl eq_refl Hlen Hunk) as (Herr & Hev & _ & Hsub).
  split; [exact Herr|]. split; [exact Hev | exact Hsub].
Defined.

(** C5 as stated fails: an unknown first byte does not give zero events. *)
Lemma unknown_type_counterexample :
  unknown_type (byte_at (buffer unknown_example) 0)
  /\ uinput_events
       (trace (callback_default all_succeed unknown_example initial_globals))
     <> [].
Proof.
  split.
  - repeat split; intros H; discriminate H.
  - vm_compute. intros H. discriminate H.
Qed.

(** ** The compact button arm *)

Lemma switch_msgtype_compact
  (env : environment) (ud : libevdev_uinput) (tx : libusb_transfer) :
  byte_at (buffer tx) 0 = BUTTON_EVENT_0906 ->
  switch_msgtype env ud tx = case_BUTTON_EVENT_0906 env ud tx.
Proof. intros H. unfold switch_msgtype. rewrite H. reflexivity. Qed.

Lemma case_BUTTON_EVENT_0906_events
  (env : environment) (ud : libevdev_uinput) (tx : libusb_transfer) (g : globals) :
  4 <= actual_length tx ->
  let flags := byte_at (buffer tx) 3 in
  uinput_events (trace (case_BUTTON_EVENT_0906 env ud tx g)) =
  [ key BTN_0 (nonzero (Z.land flags 0x01));
    key BTN_1 (nonzero (Z.land flags 0x02));
    key BTN_2 (nonzero (Z.land flags 0x04));
    key BTN_3 (nonzero (Z.land flags 0x08)) ].
Proof.
  intros Hlen flags. unfold case_BUTTON_EVENT_0906.
  destruct (Z.ltb_spec (actual_length tx) 4); [lia|].
  fold flags. rewrite !lnot_lnot_b2z.
  run. events. reflexivity.
Qed.

(** C9, as amended: a compact-button packet of at least 4 bytes is decoded
    into Button 0..3 from bits 0x01, 0x02, 0x04, 0x08 of byte 3 and one
    SyncBatchEnd, whatever the session and its profile; bits 0x10..0x80
    give rise to no event for any button set, NineMixed included. *)
Theorem compact_packet_four_buttons
  (env : environment) (g : globals) (ud : libevdev_uinput) (tx : libusb_transfer) :
  status tx = LIBUSB_TRANSFER_COMPLETED ->
  user_data tx = Some ud ->
  4 <= actual_length tx ->
  byte_at (buffer tx) 0 = BUTTON_EVENT_0906 ->
  let flags := byte_at (buffer tx) 3 in
  let evs := uinput_events (trace (callback_default env tx g)) in
  evs = map evdev_of
          [ Button 0 (Z.testbit flags 0); Button 1 (Z.testbit flags 1);
            Button 2 (Z.testbit flags 2); Button 3 (Z.testbit flags 3);
            SyncBatchEnd ]
  /\ existsb is_extended evs = false.
Proof.
  intros Hst Hud Hlen H0 flags evs.
  assert (Hevs : evs = map evdev_of
          [ Button 0 (Z.testbit flags 0); Button 1 (Z.testbit flags 1);
            Button 2 (Z.testbit flags 2); Button 3 (Z.testbit flags 3);
            SyncBatchEnd ]).
  { unfold evs.
    rewrite (callback_default_events env tx ud g Hst Hud) by lia.
    rewrite switch_msgtype_compact by assumption.
    rewrite case_BUTTON_EVENT_0906_events by assumption.
    fold flags.
    change (nonzero (Z.land flags 1)) with (nonzero (Z.land flags (2 ^ 0))).
    change (nonzero (Z.land flags 2)) with (nonzero (Z.land flags (2 ^ 1))).
    change (nonzero (Z.land flags 4)) with (nonzero (Z.land flags (2 ^ 2))).
    change (nonzero (Z.land flags 8)) with (nonzero (Z.land flags (2 ^ 3))).
    rewrite !nonzero_land_bit by lia. reflexivity. }
  split; [exact Hevs|].
  rewrite Hevs. reflexivity.
Qed.

(** With every bit of byte 3 set, on the session of an APPIV0906. *)
Lemma compact_packet_four_buttons_witness :
  option_map buttonSet (session_profile appiv_session) = Some NineMixed /\
  4 <= actual_length (compact_example 0xFF) /\
  uinput_events (trace (callback_default all_succeed (compact_example 0xFF) appiv_session)) =
  map evdev_of [Button 0 true; Button 1 true; Button 2 true; Button 3 true; SyncBatchEnd].
Proof.
  assert (Hlen : 4 <= actual_length (compact_example 0xFF)) by (cbn; lia).
  split; [reflexivity|]. split; [exact Hlen|].
  destruct (g_uidev appiv_session) as [ud|] eqn:Hud; [|discriminate Hud].
  assert (Hsink : user_data (compact_example 0xFF) = Some ud)
    by (unfold compact_example, completed_transfer; cbn [user_data]; exact Hud).
  exact (proj1 (compact_packet_four_buttons all_succeed appiv_session ud
                  (compact_example 0xFF) eq_refl Hsink Hlen eq_refl)).
Defined.

(** C9 as stated fails: on the session of an APPIV0906, whose button set
    is NineMixed, the bits 0x10..0x80 of byte 3 give rise to no event. *)
Lemma compact_extended_counterexample :
  ~ compact_claim all_succeed appiv_session (compact_example 0xF0).
Proof.
  intros [_ H].
  assert (Hprofile : option_map buttonSet (session_profile appiv_session)
                     = Some NineMixed)
    by reflexivity.
  specialize (H Hprofile). vm_compute in H. discriminate H.
Qed.

(** ** One SYN_REPORT per packet *)

Ltac syncs :=
  repeat (rewrite ?sync_reports_app, ?sync_reports_log;
          cbn [sync_reports uinput_events filter is_sync type code ev_type_eqb
               andb List.length app Nat.add]).

Lemma when_no_sync (c : bool) (m : M unit) (g : globals) :
  (forall g', sync_reports (trace (m g')) = 0%nat) ->
  sync_reports (trace (when_ c m g)) = 0%nat.
Proof. intros H. destruct c; [apply H | reflexivity]. Qed.

Lemma report_buttons_no_sync
  (env : environment) (ud : libevdev_uinput) (buttons : list ev_code)
  (num_buttons data : Z) (g : globals) :
  sync_reports (trace (report_buttons env ud buttons num_buttons data g)) = 0%nat.
Proof.
  unfold report_buttons.
  destruct (Z.land data 0xf0 =? 0xa0).
  - destruct (num_buttons >? 1), (num_buttons >? 2), (num_buttons >? 3);
      run; syncs; reflexivity.
  - destruct (data <=? 0x3f); [|reflexivity].
    run.
    match goal with
    | |- context [nonzero ?d] => destruct (nonzero d)
    end; run; syncs; reflexivity.
Qed.

Lemma case_BUTTON_EVENT_GP_no_sync
  (env : environment) (ud : libevdev_uinput) (tx : libusb_transfer) (g : globals) :
  sync_reports (trace (case_BUTTON_EVENT_GP env ud tx g)) = 0%nat.
Proof.
  unfold case_BUTTON_EVENT_GP.
  destruct (actual_length tx <? 5); [reflexivity|].
  cbn [bind trace state value]. rewrite sync_reports_app.
  rewrite !when_no_sync by (intros; apply report_buttons_no_sync).
  reflexivity.
Qed.

Lemma case_PEN_EVENT_no_sync
  (env : environment) (ud : libevdev_uinput) (tx : libusb_transfer) (g : globals) :
  sync_reports (trace (case_PEN_EVENT env ud tx g)) = 0%nat.
Proof.
  unfold case_PEN_EVENT.
  destruct (actual_length tx <? AM_PACKET_LEN); [reflexivity|].
  destruct (nonzero (Z.land (byte_at (buffer tx) 1) 0x20));
    destruct (nonzero (Z.land (byte_at (buffer tx) 1) (Z.lor (Z.lor 0x80 0x10) 0x01)));
    run; syncs; reflexivity.
Qed.

Lemma case_BUTTON_EVENT_0906_no_sync
  (env : environment) (ud : libevdev_uinput) (tx : libusb_transfer) (g : globals) :
  sync_reports (trace (case_BUTTON_EVENT_0906 env ud tx g)) = 0%nat.
Proof.
  unfold case_BUTTON_EVENT_0906.
  destruct (actual_length tx <? 4); [reflexivity|].
  run; syncs; reflexivity.
Qed.

Lemma switch_msgtype_no_sync
  (env : environment) (ud : libevdev_uinput) (tx : libusb_transfer) (g : globals) :
  sync_reports (trace (switch_msgtype env ud tx g)) = 0%nat.
Proof.
  unfold switch_msgtype.
  destruct (byte_at (buffer tx) 0 =? BUTTON_EVENT_GP);
    [apply case_BUTTON_EVENT_GP_no_sync|].
  destruct (byte_at (buffer tx) 0 =? PEN_EVENT);
    [apply case_PEN_EVENT_no_sync|].
  destruct (byte_at (buffer tx) 0 =? BUTTON_EVENT_0906);
    [apply case_BUTTON_EVENT_0906_no_sync|].
  reflexivity.
Qed.

(** C10: for a completed transfer, the callback writes SYN_REPORT exactly
    once, after every other event, when there is a sink and at least one
    byte was received, whatever the message type and whether or not its
    length check passed; without a sink or with no byte received it writes
    no event at all. *)
Theorem one_sync_report_per_packet
  (env : environment) (g : globals) (tx : libusb_transfer) :
  status tx = LIBUSB_TRANSFER_COMPLETED ->
  let r := callback_default env tx g in
  (forall ud, user_data tx = Some ud -> 1 <= actual_length tx ->
     sync_reports (trace r) = 1%nat
     /\ exists before,
          uinput_events (trace r) = before ++ [evdev_of SyncBatchEnd]
          /\ filter is_sync before = [])
  /\ (user_data tx = None \/ actual_length tx < 1 ->
      sync_reports (trace r) = 0%nat /\ uinput_events (trace r) = []).
Proof.
  intros Hst r. split.
  - intros ud Hud Hlen.
    pose proof (switch_msgtype_no_sync env ud tx g) as Hsw.
    pose proof (callback_default_events env tx ud g Hst Hud Hlen) as Hev.
    fold r in Hev. split.
    + unfold sync_reports in *. rewrite Hev, filter_app, length_app, Hsw.
      reflexivity.
    + exists (uinput_events (trace (switch_msgtype env ud tx g))).
      split; [exact Hev|].
      unfold sync_reports in Hsw.
      destruct (filter is_sync (uinput_events (trace (switch_msgtype env ud tx g))));
        [reflexivity | discriminate Hsw].
  - intros Hnone.
    assert (Hev : uinput_events (trace r) = []).
    { unfold r, callback_default. rewrite Hst.
      destruct (user_data tx) as [ud|] eqn:Hud.
      - destruct Hnone as [Hn|Hlen]; [discriminate Hn|].
        destruct (Z.ltb_spec (actual_length tx) 1); [|lia].
        run. rewrite uinput_events_app, resubmit_events. reflexivity.
      - run. rewrite uinput_events_app, resubmit_events. reflexivity. }
    split; [|exact Hev].
    unfold sync_reports. rewrite Hev. reflexivity.
Qed.

(** A pen packet that fails its length check still ends with the marker. *)
Lemma one_sync_report_per_packet_witness :
  sync_reports
    (trace (callback_default all_succeed
              (completed_transfer (Some example_sink) [0x02; 0x81; 0x01])
              initial_globals)) = 1%nat.
Proof.
  refine (proj1 (proj1 (one_sync_report_per_packet all_succeed initial_globals
                   (completed_transfer (Some example_sink) [0x02; 0x81; 0x01])
                   eq_refl) example_sink eq_refl _)).
  cbn. lia.
Defined.

(** ** The device table *)

Lemma supported_products_NoDup : NoDup supported_products.
Proof.
  unfold supported_products.
  repeat (constructor;
          [cbn; intros H; repeat (destruct H as [H|H]; [discriminate H|]); exact H|]).
  constructor.
Qed.

Lemma case_of_In (labels : list Z) (x : Z) :
  case_of labels x = true <-> In x labels.
Proof.
  unfold case_of. rewrite existsb_exists. split.
  - intros (y & Hin & Heq). apply Z.eqb_eq in Heq. subst. exact Hin.
  - intros Hin. exists x. split; [exact Hin | apply Z.eqb_refl].
Qed.

(** The loop of [find_device] returns the index of the first supported
    entry among the [n] it looks at, converted to int, and -1 when there
    is none. *)
Lemma find_device_from_first
  (list : list (option libusb_device)) (n : nat) (i : Z) :
  0 <= i ->
  let r := find_device_from list i n in
  (r = -1
   /\ forall j, (j < n)%nat ->
         is_supported_entry (nth (Z.to_nat i + j) list None) = false)
  \/ (exists j, (j < n)%nat
         /\ r = int_of_unsigned (i + Z.of_nat j)
         /\ is_supported_entry (nth (Z.to_nat i + j) list None) = true
         /\ forall j', (j' < j)%nat ->
              is_supported_entry (nth (Z.to_nat i + j') list None) = false).
Proof.
  revert i. induction n as [|n IH]; intros i Hi; cbn [find_device_from].
  - left. split; [reflexivity | intros j Hj; lia].
  - destruct (is_supported_entry (nth (Z.to_nat i) list None)) eqn:Hhere.
    + right. exists 0%nat. rewrite Nat.add_0_r, Z.add_0_r.
      split; [lia|]. split; [|split; [exact Hhere | intros j' Hj'; lia]].
      unfold is_supported_entry in Hhere.
      destruct (nth (Z.to_nat i) list None) as [dev|]; [|discriminate Hhere].
      destruct (dev_descriptor dev) as [desc|]; [|discriminate Hhere].
      rewrite Hhere. reflexivity.
    + assert (Hskip : match nth (Z.to_nat i) list None with
                      | Some dev =>
                          match dev_descriptor dev with
                          | Some desc =>
                              if (idVendor desc =? VENDOR_ID_HANVON)
                                 && case_of supported_products (idProduct desc)
                              then int_of_unsigned i
                              else find_device_from list (i + 1) n
                          | None => find_device_from list (i + 1) n
                          end
                      | None => find_device_from list (i + 1) n
                      end = find_device_from list (i + 1) n).
      { unfold is_supported_entry in Hhere.
        destruct (nth (Z.to_nat i) list None) as [dev|]; [|reflexivity].
        destruct (dev_descriptor dev) as [desc|]; [|reflexivity].
        rewrite Hhere. reflexivity. }
      rewrite Hskip.
      assert (Hnext : Z.to_nat (i + 1) = S (Z.to_nat i)) by lia.
      destruct (IH (i + 1) ltac:(lia)) as [(Hr & Hnone) | (j & Hj & Hr & Hyes & Hnone)].
      * left. split; [exact Hr|].
        intros [|j] Hj; [rewrite Nat.add_0_r; exact Hhere|].
        specialize (Hnone j ltac:(lia)). rewrite Hnext in Hnone.
        rewrite <- plus_n_Sm. exact Hnone.
      * right. exists (S j). split; [lia|].
        split; [rewrite Hr; f_equal; lia|].
        rewrite Hnext in Hyes. rewrite <- plus_n_Sm. split; [exact Hyes|].
        intros [|j'] Hj'; [rewrite Nat.add_0_r; exact Hhere|].
        specialize (Hnone j' ltac:(lia)). rewrite Hnext in Hnone.
        rewrite <- plus_n_Sm. exact Hnone.
Qed.

(** What the guard of an arrival computes on the one-element list. *)
Lemma find_device_single (addr vendor product : Z) :
  find_device (Some [Some (device addr vendor product)]) 1 =
  if (vendor =? VENDOR_ID_HANVON) && case_of supported_products product
  then 0 else -1.
Proof. reflexivity. Qed.

Lemma lookup_known (product : Z) :
  In product supported_products ->
  exists p, lookup VENDOR_ID_HANVON product = Some p
            /\ vendorId p = VENDOR_ID_HANVON /\ productId p = product.
Proof.
  intros Hin. unfold supported_products in Hin. cbn [In] in Hin.
  repeat (destruct Hin as [<-|Hin];
          [eexists; split; [vm_compute; reflexivity | split; reflexivity]|]).
  contradiction.
Qed.

Lemma lookup_unknown (vendor product : Z) :
  ~ (vendor = VENDOR_ID_HANVON /\ In product supported_products) ->
  lookup vendor product = None.
Proof.
  intros Hno. unfold lookup. rewrite find_device_single.
  destruct (Z.eqb_spec vendor VENDOR_ID_HANVON) as [Hv|Hv]; [|reflexivity].
  destruct (case_of supported_products product) eqn:Hc; [|reflexivity].
  exfalso. apply Hno. split; [exact Hv | apply case_of_In; exact Hc].
Qed.

(** C6: [lookup] is a function of the vendor and product ids alone; the
    switch of [find_device] has 15 distinct product ids; for the Hanvon
    vendor id each of them has exactly one profile, which carries these
    ids, so that two pairs with the same profile are the same pair; every
    other vendor id or product id has none. *)
Theorem lookup_total_deterministic :
  NoDup supported_products
  /\ List.length supported_products = 15%nat
  /\ (forall product, In product supported_products ->
        exists! p, lookup VENDOR_ID_HANVON product = Some p)
  /\ (forall vendor product,
        ~ (vendor = VENDOR_ID_HANVON /\ In product supported_products) ->
        lookup vendor product = None)
  /\ (forall v1 p1 v2 p2 profile,
        lookup v1 p1 = Some profile -> lookup v2 p2 = Some profile ->
        v1 = v2 /\ p1 = p2).
Proof.
  split; [exact supported_products_NoDup|].
  split; [reflexivity|].
  split; [|split].
  - intros product Hin.
    destruct (lookup_known product Hin) as (p & Hp & _).
    exists p. split; [exact Hp|].
    intros q Hq. congruence.
  - exact lookup_unknown.
  - assert (Hids : forall v p profile, lookup v p = Some profile ->
                     vendorId profile = v /\ productId profile = p).
    { intros v p profile Hl.
      destruct (Z.eq_dec v VENDOR_ID_HANVON) as [->|Hv].
      - destruct (in_dec Z.eq_dec p supported_products) as [Hin|Hnin].
        + destruct (lookup_known p Hin) as (q & Hq & Hqv & Hqp). split; congruence.
        + rewrite lookup_unknown in Hl by tauto. discriminate Hl.
      - rewrite lookup_unknown in Hl by tauto. discriminate Hl. }
    intros v1 p1 v2 p2 profile H1 H2.
    destruct (Hids _ _ _ H1) as [<- <-].
    destruct (Hids _ _ _ H2) as [<- <-].
    split; reflexivity.
Qed.

Lemma lookup_total_deterministic_witness :
  (exists p, lookup VENDOR_ID_HANVON PRODUCT_ID_APPIV0906 = Some p)
  /\ lookup VENDOR_ID_HANVON 0x8533 = None
  /\ lookup 0x056a PRODUCT_ID_APPIV0906 = None.
Proof.
  destruct lookup_total_deterministic as (_ & _ & Hknown & Hunknown & _).
  split; [|split].
  - destruct (Hknown PRODUCT_ID_APPIV0906) as (p & Hp & _).
    + unfold supported_products. cbn [In]. tauto.
    + exists p. exact Hp.
  - apply Hunknown. intros [_ Hin]. unfold supported_products in Hin. cbn [In] in Hin.
    repeat (destruct Hin as [Hin|Hin]; [discriminate Hin|]). exact Hin.
  - apply Hunknown. intros [Hv _]. discriminate Hv.
Defined.

(** ** The session state machine *)

Ltac run_hotplug :=
  repeat (cbn [bind ret get modify emit value state trace when_ DEBUG
               body then_ return_ fall_through
               libusb_open libusb_close libusb_kernel_driver_active
               libusb_detach_kernel_driver libusb_attach_kernel_driver
               libusb_claim_interface libusb_release_interface
               libusb_alloc_transfer libusb_free_transfer libusb_cancel_transfer
               libusb_submit_transfer libusb_fill_interrupt_transfer
               libevdev_uinput_destroy libevdev_free
               g_dev_handle g_uidev g_evdev g_tx g_running g_wheel_position
               set_dev_handle set_uidev set_evdev set_tx set_running
               set_wheel_position is_null negb option_map];
          rewrite ?when_DEBUG).

Ltac resources :=
  repeat (rewrite ?resource_calls_app, ?resource_calls_log;
          cbn [resource_calls app]).

(** C7: while a device is open, an arrival changes nothing, and so does
    the departure of a device other than the open one (the two device
    pointers differ): the statics are as before, no library is called, and
    the callback returns 0. *)
Theorem single_session_preserved
  (env : environment) (g : globals) (h : libusb_device_handle)
  (dev : libusb_device) (event : libusb_hotplug_event) :
  g_dev_handle g = Some h ->
  event = LIBUSB_HOTPLUG_EVENT_DEVICE_ARRIVED
  \/ (event = LIBUSB_HOTPLUG_EVENT_DEVICE_LEFT
      /\ dev_addr (libusb_get_device h) <> dev_addr dev) ->
  let r := hotplug_callback env dev event g in
  state r = g
  /\ value r = 0
  /\ resource_calls (trace r) = []
  /\ uinput_events (trace r) = [].
Proof.
  intros Hh Hev r. unfold r, hotplug_callback.
  destruct (dev_descriptor dev) as [desc|]; [|repeat split].
  destruct Hev as [-> | [-> Hother]].
  - unfold device_arrived, single_device_check. run_hotplug. rewrite Hh. run_hotplug.
    repeat split.
  - unfold device_left. run_hotplug. rewrite Hh. unfold same_device.
    destruct (Z.eqb_spec (dev_addr (libusb_get_device h)) (dev_addr dev));
      [contradiction|].
    run_hotplug. repeat split.
Qed.

Lemma single_session_preserved_witness :
  is_null (g_dev_handle gp_session) = false
  /\ state (hotplug_callback all_succeed second_device
              LIBUSB_HOTPLUG_EVENT_DEVICE_ARRIVED gp_session) = gp_session
  /\ state (hotplug_callback all_succeed second_device
              LIBUSB_HOTPLUG_EVENT_DEVICE_LEFT gp_session) = gp_session.
Proof.
  split; [reflexivity|].
  destruct (g_dev_handle gp_session) as [h|] eqn:Hh; [|discriminate Hh].
  split.
  - exact (proj1 (single_session_preserved all_succeed gp_session h second_device
                    LIBUSB_HOTPLUG_EVENT_DEVICE_ARRIVED Hh (or_introl eq_refl))).
  - refine (proj1 (single_session_preserved all_succeed gp_session h second_device
                     LIBUSB_HOTPLUG_EVENT_DEVICE_LEFT Hh (or_intror (conj eq_refl _)))).
    injection Hh as <-. cbn. intros H. discriminate H.
Defined.

(** ** init_ctrl *)

Lemma wheel_buttons_name_run
  (env : environment) (desc : libusb_device_descriptor) (e : libevdev) (g : globals) :
  state (wheel_buttons_name env desc e g) = g
  /\ value (wheel_buttons_name env desc e g) =
       value (wheel_buttons_name env desc e initial_globals)
  /\ resource_calls (trace (wheel_buttons_name env desc e g)) = [].
Proof.
  unfold wheel_buttons_name.
  destruct (libevdev_enable_event_code env (libevdev_enable_event_type e EV_REL)
              EV_REL REL_WHEEL None) as [rc e'].
  run. resources. repeat split.
Qed.

(** The two ways [init_ctrl] ends on a device whose descriptor can be
    read: with a negative return code, no description left and no uinput
    device made; or with 0 and both in place.  Either way the wheel
    position is 0 afterwards. *)
Lemma init_ctrl_outcome
  (env : environment) (dev : libusb_device) (desc : libusb_device_descriptor)
  (g : globals) :
  dev_descriptor dev = Some desc ->
  let r := init_ctrl env (Some dev) g in
  value r = init_ctrl_rc env dev
  /\ ((value r < 0
       /\ state r = set_evdev None (set_wheel_position 0 g)
       /\ forallb (fun c => negb (is_release c)) (resource_calls (trace r)) = true)
      \/ (value r = 0
          /\ exists e,
               state r = set_uidev (Some {| uinput_evdev := e |})
                           (set_evdev (Some e) (set_wheel_position 0 g))
               /\ resource_calls (trace r) =
                    [Call.libevdev_new; Call.libevdev_uinput_create_from_device e])).
Proof.
  intros Hd r. unfold r, init_ctrl_rc, init_ctrl. rewrite Hd.
  unfold libevdev_new. run_hotplug.
  destruct (evdev_new_ok env); run_hotplug;
    [|split; [reflexivity | left; repeat split]].
  repeat match goal with
  | |- context [libevdev_enable_event_code ?x ?e ?t ?c ?d] =>
      let rc := fresh "rc" in
      let e' := fresh "e" in
      destruct (libevdev_enable_event_code x e t c d) as [rc e'];
      destruct (Z.ltb_spec rc 0); run_hotplug;
      [split; [reflexivity | left; unfold error_free_evdev; run_hotplug;
                             resources; repeat split; assumption]|]
  end.
  match goal with
  | |- context [wheel_buttons_name env desc ?e _] =>
      destruct (wheel_buttons_name_run env desc e
                  (set_evdev (Some empty_evdev) (set_wheel_position 0 g)))
        as (Hs & Hv & Ht);
      destruct (wheel_buttons_name_run env desc e
                  (set_evdev (Some empty_evdev) (set_wheel_position 0 initial_globals)))
        as (Hs0 & Hv0 & Ht0)
  end.
  rewrite Hs, Hs0, Hv, Hv0.
  unfold libevdev_uinput_create_from_device. run_hotplug.
  destruct (Z.ltb_spec (uinput_create_rc env) 0); run_hotplug.
  - split; [reflexivity|]. left.
    unfold error_free_evdev. run_hotplug. resources. rewrite Ht.
    repeat split. assumption.
  - split; [reflexivity|]. right. split; [reflexivity|].
    eexists. split; [reflexivity|].
    resources. rewrite Ht. reflexivity.
Qed.

(** ** The paragraphs of an arrival, one at a time *)

Lemma then_outcome (b k : block) (g : globals) :
  outcome (then_ b k g) =
  match outcome (b g) with
  | (inl z, s, t) => (inl z, s, t)
  | (inr _, s, t) =>
      match outcome (k s) with
      | (v, s', t') => (v, s', t ++ t')
      end
  end.
Proof.
  unfold outcome, then_, bind. cbn [value state trace].
  destruct (value (b g)); cbn [ret value state trace];
    rewrite resource_calls_app; [rewrite app_nil_r|]; reflexivity.
Qed.

Lemma single_device_check_outcome (desc : libusb_device_descriptor) (g : globals) :
  g_dev_handle g = None ->
  outcome (single_device_check desc g) = (inr tt, g, []).
Proof.
  intros Hg. unfold outcome, single_device_check. run_hotplug.
  rewrite Hg. reflexivity.
Qed.

Lemma supported_check_outcome (dev : libusb_device) (g : globals) :
  0 <= find_device (Some [Some dev]) 1 ->
  outcome (supported_check dev g) = (inr tt, g, []).
Proof.
  intros Hs. unfold outcome, supported_check.
  destruct (Z.ltb_spec (find_device (Some [Some dev]) 1) 0); [lia | reflexivity].
Qed.

Lemma open_device_outcome
  (env : environment) (dev : libusb_device) (desc : libusb_device_descriptor)
  (g : globals) :
  outcome (open_device env dev desc g) =
  if open_rc env =? LIBUSB_SUCCESS
  then (inr tt, set_dev_handle (Some {| libusb_get_device := dev |}) g,
        [Call.libusb_open dev])
  else (inl 0, set_dev_handle None g, [Call.libusb_open dev]).
Proof.
  unfold outcome, open_device. run_hotplug.
  destruct (open_rc env =? LIBUSB_SUCCESS); run_hotplug; resources;
    destruct g; reflexivity.
Qed.

Lemma detach_driver_outcome (env : environment) (g : globals) :
  let h := g_dev_handle g in
  let active := kernel_driver_active_rc env in
  outcome (detach_driver env g) =
  if active =? 1 then
    if detach_kernel_driver_rc env =? LIBUSB_SUCCESS
    then (inr tt, g,
          [Call.libusb_kernel_driver_active h 0; Call.libusb_detach_kernel_driver h 0])
    else (inl 0, set_dev_handle None g,
          [Call.libusb_kernel_driver_active h 0; Call.libusb_detach_kernel_driver h 0;
           Call.libusb_close h])
  else if (active <? 0) && negb (active =? LIBUSB_ERROR_NOT_SUPPORTED)
  then (inl 0, set_dev_handle None g,
        [Call.libusb_kernel_driver_active h 0; Call.libusb_close h])
  else (inr tt, g, [Call.libusb_kernel_driver_active h 0]).
Proof.
  intros h active. unfold outcome, detach_driver. run_hotplug. fold h active.
  destruct (active =? 1); run_hotplug.
  - destruct (detach_kernel_driver_rc env =? LIBUSB_SUCCESS); run_hotplug; resources;
      reflexivity.
  - destruct ((active <? 0) && negb (active =? LIBUSB_ERROR_NOT_SUPPORTED));
      run_hotplug; resources; reflexivity.
Qed.

Lemma claim_interface_outcome (env : environment) (g : globals) :
  let h := g_dev_handle g in
  outcome (claim_interface env g) =
  if claim_interface_rc env =? LIBUSB_SUCCESS
  then (inr tt, g, [Call.libusb_claim_interface h 0])
  else (inl 0, set_dev_handle None g,
        [Call.libusb_claim_interface h 0; Call.libusb_attach_kernel_driver h 0;
         Call.libusb_close h]).
Proof.
  intros h. unfold outcome, claim_interface. run_hotplug. fold h.
  destruct (claim_interface_rc env =? LIBUSB_SUCCESS); run_hotplug; resources;
    reflexivity.
Qed.

Lemma initialize_controls_outcome
  (env : environment) (dev : libusb_device) (desc : libusb_device_descriptor)
  (g : globals) :
  dev_descriptor dev = Some desc ->
  let h := g_dev_handle g in
  if init_ctrl_rc env dev <? 0 then
    exists attempts,
      outcome (initialize_controls env dev g) =
      (inl 0,
       set_uidev None (set_dev_handle None (set_evdev None (set_wheel_position 0 g))),
       attempts ++ [Call.libusb_release_interface h 0;
                    Call.libusb_attach_kernel_driver h 0; Call.libusb_close h])
      /\ forallb (fun c => negb (is_release c)) attempts = true
  else
    exists e,
      outcome (initialize_controls env dev g) =
      (inr tt,
       set_uidev (Some {| uinput_evdev := e |})
         (set_evdev (Some e) (set_wheel_position 0 g)),
       [Call.libevdev_new; Call.libevdev_uinput_create_from_device e]).
Proof.
  intros Hd h.
  destruct (init_ctrl_outcome env dev desc g Hd) as (Hv & Hcases).
  unfold outcome, initialize_controls. cbn [bind value state trace].
  rewrite Hv.
  destruct (Z.ltb_spec (init_ctrl_rc env dev) 0) as [Hneg|Hpos].
  - destruct Hcases as [(_ & Hs & Hcalls) | (Hz & _)]; [|lia].
    exists (resource_calls (trace (init_ctrl env (Some dev) g))).
    split; [|exact Hcalls].
    run_hotplug. rewrite Hs. run_hotplug. resources. reflexivity.
  - destruct Hcases as [(Hn & _) | (_ & e & Hs & Hcalls)]; [lia|].
    exists e. run_hotplug. rewrite Hs. resources. rewrite Hcalls, app_nil_r.
    reflexivity.
Qed.

Lemma allocate_transfer_outcome (env : environment) (g : globals) :
  let h := g_dev_handle g in
  outcome (allocate_transfer env g) =
  if alloc_transfer_ok env
  then (inr tt, set_tx (Some zeroed_transfer) g, [Call.libusb_alloc_transfer 0])
  else (inl 0,
        set_dev_handle None (set_evdev None (set_uidev None (set_tx None g))),
        [Call.libusb_alloc_transfer 0; Call.libevdev_uinput_destroy (g_uidev g);
         Call.libusb_release_interface h 0; Call.libusb_attach_kernel_driver h 0;
         Call.libusb_close h]).
Proof.
  intros h. unfold outcome, allocate_transfer. run_hotplug. fold h.
  destruct (alloc_transfer_ok env); run_hotplug; resources; reflexivity.
Qed.

(** The transfer as [libusb_fill_interrupt_transfer] leaves it. *)
Lemma submit_first_transfer_outcome
  (env : environment) (desc : libusb_device_descriptor) (g : globals) :
  let h := g_dev_handle g in
  let filled := g_tx (state (libusb_fill_interrupt_transfer h 0x81 g_buffer
                               AM_PACKET_LEN (g_uidev g) 0 g)) in
  outcome (submit_first_transfer env desc g) =
  if submit_transfer_rc env =? LIBUSB_SUCCESS
  then (inr tt, set_tx filled g, [Call.libusb_submit_transfer filled])
  else (inr tt,
        set_dev_handle None (set_evdev None (set_uidev None (set_tx None g))),
        [Call.libusb_submit_transfer filled; Call.libusb_free_transfer filled;
         Call.libevdev_uinput_destroy (g_uidev g);
         Call.libusb_release_interface h 0; Call.libusb_attach_kernel_driver h 0;
         Call.libusb_close h]).
Proof.
  intros h filled. unfold outcome, submit_first_transfer. run_hotplug.
  fold h. 
  destruct (submit_transfer_rc env =? LIBUSB_SUCCESS); run_hotplug; resources;
    reflexivity.
Qed.

(** The uinput device of a successful [init_ctrl] does not depend on the
    statics it starts from. *)
Lemma init_ctrl_sink
  (env : environment) (dev : libusb_device) (desc : libusb_device_descriptor)
  (g : globals) :
  dev_descriptor dev = Some desc ->
  0 <= init_ctrl_rc env dev ->
  g_uidev (state (init_ctrl env (Some dev) g)) = acquired_sink env dev.
Proof.
  intros Hd. unfold acquired_sink, init_ctrl_rc, init_ctrl. rewrite Hd.
  unfold libevdev_new. run_hotplug.
  destruct (evdev_new_ok env); run_hotplug;
    [|unfold ENOMEM; intro; exfalso; lia].
  repeat match goal with
  | |- context [libevdev_enable_event_code ?x ?e ?t ?c ?d] =>
      let rc := fresh "rc" in
      let e' := fresh "e" in
      destruct (libevdev_enable_event_code x e t c d) as [rc e'];
      destruct (Z.ltb_spec rc 0); run_hotplug;
      [unfold error_free_evdev; run_hotplug; intro; exfalso; lia|]
  end.
  match goal with
  | |- context [wheel_buttons_name env desc ?e _] =>
      destruct (wheel_buttons_name_run env desc e
                  (set_evdev (Some empty_evdev) (set_wheel_position 0 g)))
        as (Hs & Hv & Ht);
      destruct (wheel_buttons_name_run env desc e
                  (set_evdev (Some empty_evdev) (set_wheel_position 0 initial_globals)))
        as (Hs0 & Hv0 & Ht0)
  end.
  rewrite Hs, Hs0, ?Hv, ?Hv0.
  unfold libevdev_uinput_create_from_device. run_hotplug.
  destruct (Z.ltb_spec (uinput_create_rc env) 0); run_hotplug.
  - unfold error_free_evdev. run_hotplug. intro; exfalso; lia.
  - intros _. reflexivity.
Qed.

(** The sink a successful "Initialize evdev/uinput controls" stores is
    [acquired_sink]. *)
Lemma initialize_controls_sink
  (env : environment) (dev : libusb_device) (desc : libusb_device_descriptor)
  (g : globals) (e : libevdev) (t : list Call.t) :
  dev_descriptor dev = Some desc ->
  (init_ctrl_rc env dev <? 0) = false ->
  outcome (initialize_controls env dev g) =
    (inr tt,
     set_uidev (Some {| uinput_evdev := e |})
       (set_evdev (Some e) (set_wheel_position 0 g)), t) ->
  acquired_sink env dev = Some {| uinput_evdev := e |}.
Proof.
  intros Hd Hrc Hout.
  rewrite <- (init_ctrl_sink env dev desc g Hd) by (apply Z.ltb_ge; exact Hrc).
  pose proof (f_equal (fun o => g_uidev (snd (fst o))) Hout) as Hs.
  cbn [outcome fst snd g_uidev set_uidev] in Hs. rewrite <- Hs.
  destruct (init_ctrl_outcome env dev desc g Hd) as (Hv & _). cbv zeta in Hv.
  unfold initialize_controls. cbn [bind state]. rewrite Hv, Hrc. reflexivity.
Qed.

(** ** Arrival: failure at any step *)

Lemma hotplug_arrival_outcome
  (env : environment) (dev : libusb_device) (desc : libusb_device_descriptor)
  (g : globals) :
  dev_descriptor dev = Some desc ->
  outcome (hotplug_callback env dev LIBUSB_HOTPLUG_EVENT_DEVICE_ARRIVED g) =
  match outcome (device_arrived env dev desc g) with
  | (inl z, s, t) => (z, s, t)
  | (inr _, s, t) => (0, s, t)
  end.
Proof.
  intros Hd. unfold outcome, hotplug_callback. rewrite Hd.
  cbn [bind body ret DEBUG emit value state trace].
  rewrite !resource_calls_app. cbn [resource_calls app]. rewrite app_nil_r.
  destruct (value (device_arrived env dev desc g)); reflexivity.
Qed.

Ltac simpl_statics :=
  cbn [g_dev_handle g_uidev g_evdev g_tx g_running g_wheel_position
       set_dev_handle set_uidev set_evdev set_tx set_running set_wheel_position
       libusb_fill_interrupt_transfer modify state option_map].

(** One paragraph further: rewrite [b ;;; k] with the outcome [L] of [b]. *)
Ltac step L :=
  rewrite then_outcome;
  let H := fresh "Hstep" in
  pose proof L as H; cbv zeta in H;
  cbn [g_dev_handle g_uidev g_evdev g_tx g_running g_wheel_position
       set_dev_handle set_uidev set_evdev set_tx set_running set_wheel_position
       libusb_fill_interrupt_transfer modify state option_map] in H;
  rewrite H; clear H;
  cbv beta iota; simpl_statics.

Ltac unfold_rollback :=
  cbn [rollback steps_before step_index firstn acquisition_order rev app
       flat_map undo Nat.ltb Nat.leb].

(** The steps after the kernel-driver hand-off, on statics that hold the
    open handle and nothing else, when one of them fails. *)
Lemma arrival_after_detach
  (env : environment) (dev : libusb_device) (desc : libusb_device_descriptor)
  (running : bool) (wheel : Z) (k : acquisition_step) :
  dev_descriptor dev = Some desc ->
  failing_after_detach env dev = Some k ->
  let h := Some {| libusb_get_device := dev |} in
  exists attempts v,
    outcome
      (then_ (claim_interface env)
         (then_ (initialize_controls env dev)
            (then_ (allocate_transfer env) (submit_first_transfer env desc)))
         {| g_dev_handle := h; g_uidev := None; g_evdev := None; g_tx := None;
            g_running := running; g_wheel_position := wheel |})
    = (v,
       {| g_dev_handle := None; g_uidev := None; g_evdev := None; g_tx := None;
          g_running := running;
          g_wheel_position := if (step_index k <? 3)%nat then wheel else 0 |},
       attempts ++ rollback h (acquired_sink env dev) (acquired_transfer env dev) k)
    /\ forallb (fun c => negb (is_release c)) attempts = true
    /\ match v with inl z => z = 0 | inr _ => True end
    /\ ((3 < step_index k)%nat ->
        exists e, acquired_sink env dev = Some {| uinput_evdev := e |}
                  /\ In (Call.libevdev_uinput_create_from_device e) attempts)
    /\ (k = step_submit ->
        In (Call.libusb_submit_transfer (acquired_transfer env dev)) attempts).
Proof.
  intros Hd Hf. cbv zeta. unfold failing_after_detach in Hf.
  match goal with
  | |- context [outcome (then_ (claim_interface env) _ ?s)] =>
      step (claim_interface_outcome env s)
  end.
  destruct (claim_interface_rc env =? LIBUSB_SUCCESS); cbn [negb] in Hf;
    cbv beta iota.
  2:{ injection Hf as <-.
      exists [Call.libusb_claim_interface (Some {| libusb_get_device := dev |}) 0].
      eexists. unfold_rollback.
      split; [reflexivity|]. split; [reflexivity|]. split; [reflexivity|].
      split; [cbn [step_index]; intros Hlt; lia | intros Hk; discriminate Hk]. }
  rewrite then_outcome.
  match goal with
  | |- context [outcome (initialize_controls env dev ?s)] =>
      pose proof (initialize_controls_outcome env dev desc s Hd) as Hinit
  end.
  cbv zeta in Hinit.
  destruct (init_ctrl_rc env dev <? 0) eqn:Hrc.
  { destruct Hinit as (attempts & Hout & Hatt). rewrite Hout. cbv beta iota.
    injection Hf as <-.
    exists ([Call.libusb_claim_interface (Some {| libusb_get_device := dev |}) 0]
            ++ attempts).
    eexists. unfold_rollback. simpl_statics.
    split; [rewrite <- ?app_assoc; reflexivity|].
    split; [cbn [forallb is_release negb andb]; exact Hatt|].
    split; [reflexivity|].
    split; [cbn [step_index]; intros Hlt; lia | intros Hk; discriminate Hk]. }
  destruct Hinit as (e & Hout).
  pose proof (initialize_controls_sink env dev desc _ e _ Hd Hrc Hout) as Hsink.
  rewrite Hout. cbv beta iota. simpl_statics.
  unfold acquired_transfer. rewrite Hsink. cbn [option_map].
  match goal with
  | |- context [outcome (then_ (allocate_transfer env) _ ?s)] =>
      step (allocate_transfer_outcome env s)
  end.
  destruct (alloc_transfer_ok env); cbn [negb] in Hf; cbv beta iota.
  2:{ injection Hf as <-.
      exists [Call.libusb_claim_interface (Some {| libusb_get_device := dev |}) 0;
              Call.libevdev_new; Call.libevdev_uinput_create_from_device e;
              Call.libusb_alloc_transfer 0].
      eexists. unfold_rollback.
      split; [reflexivity|]. split; [reflexivity|]. split; [reflexivity|].
      split; [|intros Hk; discriminate Hk].
      intros _. exists e. split; [reflexivity|].
      right. right. left. reflexivity. }
  match goal with
  | |- context [outcome (submit_first_transfer env desc ?s)] =>
      pose proof (submit_first_transfer_outcome env desc s) as Hsub
  end.
  cbv zeta in Hsub.
  cbn [g_dev_handle g_uidev g_evdev g_tx g_running g_wheel_position
       set_dev_handle set_uidev set_evdev set_tx set_running set_wheel_position
       libusb_fill_interrupt_transfer modify state option_map] in Hsub.
  rewrite Hsub. clear Hsub.
  destruct (submit_transfer_rc env =? LIBUSB_SUCCESS); cbn [negb] in Hf;
    cbv beta iota; [discriminate Hf|].
  injection Hf as <-.
  exists [Call.libusb_claim_interface (Some {| libusb_get_device := dev |}) 0;
          Call.libevdev_new; Call.libevdev_uinput_create_from_device e;
          Call.libusb_alloc_transfer 0;
          Call.libusb_submit_transfer
            (Some (session_transfer {| libusb_get_device := dev |}
                     {| uinput_evdev := e |}))].
  eexists. unfold_rollback.
  split; [reflexivity|]. split; [reflexivity|]. split; [reflexivity|].
  split.
  - intros _. exists e. split; [reflexivity|].
    right. right. left. reflexivity.
  - intros _. do 4 right. left. reflexivity.
Qed.

(** The same steps when none of them fails: the session is in place. *)
Lemma arrival_after_detach_success
  (env : environment) (dev : libusb_device) (desc : libusb_device_descriptor)
  (running : bool) (wheel : Z) :
  dev_descriptor dev = Some desc ->
  failing_after_detach env dev = None ->
  let h := Some {| libusb_get_device := dev |} in
  exists e tx,
    outcome
      (then_ (claim_interface env)
         (then_ (initialize_controls env dev)
            (then_ (allocate_transfer env) (submit_first_transfer env desc)))
         {| g_dev_handle := h; g_uidev := None; g_evdev := None; g_tx := None;
            g_running := running; g_wheel_position := wheel |})
    = (inr tt,
       {| g_dev_handle := h; g_uidev := Some {| uinput_evdev := e |};
          g_evdev := Some e; g_tx := Some tx;
          g_running := running; g_wheel_position := 0 |},
       [Call.libusb_claim_interface h 0; Call.libevdev_new;
        Call.libevdev_uinput_create_from_device e; Call.libusb_alloc_transfer 0;
        Call.libusb_submit_transfer (Some tx)])
    /\ user_data tx = Some {| uinput_evdev := e |}
    /\ dev_handle tx = h.
Proof.
  intros Hd Hf. cbv zeta. unfold failing_after_detach in Hf.
  match goal with
  | |- context [outcome (then_ (claim_interface env) _ ?s)] =>
      step (claim_interface_outcome env s)
  end.
  destruct (claim_interface_rc env =? LIBUSB_SUCCESS); cbn [negb] in Hf;
    cbv beta iota; [|discriminate Hf].
  rewrite then_outcome.
  match goal with
  | |- context [outcome (initialize_controls env dev ?s)] =>
      pose proof (initialize_controls_outcome env dev desc s Hd) as Hinit
  end.
  cbv zeta in Hinit.
  destruct (init_ctrl_rc env dev <? 0); [discriminate Hf|].
  destruct Hinit as (e & Hout). rewrite Hout. cbv beta iota. simpl_statics.
  match goal with
  | |- context [outcome (then_ (allocate_transfer env) _ ?s)] =>
      step (allocate_transfer_outcome env s)
  end.
  destruct (alloc_transfer_ok env); cbn [negb] in Hf; cbv beta iota;
    [|discriminate Hf].
  match goal with
  | |- context [outcome (submit_first_transfer env desc ?s)] =>
      pose proof (submit_first_transfer_outcome env desc s) as Hsub
  end.
  cbv zeta in Hsub.
  cbn [g_dev_handle g_uidev g_evdev g_tx g_running g_wheel_position
       set_dev_handle set_uidev set_evdev set_tx set_running set_wheel_position
       libusb_fill_interrupt_transfer modify state option_map] in Hsub.
  rewrite Hsub. clear Hsub.
  destruct (submit_transfer_rc env =? LIBUSB_SUCCESS); cbn [negb] in Hf;
    cbv beta iota; [|discriminate Hf].
  exists e. eexists. repeat split.
Qed.

(** An arrival on empty statics, for a supported device, when a step
    fails: what the callback returns, the statics and the resource calls. *)
Lemma arrival_failure_outcome
  (env : environment) (g : globals) (dev : libusb_device)
  (desc : libusb_device_descriptor) (k : acquisition_step) :
  session_empty g ->
  dev_descriptor dev = Some desc ->
  0 <= find_device (Some [Some dev]) 1 ->
  failing_step env dev = Some k ->
  exists attempts,
    outcome (hotplug_callback env dev LIBUSB_HOTPLUG_EVENT_DEVICE_ARRIVED g) =
    (0,
     set_wheel_position
       (if (step_index k <? 3)%nat then g_wheel_position g else 0) g,
     attempts ++ rollback (Some {| libusb_get_device := dev |})
                   (acquired_sink env dev) (acquired_transfer env dev) k)
    /\ forallb (fun c => negb (is_release c)) attempts = true
    /\ ((3 < step_index k)%nat ->
        exists e, acquired_sink env dev = Some {| uinput_evdev := e |}
                  /\ In (Call.libevdev_uinput_create_from_device e) attempts)
    /\ (k = step_submit ->
        In (Call.libusb_submit_transfer (acquired_transfer env dev)) attempts).
Proof.
  intros Hempty Hd Hsup Hfail.
  rewrite (hotplug_arrival_outcome env dev desc g Hd).
  unfold device_arrived.
  rewrite then_outcome, single_device_check_outcome by apply Hempty.
  rewrite then_outcome, supported_check_outcome by exact Hsup.
  destruct Hempty as (Hh & Hu & He & Ht).
  destruct g as [gh gu ge gt grun gw].
  cbn [g_dev_handle g_uidev g_evdev g_tx] in Hh, Hu, He, Ht. subst gh gu ge gt.
  match goal with
  | |- context [outcome (then_ (open_device env dev desc) _ ?s)] =>
      step (open_device_outcome env dev desc s)
  end.
  unfold failing_step in Hfail.
  destruct (open_rc env =? LIBUSB_SUCCESS); cbn [negb] in Hfail; cbv beta iota.
  2:{ injection Hfail as <-. exists [Call.libusb_open dev].
      split; [reflexivity|]. split; [reflexivity|].
      split; [cbn [step_index]; intros Hlt; lia | intros Hk; discriminate Hk]. }
  match goal with
  | |- context [outcome (then_ (detach_driver env) _ ?s)] =>
      step (detach_driver_outcome env s)
  end.
  destruct (kernel_driver_active_rc env =? 1).
  - destruct (detach_kernel_driver_rc env =? LIBUSB_SUCCESS); cbn [negb] in Hfail;
      cbv beta iota.
    2:{ injection Hfail as <-.
        eexists [Call.libusb_open dev; Call.libusb_kernel_driver_active _ 0;
                 Call.libusb_detach_kernel_driver _ 0].
        split; [reflexivity|]. split; [reflexivity|].
        split; [cbn [step_index]; intros Hlt; lia | intros Hk; discriminate Hk]. }
    destruct (arrival_after_detach env dev desc grun gw k Hd Hfail)
      as (attempts & v & Ho & Hatt & Hv & Hsink & Hsub).
    unfold set_dev_handle. simpl_statics. rewrite Ho. cbv beta iota.
    exists ([Call.libusb_open dev;
             Call.libusb_kernel_driver_active (Some {| libusb_get_device := dev |}) 0;
             Call.libusb_detach_kernel_driver (Some {| libusb_get_device := dev |}) 0]
            ++ attempts).
    split; [destruct v; [rewrite Hv|]; reflexivity|].
    split; [rewrite forallb_app, Hatt; reflexivity|].
    split.
    + intros Hlt. destruct (Hsink Hlt) as (e & Hs & Hin).
      exists e. split; [exact Hs | apply in_or_app; right; exact Hin].
    + intros Hk. apply in_or_app. right. exact (Hsub Hk).
  - destruct ((kernel_driver_active_rc env <? 0)
              && negb (kernel_driver_active_rc env =? LIBUSB_ERROR_NOT_SUPPORTED));
      cbv beta iota.
    { injection Hfail as <-.
      eexists [Call.libusb_open dev; Call.libusb_kernel_driver_active _ 0].
      split; [reflexivity|]. split; [reflexivity|].
      split; [cbn [step_index]; intros Hlt; lia | intros Hk; discriminate Hk]. }
    destruct (arrival_after_detach env dev desc grun gw k Hd Hfail)
      as (attempts & v & Ho & Hatt & Hv & Hsink & Hsub).
    unfold set_dev_handle. simpl_statics. rewrite Ho. cbv beta iota.
    exists ([Call.libusb_open dev;
             Call.libusb_kernel_driver_active (Some {| libusb_get_device := dev |}) 0]
            ++ attempts).
    split; [destruct v; [rewrite Hv|]; reflexivity|].
    split; [rewrite forallb_app, Hatt; reflexivity|].
    split.
    + intros Hlt. destruct (Hsink Hlt) as (e & Hs & Hin).
      exists e. split; [exact Hs | apply in_or_app; right; exact Hin].
    + intros Hk. apply in_or_app. right. exact (Hsub Hk).
Qed.

(** The same arrival when no step fails. *)
Lemma arrival_success_outcome
  (env : environment) (g : globals) (dev : libusb_device)
  (desc : libusb_device_descriptor) :
  session_empty g ->
  dev_descriptor dev = Some desc ->
  0 <= find_device (Some [Some dev]) 1 ->
  failing_step env dev = None ->
  exists e tx,
    state (hotplug_callback env dev LIBUSB_HOTPLUG_EVENT_DEVICE_ARRIVED g) =
    {| g_dev_handle := Some {| libusb_get_device := dev |};
       g_uidev := Some {| uinput_evdev := e |};
       g_evdev := Some e; g_tx := Some tx;
       g_running := g_running g; g_wheel_position := 0 |}
    /\ user_data tx = Some {| uinput_evdev := e |}.
Proof.
  intros Hempty Hd Hsup Hfail.
  assert (Hout : exists e tx calls,
            outcome (hotplug_callback env dev LIBUSB_HOTPLUG_EVENT_DEVICE_ARRIVED g) =
            (0,
             {| g_dev_handle := Some {| libusb_get_device := dev |};
                g_uidev := Some {| uinput_evdev := e |};
                g_evdev := Some e; g_tx := Some tx;
                g_running := g_running g; g_wheel_position := 0 |},
             calls)
            /\ user_data tx = Some {| uinput_evdev := e |}).
  { rewrite (hotplug_arrival_outcome env dev desc g Hd).
    unfold device_arrived.
    rewrite then_outcome, single_device_check_outcome by apply Hempty.
    rewrite then_outcome, supported_check_outcome by exact Hsup.
    destruct Hempty as (Hh & Hu & He & Ht).
    destruct g as [gh gu ge gt grun gw].
    cbn [g_dev_handle g_uidev g_evdev g_tx] in Hh, Hu, He, Ht. subst gh gu ge gt.
    match goal with
    | |- context [outcome (then_ (open_device env dev desc) _ ?s)] =>
        step (open_device_outcome env dev desc s)
    end.
    unfold failing_step in Hfail.
    destruct (open_rc env =? LIBUSB_SUCCESS); cbn [negb] in Hfail; cbv beta iota;
      [|discriminate Hfail].
    match goal with
    | |- context [outcome (then_ (detach_driver env) _ ?s)] =>
        step (detach_driver_outcome env s)
    end.
    destruct (kernel_driver_active_rc env =? 1).
    - destruct (detach_kernel_driver_rc env =? LIBUSB_SUCCESS); cbn [negb] in Hfail;
        cbv beta iota; [|discriminate Hfail].
      destruct (arrival_after_detach_success env dev desc grun gw Hd Hfail)
        as (e & tx & Ho & Hud & _).
      unfold set_dev_handle. simpl_statics. rewrite Ho. cbv beta iota.
      exists e, tx. eexists. split; [reflexivity | exact Hud].
    - destruct ((kernel_driver_active_rc env <? 0)
                && negb (kernel_driver_active_rc env =? LIBUSB_ERROR_NOT_SUPPORTED));
        cbv beta iota; [discriminate Hfail|].
      destruct (arrival_after_detach_success env dev desc grun gw Hd Hfail)
        as (e & tx & Ho & Hud & _).
      unfold set_dev_handle. simpl_statics. rewrite Ho. cbv beta iota.
      exists e, tx. eexists. split; [reflexivity | exact Hud]. }
  destruct Hout as (e & tx & calls & Hout & Hud).
  exists e, tx. split; [|exact Hud].
  unfold outcome in Hout. injection Hout as _ Hs _. exact Hs.
Qed.

(** C8, as amended: when a step of an arrival fails (open, kernel-driver
    hand-off, interface claim, creation of the evdev/uinput sink, transfer
    allocation, first submission), the callback returns 0, every handle
    among the statics is null again and the running flag is untouched; the
    calls that give resources back come after all others and undo the
    completed steps, last one first, each on what its step acquired: the
    handle opened on the device, the uinput device that [init_ctrl] made
    (the one of the create call of this arrival) and the transfer filled in
    for that handle and sink (the one submitted).  The wheel position is as
    before when the failure comes before the creation of the sink, and 0
    from then on. *)
Theorem arrival_failure_rolled_back
  (env : environment) (g : globals) (dev : libusb_device)
  (desc : libusb_device_descriptor) (k : acquisition_step) :
  session_empty g ->
  dev_descriptor dev = Some desc ->
  0 <= find_device (Some [Some dev]) 1 ->
  failing_step env dev = Some k ->
  let r := hotplug_callback env dev LIBUSB_HOTPLUG_EVENT_DEVICE_ARRIVED g in
  value r = 0
  /\ session_empty (state r)
  /\ g_running (state r) = g_running g
  /\ state r =
       set_wheel_position
         (if (step_index k <? 3)%nat then g_wheel_position g else 0) g
  /\ exists attempts,
       resource_calls (trace r) =
         attempts ++ rollback (Some {| libusb_get_device := dev |})
                       (acquired_sink env dev) (acquired_transfer env dev) k
       /\ forallb (fun c => negb (is_release c)) attempts = true
       /\ ((3 < step_index k)%nat ->
           exists e, acquired_sink env dev = Some {| uinput_evdev := e |}
                     /\ In (Call.libevdev_uinput_create_from_device e) attempts)
       /\ (k = step_submit ->
           In (Call.libusb_submit_transfer (acquired_transfer env dev)) attempts).
Proof.
  intros Hempty Hd Hsup Hfail r.
  destruct (arrival_failure_outcome env g dev desc k Hempty Hd Hsup Hfail)
    as (attempts & Hout & Hatt & Hsink & Hsub).
  fold r in Hout.
  pose proof (f_equal (fun o => fst (fst o)) Hout) as Hv.
  pose proof (f_equal (fun o => snd (fst o)) Hout) as Hs.
  pose proof (f_equal snd Hout) as Ht.
  cbn [outcome fst snd] in Hv, Hs, Ht.
  destruct Hempty as (Hh & Hu & He & Htx).
  split; [exact Hv|]. split; [|split; [|split]].
  - rewrite Hs. repeat split; assumption.
  - rewrite Hs. reflexivity.
  - exact Hs.
  - exists attempts. repeat split; assumption.
Qed.

Lemma arrival_failure_rolled_back_witness :
  session_empty initial_globals
  /\ failing_step submit_fails (device 1 VENDOR_ID_HANVON PRODUCT_ID_AM1209)
       = Some step_submit
  /\ value (hotplug_callback submit_fails
              (device 1 VENDOR_ID_HANVON PRODUCT_ID_AM1209)
              LIBUSB_HOTPLUG_EVENT_DEVICE_ARRIVED initial_globals) = 0
  /\ state (hotplug_callback submit_fails
              (device 1 VENDOR_ID_HANVON PRODUCT_ID_AM1209)
              LIBUSB_HOTPLUG_EVENT_DEVICE_ARRIVED initial_globals) = initial_globals
  /\ exists attempts,
       resource_calls
         (trace (hotplug_callback submit_fails
                   (device 1 VENDOR_ID_HANVON PRODUCT_ID_AM1209)
                   LIBUSB_HOTPLUG_EVENT_DEVICE_ARRIVED initial_globals))
       = attempts
         ++ rollback
              (Some {| libusb_get_device :=
                         device 1 VENDOR_ID_HANVON PRODUCT_ID_AM1209 |})
              (acquired_sink submit_fails
                 (device 1 VENDOR_ID_HANVON PRODUCT_ID_AM1209))
              (acquired_transfer submit_fails
                 (device 1 VENDOR_ID_HANVON PRODUCT_ID_AM1209))
              step_submit
       /\ In (Call.libusb_submit_transfer
                (acquired_transfer submit_fails
                   (device 1 VENDOR_ID_HANVON PRODUCT_ID_AM1209)))
            attempts.
Proof.
  assert (Hempty : session_empty initial_globals) by (repeat split).
  assert (Hsup : 0 <= find_device
                        (Some [Some (device 1 VENDOR_ID_HANVON PRODUCT_ID_AM1209)]) 1)
    by (cbn; lia).
  assert (Hfail : failing_step submit_fails
                    (device 1 VENDOR_ID_HANVON PRODUCT_ID_AM1209) = Some step_submit)
    by reflexivity.
  split; [exact Hempty|]. split; [exact Hfail|].
  destruct (arrival_failure_rolled_back submit_fails initial_globals
              (device 1 VENDOR_ID_HANVON PRODUCT_ID_AM1209)
              {| idVendor := VENDOR_ID_HANVON; idProduct := PRODUCT_ID_AM1209;
                 bcdDevice := 0 |}
              step_submit Hempty eq_refl Hsup Hfail)
    as (Hv & _ & _ & Hs & attempts & Hcalls & _ & _ & Hsub).
  split; [exact Hv|]. split; [exact Hs|].
  exists attempts. split; [exact Hcalls | exact (Hsub eq_refl)].
Defined.

(** The calls of that arrival, written out: every step is undone on what
    it acquired, last one first. *)
Lemma arrival_submit_failure_example :
  let dev := device 1 VENDOR_ID_HANVON PRODUCT_ID_AM1209 in
  let h := {| libusb_get_device := dev |} in
  exists e,
    acquired_sink submit_fails dev = Some {| uinput_evdev := e |}
    /\ resource_calls
         (trace (hotplug_callback submit_fails dev
                   LIBUSB_HOTPLUG_EVENT_DEVICE_ARRIVED initial_globals))
       = [ Call.libusb_open dev;
           Call.libusb_kernel_driver_active (Some h) 0;
           Call.libusb_detach_kernel_driver (Some h) 0;
           Call.libusb_claim_interface (Some h) 0;
           Call.libevdev_new;
           Call.libevdev_uinput_create_from_device e;
           Call.libusb_alloc_transfer 0;
           Call.libusb_submit_transfer
             (Some (session_transfer h {| uinput_evdev := e |}));
           Call.libusb_free_transfer
             (Some (session_transfer h {| uinput_evdev := e |}));
           Call.libevdev_uinput_destroy (Some {| uinput_evdev := e |});
           Call.libusb_release_interface (Some h) 0;
           Call.libusb_attach_kernel_driver (Some h) 0;
           Call.libusb_close (Some h) ].
Proof. eexists. split; vm_compute; reflexivity. Qed.

(** C8 as stated fails for the wheel position: after a session in which
    the wheel was turned, an arrival that fails at the creation of the sink
    leaves the position at 0, not at what it was. *)
Lemma arrival_wheel_counterexample :
  session_empty after_wheel_session
  /\ failing_step uinput_create_fails (device 1 VENDOR_ID_HANVON PRODUCT_ID_AM1209)
       = Some step_sink
  /\ state (hotplug_callback uinput_create_fails
              (device 1 VENDOR_ID_HANVON PRODUCT_ID_AM1209)
              LIBUSB_HOTPLUG_EVENT_DEVICE_ARRIVED after_wheel_session)
     <> after_wheel_session.
Proof.
  split; [repeat split|]. split; [reflexivity|].
  vm_compute. intros H. discriminate H.
Qed.

(** When no step fails the session is in place: the handle is open on the
    device, sink and transfer exist, and the transfer was submitted. *)
Lemma arrival_success_example :
  failing_step all_succeed (device 1 VENDOR_ID_HANVON PRODUCT_ID_AM1209) = None
  /\ g_dev_handle (session_of PRODUCT_ID_AM1209)
       = Some {| libusb_get_device := device 1 VENDOR_ID_HANVON PRODUCT_ID_AM1209 |}
  /\ is_null (g_uidev (session_of PRODUCT_ID_AM1209)) = false
  /\ is_null (g_tx (session_of PRODUCT_ID_AM1209)) = false
  /\ submitted (trace (hotplug_callback all_succeed
                         (device 1 VENDOR_ID_HANVON PRODUCT_ID_AM1209)
                         LIBUSB_HOTPLUG_EVENT_DEVICE_ARRIVED initial_globals)) = true.
Proof. vm_compute. repeat split. Qed.

(** ** What the program can reach *)

Lemma byte_at_is_byte (data : list Z) (i : Z) :
  Forall is_byte data -> is_byte (byte_at data i).
Proof.
  intros H. unfold byte_at.
  destruct (nth_in_or_default (Z.to_nat i) data 0) as [Hin | ->].
  - rewrite Forall_forall in H. apply H. exact Hin.
  - unfold is_byte. lia.
Qed.

(** [report_buttons] touches no static but the wheel position, which
    stays in range. *)
Lemma report_buttons_statics
  (env : environment) (ud : libevdev_uinput) (buttons : list ev_code)
  (num_buttons data : Z) (g : globals) :
  0 <= data ->
  let r := report_buttons env ud buttons num_buttons data g in
  set_wheel_position (g_wheel_position g) (state r) = g
  /\ (wheel_in_range g -> wheel_in_range (state r)).
Proof.
  intros Hdata r.
  destruct (Z.leb_spec data 0x3f) as [Hle|Hgt].
  - destruct (wheel_branch env ud buttons num_buttons data g (conj Hdata Hle))
      as (_ & Hpos & Hrest).
    fold r in Hpos, Hrest. split; [exact Hrest|].
    unfold wheel_in_range. rewrite Hpos.
    destruct (spec_wheel_delta 31 (g_wheel_position g) data =? 0); lia.
  - assert (Hs : state r = g).
    { unfold r, report_buttons.
      destruct (Z.land data 0xf0 =? 0xa0).
      - destruct (num_buttons >? 1), (num_buttons >? 2), (num_buttons >? 3);
          run; reflexivity.
      - destruct (Z.leb_spec data 0x3f); [lia | reflexivity]. }
    rewrite Hs. split; [destruct g; reflexivity | trivial].
Qed.

Lemma case_BUTTON_EVENT_0906_state
  (env : environment) (ud : libevdev_uinput) (tx : libusb_transfer) (g : globals) :
  state (case_BUTTON_EVENT_0906 env ud tx g) = g.
Proof.
  unfold case_BUTTON_EVENT_0906.
  destruct (actual_length tx <? 4); [reflexivity|].
  run; reflexivity.
Qed.

Lemma set_wheel_position_same (g : globals) :
  set_wheel_position (g_wheel_position g) g = g.
Proof. destruct g; reflexivity. Qed.

Lemma switch_msgtype_statics
  (env : environment) (ud : libevdev_uinput) (tx : libusb_transfer) (g : globals) :
  Forall is_byte (buffer tx) ->
  let r := switch_msgtype env ud tx g in
  set_wheel_position (g_wheel_position g) (state r) = g
  /\ (wheel_in_range g -> wheel_in_range (state r)).
Proof.
  intros Hbytes r. unfold r, switch_msgtype.
  destruct (byte_at (buffer tx) 0 =? BUTTON_EVENT_GP).
  - unfold case_BUTTON_EVENT_GP.
    destruct (actual_length tx <? 5);
      [split; [apply set_wheel_position_same | trivial]|].
    cbn [bind state value trace].
    assert (Hb2 : 0 <= byte_at (buffer tx) 2)
      by (apply (byte_at_is_byte _ 2 Hbytes)).
    assert (Hb4 : 0 <= byte_at (buffer tx) 4)
      by (apply (byte_at_is_byte _ 4 Hbytes)).
    set (g1 := state (when_ (byte_at (buffer tx) 1 =? 0x55)
                        (report_buttons env ud lbuttons
                           (Z.of_nat (List.length lbuttons)) (byte_at (buffer tx) 2))
                        g)).
    assert (H1 : set_wheel_position (g_wheel_position g) g1 = g
                 /\ (wheel_in_range g -> wheel_in_range g1)).
    { unfold g1. destruct (byte_at (buffer tx) 1 =? 0x55); cbn [when_].
      - apply report_buttons_statics. exact Hb2.
      - split; [apply set_wheel_position_same | trivial]. }
    assert (H2 : forall s,
               let s' := state (when_ (byte_at (buffer tx) 3 =? 0xAA)
                                  (report_buttons env ud rbuttons
                                     (Z.of_nat (List.length rbuttons))
                                     (byte_at (buffer tx) 4)) s) in
               set_wheel_position (g_wheel_position s) s' = s
               /\ (wheel_in_range s -> wheel_in_range s')).
    { intros s. destruct (byte_at (buffer tx) 3 =? 0xAA); cbn [when_].
      - apply report_buttons_statics. exact Hb4.
      - split; [apply set_wheel_position_same | trivial]. }
    specialize (H2 g1). cbv zeta in H2.
    destruct H1 as (H1a & H1b). destruct H2 as (H2a & H2b).
    split; [|auto].
    rewrite <- H1a at 2. rewrite <- H2a at 2.
    match goal with
    | |- context [state ?x] => destruct (state x)
    end.
    reflexivity.
  - destruct (byte_at (buffer tx) 0 =? PEN_EVENT).
    { rewrite case_PEN_EVENT_state.
      split; [apply set_wheel_position_same | trivial]. }
    destruct (byte_at (buffer tx) 0 =? BUTTON_EVENT_0906).
    { rewrite case_BUTTON_EVENT_0906_state.
      split; [apply set_wheel_position_same | trivial]. }
    split; [apply set_wheel_position_same | trivial].
Qed.

(** [callback_default] touches no static but the wheel position, which
    stays in range when the buffer holds bytes. *)
Lemma callback_default_statics
  (env : environment) (tx : libusb_transfer) (g : globals) :
  Forall is_byte (buffer tx) ->
  let r := callback_default env tx g in
  set_wheel_position (g_wheel_position g) (state r) = g
  /\ (wheel_in_range g -> wheel_in_range (state r)).
Proof.
  intros Hbytes r.
  assert (Hsame : state r = g ->
            set_wheel_position (g_wheel_position g) (state r) = g
            /\ (wheel_in_range g -> wheel_in_range (state r))).
  { intros ->. split; [apply set_wheel_position_same | trivial]. }
  destruct (status tx) eqn:Hst;
    try (apply Hsame; unfold r, callback_default; rewrite Hst; reflexivity).
  destruct (user_data tx) as [ud|] eqn:Hud.
  - destruct (Z.ltb_spec (actual_length tx) 1) as [Hlt|Hge].
    + apply Hsame.
      apply (empty_packet_no_event env g tx ud Hst Hud Hlt).
    + unfold r. rewrite (callback_default_state env tx ud g Hst Hud Hge).
      apply switch_msgtype_statics. exact Hbytes.
  - apply Hsame. unfold r, callback_default. rewrite Hst, Hud.
    run. apply resubmit_state.
Qed.

Lemma hotplug_unchanged_cases
  (env : environment) (dev : libusb_device) (event : libusb_hotplug_event)
  (g : globals) :
  dev_descriptor dev = None
  \/ (event = LIBUSB_HOTPLUG_EVENT_DEVICE_ARRIVED /\ is_null (g_dev_handle g) = false)
  \/ (event = LIBUSB_HOTPLUG_EVENT_DEVICE_ARRIVED /\ g_dev_handle g = None
      /\ find_device (Some [Some dev]) 1 < 0)
  \/ (event = LIBUSB_HOTPLUG_EVENT_DEVICE_LEFT /\ g_dev_handle g = None)
  \/ (event = LIBUSB_HOTPLUG_EVENT_DEVICE_LEFT
      /\ exists h, g_dev_handle g = Some h
                   /\ same_device (libusb_get_device h) dev = false)
  \/ (exists n, event = LIBUSB_HOTPLUG_EVENT_OTHER n) ->
  state (hotplug_callback env dev event g) = g.
Proof.
  unfold hotplug_callback.
  intros [Hd | Hcases]; [rewrite Hd; reflexivity|].
  destruct (dev_descriptor dev) as [desc|]; [|reflexivity].
  destruct Hcases as [(-> & Hh) | [(-> & Hh & Hsup) | [(-> & Hh) | [(-> & h & Hh & Hsame)
                     | (n & ->)]]]].
  - unfold device_arrived, single_device_check. run_hotplug.
    destruct (g_dev_handle g); [reflexivity | discriminate Hh].
  - unfold device_arrived, single_device_check, supported_check. run_hotplug.
    rewrite Hh. run_hotplug.
    destruct (Z.ltb_spec (find_device (Some [Some dev]) 1) 0); [reflexivity | lia].
  - unfold device_left. run_hotplug. rewrite Hh. reflexivity.
  - unfold device_left. run_hotplug. rewrite Hh, Hsame. reflexivity.
  - reflexivity.
Qed.

(** The departure of the device of the session empties the statics. *)
Lemma departure_of_active
  (env : environment) (dev : libusb_device) (desc : libusb_device_descriptor)
  (h : libusb_device_handle) (g : globals) :
  dev_descriptor dev = Some desc ->
  session_active g ->
  g_dev_handle g = Some h ->
  same_device (libusb_get_device h) dev = true ->
  state (hotplug_callback env dev LIBUSB_HOTPLUG_EVENT_DEVICE_LEFT g) =
  {| g_dev_handle := None; g_uidev := None; g_evdev := None; g_tx := None;
     g_running := g_running g; g_wheel_position := g_wheel_position g |}.
Proof.
  intros Hd (_ & Hu & _ & Ht) Hh Hsame.
  unfold hotplug_callback. rewrite Hd.
  unfold device_left. run_hotplug. rewrite Hh, Hsame.
  destruct (g_tx g); [|discriminate Ht].
  destruct (g_uidev g); [|discriminate Hu].
  run_hotplug. reflexivity.
Qed.

Lemma hotplug_callback_invariant
  (env : environment) (dev : libusb_device) (event : libusb_hotplug_event)
  (g : globals) :
  session_invariant g ->
  session_invariant (state (hotplug_callback env dev event g)).
Proof.
  intros Hinv.
  assert (Hsame : state (hotplug_callback env dev event g) = g ->
                  session_invariant (state (hotplug_callback env dev event g)))
    by (intros ->; exact Hinv).
  destruct (dev_descriptor dev) as [desc|] eqn:Hd;
    [|apply Hsame, hotplug_unchanged_cases; left; exact Hd].
  destruct Hinv as ([Hempty | Hactive] & Hwheel).
  - (* no session *)
    pose proof Hempty as (Hh & _).
    destruct event as [| |n].
    + destruct (Z.ltb_spec (find_device (Some [Some dev]) 1) 0) as [Hno|Hsup].
      { apply Hsame, hotplug_unchanged_cases. right. right. left. auto. }
      destruct (failing_step env dev) as [k|] eqn:Hfail.
      * destruct (arrival_failure_outcome env g dev desc k Hempty Hd Hsup Hfail)
          as (attempts & Hout & _).
        unfold outcome in Hout. injection Hout as _ Hs _. rewrite Hs.
        destruct Hempty as (H1 & H2 & H3 & H4).
        split; [left; repeat split; assumption|].
        unfold wheel_in_range in *. cbn [set_wheel_position g_wheel_position].
        destruct (step_index k <? 3)%nat; lia.
      * destruct (arrival_success_outcome env g dev desc Hempty Hd Hsup Hfail)
          as (e & tx & Hs & _).
        rewrite Hs. split; [right; repeat split|].
        unfold wheel_in_range. cbn. lia.
    + apply Hsame, hotplug_unchanged_cases. right. right. right. left. auto.
    + apply Hsame, hotplug_unchanged_cases. do 5 right. exists n. reflexivity.
  - (* a session *)
    pose proof Hactive as (Hh & _).
    destruct (g_dev_handle g) as [h|] eqn:Hg; [|discriminate Hh].
    destruct event as [| |n].
    + apply Hsame, hotplug_unchanged_cases. right. left. rewrite Hg. auto.
    + destruct (same_device (libusb_get_device h) dev) eqn:Hs.
      * rewrite (departure_of_active env dev desc h g Hd Hactive Hg Hs).
        split; [left; repeat split | exact Hwheel].
      * apply Hsame, hotplug_unchanged_cases. do 4 right. left.
        split; [reflexivity|]. exists h. auto.
    + apply Hsame, hotplug_unchanged_cases. do 5 right. exists n. reflexivity.
Qed.

(** Whatever the program has been through, its statics hold either no
    session or a whole one, and a wheel position in 0..0x3f: the states
    the theorems on arrivals and on the wheel start from are the states
    the program is in. *)
Lemma reachable_invariant (g : globals) :
  reachable g -> session_invariant g.
Proof.
  induction 1 as [| env dev event g _ IH | env tx g _ IH Hbytes | signum g _ IH].
  - split; [left; repeat split | unfold wheel_in_range; cbn; lia].
  - apply hotplug_callback_invariant. exact IH.
  - destruct IH as (Hsession & Hwheel).
    destruct (callback_default_statics env tx g Hbytes) as (Hrest & Hrange).
    split; [|apply Hrange; exact Hwheel].
    rewrite <- Hrest in Hsession.
    destruct (state (callback_default env tx g)).
    exact Hsession.
  - exact IH.
Qed.

(** ** The wheel through callback_default *)

Lemma rel_events_app (t1 t2 : list Call.t) :
  rel_events (t1 ++ t2) = rel_events t1 ++ rel_events t2.
Proof. unfold rel_events. rewrite uinput_events_app, filter_app. reflexivity. Qed.

Lemma rel_events_log (c : bool) (msg : string) (args : list Z) :
  rel_events (if c then [Call.DEBUG msg args] else []) = [].
Proof. destruct c; reflexivity. Qed.

(** A byte that is no wheel position moves nothing. *)
Lemma report_buttons_no_wheel
  (env : environment) (ud : libevdev_uinput) (buttons : list ev_code)
  (num_buttons data : Z) (g : globals) :
  0x3f < data ->
  let r := report_buttons env ud buttons num_buttons data g in
  state r = g /\ rel_events (trace r) = [].
Proof.
  intros Hdata r. unfold r, report_buttons.
  destruct (Z.land data 0xf0 =? 0xa0).
  - destruct (num_buttons >? 1), (num_buttons >? 2), (num_buttons >? 3);
      run; rewrite ?rel_events_app, ?rel_events_log; split; reflexivity.
  - destruct (Z.leb_spec data 0x3f); [lia | split; reflexivity].
Qed.

(** The stored position again moves nothing either. *)
Lemma report_buttons_same_position
  (env : environment) (ud : libevdev_uinput) (buttons : list ev_code)
  (num_buttons : Z) (g : globals) :
  wheel_in_range g ->
  let r := report_buttons env ud buttons num_buttons (g_wheel_position g) g in
  state r = g /\ rel_events (trace r) = [].
Proof.
  intros Hrange r.
  destruct (wheel_branch env ud buttons num_buttons (g_wheel_position g) g Hrange)
    as (Hev & Hpos & Hrest).
  fold r in Hev, Hpos, Hrest.
  assert (Hd : spec_wheel_delta 0x1f (g_wheel_position g) (g_wheel_position g) = 0)
    by (unfold spec_wheel_delta; rewrite Z.sub_diag; reflexivity).
  unfold spec_wheel_events in Hev. rewrite Hd in Hev, Hpos. cbn [Z.eqb map] in Hev, Hpos.
  split.
  - rewrite (only_wheel_changed _ _ _ _ Hrest Hpos).
    apply set_wheel_position_same.
  - unfold rel_events. rewrite Hev. reflexivity.
Qed.

(** C3, as amended: a general-button packet (type 0x01, left marker 0x55,
    at least 5 bytes) that carries the wheel position [v] in byte 2, and
    whose right side, when byte 3 is the marker 0xAA, carries in byte 4 no
    wheel position other than [v], decoded twice in a row by
    [callback_default] from statics whose wheel position is in 0..0x3f:
    after the first decode the stored position is [v]; the second decode
    computes delta 0, writes no relative-axis event, and leaves the statics,
    the stored position with them, as they were. *)
Theorem wheel_packet_idempotent
  (env1 env2 : environment) (ud : libevdev_uinput) (tx : libusb_transfer)
  (g : globals) :
  status tx = LIBUSB_TRANSFER_COMPLETED ->
  user_data tx = Some ud ->
  5 <= actual_length tx ->
  byte_at (buffer tx) 0 = BUTTON_EVENT_GP ->
  byte_at (buffer tx) 1 = 0x55 ->
  0 <= byte_at (buffer tx) 2 <= 0x3f ->
  (byte_at (buffer tx) 3 = 0xAA ->
   0x3f < byte_at (buffer tx) 4 \/ byte_at (buffer tx) 4 = byte_at (buffer tx) 2) ->
  wheel_in_range g ->
  let v := byte_at (buffer tx) 2 in
  let g1 := state (callback_default env1 tx g) in
  let r2 := callback_default env2 tx g1 in
  g_wheel_position g1 = v
  /\ v - g_wheel_position g1 = 0
  /\ spec_wheel_delta 0x1f (g_wheel_position g1) v = 0
  /\ rel_events (trace r2) = []
  /\ g_wheel_position (state r2) = v
  /\ state r2 = g1.
Proof.
  intros Hst Hud Hlen H0 H1 Hv Hright Hrange. cbv zeta.
  set (v := byte_at (buffer tx) 2) in *.
  set (g1 := state (callback_default env1 tx g)).
  set (r2 := callback_default env2 tx g1).
  assert (Hcb : forall env s,
            callback_default env tx s =
            bind (switch_msgtype env ud tx)
              (fun _ =>
                 bind (libevdev_uinput_write_event env ud EV_SYN SYN_REPORT 0)
                   (fun err =>
                      bind (when_ (nonzero err)
                              (DEBUG "Error writing EV_SYN: %d (%s)" [err]))
                        (fun _ => resubmit env tx))) s)
    by (intros; apply callback_default_frame; assumption || lia).
  assert (Hsw : forall env s,
            switch_msgtype env ud tx s =
            bind (report_buttons env ud lbuttons 4 v)
              (fun _ => when_ (byte_at (buffer tx) 3 =? 0xAA)
                          (report_buttons env ud rbuttons 4 (byte_at (buffer tx) 4))) s).
  { intros env s. unfold switch_msgtype, case_BUTTON_EVENT_GP.
    rewrite H0, H1. cbn [Z.eqb BUTTON_EVENT_GP Pos.eqb].
    destruct (Z.ltb_spec (actual_length tx) 5); [lia | reflexivity]. }
  (* the right side, from statics whose position is v *)
  assert (Hr : forall env s,
            wheel_in_range s -> g_wheel_position s = v ->
            let r := when_ (byte_at (buffer tx) 3 =? 0xAA)
                       (report_buttons env ud rbuttons 4 (byte_at (buffer tx) 4)) s in
            state r = s /\ rel_events (trace r) = []).
  { intros env s Hs Hsv.
    destruct (Z.eqb_spec (byte_at (buffer tx) 3) 0xAA) as [Haa|_]; cbn [when_];
      [|split; reflexivity].
    destruct (Hright Haa) as [Hbig | Hsame].
    - apply report_buttons_no_wheel. exact Hbig.
    - rewrite Hsame, <- Hsv. apply report_buttons_same_position. exact Hs. }
  (* the left side sets the position to v *)
  assert (Hl : forall env s,
            wheel_in_range s ->
            let r := report_buttons env ud lbuttons 4 v s in
            g_wheel_position (state r) = v /\ wheel_in_range (state r)).
  { intros env s Hs.
    destruct (wheel_branch env ud lbuttons 4 v s Hv) as (_ & Hpos & _).
    rewrite spec_wheel_delta_zero in Hpos by assumption.
    assert (Hp : g_wheel_position (state (report_buttons env ud lbuttons 4 v s)) = v)
      by (destruct (Z.eqb_spec v (g_wheel_position s)); congruence).
    split; [exact Hp|]. unfold wheel_in_range. rewrite Hp. exact Hv. }
  assert (Hg1 : g_wheel_position g1 = v /\ wheel_in_range g1).
  { unfold g1. rewrite (callback_default_state env1 tx ud g Hst Hud) by lia.
    rewrite Hsw. cbn [bind state].
    destruct (Hl env1 g Hrange) as (Hp & Hs).
    destruct (Hr env1 _ Hs Hp) as (Hs' & _). rewrite Hs'. split; assumption. }
  destruct Hg1 as (Hg1v & Hg1r).
  assert (Hleft : state (report_buttons env2 ud lbuttons 4 v g1) = g1
                  /\ rel_events (trace (report_buttons env2 ud lbuttons 4 v g1)) = []).
  { rewrite <- Hg1v. apply report_buttons_same_position. exact Hg1r. }
  destruct Hleft as (Hls & Hle).
  destruct (Hr env2 g1 Hg1r Hg1v) as (Hrs & Hre). cbv zeta in Hrs, Hre.
  assert (Hev : rel_events (trace r2) = []).
  { unfold r2. rewrite Hcb. run. rewrite Hsw. cbn [bind trace state].
    rewrite Hls. rewrite !rel_events_app, Hle, Hre, rel_events_log.
    unfold rel_events. rewrite resubmit_events. reflexivity. }
  assert (Hs2 : state r2 = g1).
  { unfold r2. rewrite (callback_default_state env2 tx ud g1 Hst Hud) by lia.
    rewrite Hsw. cbn [bind state]. rewrite Hls. exact Hrs. }
  split; [exact Hg1v|]. split; [lia|].
  split; [rewrite Hg1v; unfold spec_wheel_delta; rewrite Z.sub_diag; reflexivity|].
  split; [exact Hev|]. split; [rewrite Hs2; exact Hg1v | exact Hs2].
Qed.

(** Both sides carrying the position 5, from the position 0x3e: the first
    decode moves the wheel, the second writes no relative-axis event. *)
Lemma wheel_packet_idempotent_witness :
  rel_events
    (trace (callback_default all_succeed
              (completed_transfer (Some example_sink) [0x01; 0x55; 0x05; 0xAA; 0x05])
              (state (callback_default all_succeed
                        (completed_transfer (Some example_sink)
                           [0x01; 0x55; 0x05; 0xAA; 0x05])
                        (wheel_at 0x3e))))) = []
  /\ g_wheel_position
       (state (callback_default all_succeed
                 (completed_transfer (Some example_sink) [0x01; 0x55; 0x05; 0xAA; 0x05])
                 (state (callback_default all_succeed
                           (completed_transfer (Some example_sink)
                              [0x01; 0x55; 0x05; 0xAA; 0x05])
                           (wheel_at 0x3e))))) = 0x05.
Proof.
  destruct (wheel_packet_idempotent all_succeed all_succeed example_sink
              (completed_transfer (Some example_sink) [0x01; 0x55; 0x05; 0xAA; 0x05])
              (wheel_at 0x3e))
    as (_ & _ & _ & Hev & Hpos & _).
  - reflexivity.
  - reflexivity.
  - vm_compute. discriminate.
  - reflexivity.
  - reflexivity.
  - change (0 <= 0x05 <= 0x3f). lia.
  - intros _. right. reflexivity.
  - unfold wheel_in_range. simpl. lia.
  - split; [exact Hev | exact Hpos].
Defined.

(** C3 as stated fails for a 0x01/0x55 packet that carries the position 5
    on its left side and another position, 7, on its right side: the right
    side is decoded against the same stored position as the left one, so
    that the second decode writes two relative-axis events, -2 and +2, and
    leaves the stored position at 7, not at 5. *)
Lemma wheel_packet_counterexample :
  byte_at [0x01; 0x55; 0x05; 0xAA; 0x07] 0 = BUTTON_EVENT_GP
  /\ byte_at [0x01; 0x55; 0x05; 0xAA; 0x07] 1 = 0x55
  /\ byte_at [0x01; 0x55; 0x05; 0xAA; 0x07] 2 = 0x05
  /\ wheel_in_range initial_globals
  /\ uinput_events
       (trace (callback_default all_succeed
                 (completed_transfer (Some example_sink) [0x01; 0x55; 0x05; 0xAA; 0x07])
                 (state (callback_default all_succeed
                           (completed_transfer (Some example_sink)
                              [0x01; 0x55; 0x05; 0xAA; 0x07])
                           initial_globals))))
     = map evdev_of [RelAxis Wheel (-2); RelAxis Wheel 2; SyncBatchEnd]
  /\ rel_events
       (trace (callback_default all_succeed
                 (completed_transfer (Some example_sink) [0x01; 0x55; 0x05; 0xAA; 0x07])
                 (state (callback_default all_succeed
                           (completed_transfer (Some example_sink)
                              [0x01; 0x55; 0x05; 0xAA; 0x07])
                           initial_globals))))
     <> []
  /\ g_wheel_position
       (state (callback_default all_succeed
                 (completed_transfer (Some example_sink) [0x01; 0x55; 0x05; 0xAA; 0x07])
                 (state (callback_default all_succeed
                           (completed_transfer (Some example_sink)
                              [0x01; 0x55; 0x05; 0xAA; 0x07])
                           initial_globals))))
     = 0x07.
Proof.
  split; [reflexivity|]. split; [reflexivity|]. split; [reflexivity|].
  split; [unfold wheel_in_range; simpl; lia|].
  split; [vm_compute; reflexivity|].
  split; [vm_compute; intros H; discriminate H | vm_compute; reflexivity].
Qed.

(** The wheel branch carried to whole packets: a general-button packet with the left
    marker, a wheel position in byte 2 and no right marker gives the wheel
    event of the branch, when there is one, and the marker. *)
Lemma wheel_packet_decoded
  (env : environment) (ud : libevdev_uinput) (tx : libusb_transfer) (g : globals) :
  status tx = LIBUSB_TRANSFER_COMPLETED ->
  user_data tx = Some ud ->
  5 <= actual_length tx ->
  byte_at (buffer tx) 0 = BUTTON_EVENT_GP ->
  byte_at (buffer tx) 1 = 0x55 ->
  byte_at (buffer tx) 3 <> 0xAA ->
  0 <= byte_at (buffer tx) 2 <= 0x3f ->
  wheel_in_range g ->
  let r := callback_default env tx g in
  uinput_events (trace r) =
    map evdev_of
      (spec_wheel_events 0x1f (g_wheel_position g) (byte_at (buffer tx) 2)
       ++ [SyncBatchEnd])
  /\ state r = set_wheel_position (byte_at (buffer tx) 2) g.
Proof.
  intros Hst Hud Hlen H0 H1 H3 Hv Hrange r. unfold r.
  destruct (left_marker_packet env ud tx g Hlen H0 H1 H3) as (Htr & Hs).
  destruct (wheel_branch env ud lbuttons 4 (byte_at (buffer tx) 2) g Hv)
    as (Hev & Hpos & Hrest).
  rewrite (callback_default_events env tx ud g Hst Hud) by lia.
  rewrite (callback_default_state env tx ud g Hst Hud) by lia.
  rewrite Htr, Hs, app_nil_r, Hev, map_app. split; [reflexivity|].
  apply (only_wheel_changed (g_wheel_position g)); [exact Hrest|].
  rewrite Hpos, spec_wheel_delta_zero by assumption.
  destruct (Z.eqb_spec (byte_at (buffer tx) 2) (g_wheel_position g)); congruence.
Qed.

(** * Further properties of the code *)

(** The arm for general-button packets, past its length check. *)
Lemma switch_msgtype_general
  (env : environment) (ud : libevdev_uinput) (tx : libusb_transfer) :
  5 <= actual_length tx ->
  byte_at (buffer tx) 0 = BUTTON_EVENT_GP ->
  switch_msgtype env ud tx =
  bind (when_ (byte_at (buffer tx) 1 =? 0x55)
          (report_buttons env ud lbuttons 4 (byte_at (buffer tx) 2)))
    (fun _ => when_ (byte_at (buffer tx) 3 =? 0xAA)
                (report_buttons env ud rbuttons 4 (byte_at (buffer tx) 4))).
Proof.
  intros Hlen H0. unfold switch_msgtype, case_BUTTON_EVENT_GP.
  rewrite H0. cbn [Z.eqb BUTTON_EVENT_GP Pos.eqb].
  destruct (Z.ltb_spec (actual_length tx) 5); [lia | reflexivity].
Qed.

(** The button branch of [report_buttons] on a set of four codes. *)
Lemma button_branch
  (env : environment) (ud : libevdev_uinput) (buttons : list ev_code)
  (data : Z) (g : globals) :
  Z.land data 0xf0 = 0xa0 ->
  let r := report_buttons env ud buttons 4 data g in
  uinput_events (trace r) =
    [ key (button_at buttons 1) (Z.testbit data 1);
      key (button_at buttons 2) (Z.testbit data 2);
      key (button_at buttons 3) (Z.testbit data 3) ]
  /\ state r = g
  /\ resource_calls (trace r) = [].
Proof.
  intros H r. unfold r, report_buttons. rewrite H.
  cbn [Z.eqb Pos.eqb Z.gtb Z.compare Pos.compare Pos.compare_cont].
  run. events. resources.
  rewrite !lnot_lnot_b2z.
  change (nonzero (Z.land data 2)) with (nonzero (Z.land data (2 ^ 1))).
  change (nonzero (Z.land data 4)) with (nonzero (Z.land data (2 ^ 2))).
  change (nonzero (Z.land data 8)) with (nonzero (Z.land data (2 ^ 3))).
  rewrite !nonzero_land_bit by lia.
  repeat split.
Qed.

(** X1: a general-button packet (type 0x01, at least 5 bytes) whose
    marked sides carry button bytes (high nibble 0xa): the left marker 0x55
    gives Button 1, 2, 3 from bits 0x02, 0x04, 0x08 of byte 2, the right
    marker 0xAA gives Button 5, 6, 7 from the same bits of byte 4, left
    before right, then one SyncBatchEnd.  The first button of a set (0 and
    4) is never written, and the statics are unchanged. *)
Theorem general_button_packet_decoded
  (env : environment) (g : globals) (ud : libevdev_uinput) (tx : libusb_transfer) :
  status tx = LIBUSB_TRANSFER_COMPLETED ->
  user_data tx = Some ud ->
  5 <= actual_length tx ->
  byte_at (buffer tx) 0 = BUTTON_EVENT_GP ->
  (byte_at (buffer tx) 1 = 0x55 -> Z.land (byte_at (buffer tx) 2) 0xf0 = 0xa0) ->
  (byte_at (buffer tx) 3 = 0xAA -> Z.land (byte_at (buffer tx) 4) 0xf0 = 0xa0) ->
  let r := callback_default env tx g in
  uinput_events (trace r) =
    map evdev_of
      ((if byte_at (buffer tx) 1 =? 0x55
        then button_events 0 (byte_at (buffer tx) 2) else [])
       ++ (if byte_at (buffer tx) 3 =? 0xAA
           then button_events 4 (byte_at (buffer tx) 4) else [])
       ++ [SyncBatchEnd])
  /\ state r = g.
Proof.
  intros Hst Hud Hlen H0 Hl Hr r. unfold r.
  rewrite (callback_default_events env tx ud g Hst Hud) by lia.
  rewrite (callback_default_state env tx ud g Hst Hud) by lia.
  rewrite (switch_msgtype_general env ud tx Hlen H0).
  cbn [bind state trace]. rewrite uinput_events_app.
  assert (Hleft :
    let r1 := when_ (byte_at (buffer tx) 1 =? 0x55)
                (report_buttons env ud lbuttons 4 (byte_at (buffer tx) 2)) g in
    uinput_events (trace r1) =
      map evdev_of (if byte_at (buffer tx) 1 =? 0x55
                    then button_events 0 (byte_at (buffer tx) 2) else [])
    /\ state r1 = g).
  { destruct (Z.eqb_spec (byte_at (buffer tx) 1) 0x55) as [H1|_]; cbn [when_];
      [|split; reflexivity].
    destruct (button_branch env ud lbuttons _ g (Hl H1)) as (Hev & Hs & _).
    split; [exact Hev | exact Hs]. }
  destruct Hleft as (Hlev & Hls). rewrite Hlev, Hls.
  assert (Hright :
    let r2 := when_ (byte_at (buffer tx) 3 =? 0xAA)
                (report_buttons env ud rbuttons 4 (byte_at (buffer tx) 4)) g in
    uinput_events (trace r2) =
      map evdev_of (if byte_at (buffer tx) 3 =? 0xAA
                    then button_events 4 (byte_at (buffer tx) 4) else [])
    /\ state r2 = g).
  { destruct (Z.eqb_spec (byte_at (buffer tx) 3) 0xAA) as [H3|_]; cbn [when_];
      [|split; reflexivity].
    destruct (button_branch env ud rbuttons _ g (Hr H3)) as (Hev & Hs & _).
    split; [exact Hev | exact Hs]. }
  destruct Hright as (Hrev & Hrs). rewrite Hrev, Hrs.
  rewrite !map_app, <- !app_assoc. split; reflexivity.
Qed.

Lemma general_button_packet_decoded_witness :
  uinput_events (trace (callback_default all_succeed both_sides_example initial_globals)) =
  map evdev_of
    [ Button 1 true; Button 2 true; Button 3 false;
      Button 5 false; Button 6 false; Button 7 true; SyncBatchEnd ].
Proof.
  refine (proj1 (general_button_packet_decoded all_succeed initial_globals example_sink
                   both_sides_example eq_refl eq_refl _ eq_refl _ _)).
  - cbn. lia.
  - intros _. reflexivity.
  - intros _. reflexivity.
Defined.

(** ** Two wheel bytes *)

Lemma spec_wheel_delta_bounds (last byte : Z) :
  0 <= last <= 0x3f -> 0 <= byte <= 0x3f ->
  - 0x20 <= spec_wheel_delta 0x1f last byte <= 0x20.
Proof.
  intros Hl Hb. unfold spec_wheel_delta.
  destruct (Z.gtb_spec (Z.abs (byte - last)) 0x1f);
    destruct (Z.gtb_spec (byte - last) 0); lia.
Qed.

(** The wheel branch from a position in range: the statics afterwards. *)
Lemma wheel_branch_state
  (env : environment) (ud : libevdev_uinput) (buttons : list ev_code)
  (num_buttons data : Z) (g : globals) :
  wheel_in_range g ->
  0 <= data <= 0x3f ->
  state (report_buttons env ud buttons num_buttons data g) = set_wheel_position data g.
Proof.
  intros Hprev Hdata.
  destruct (wheel_branch env ud buttons num_buttons data g Hdata) as (_ & Hpos & Hrest).
  apply (only_wheel_changed (g_wheel_position g)); [exact Hrest|].
  rewrite Hpos, spec_wheel_delta_zero by assumption.
  destruct (Z.eqb_spec data (g_wheel_position g)); congruence.
Qed.

(** X2: a general-button packet with both markers and a wheel position
    on each side: the left byte is decoded against the stored position, the
    right byte against the left byte, and the stored position ends as the
    right byte.  The two sides share one wheel position. *)
Theorem two_wheel_bytes_decoded
  (env : environment) (g : globals) (ud : libevdev_uinput) (tx : libusb_transfer) :
  status tx = LIBUSB_TRANSFER_COMPLETED ->
  user_data tx = Some ud ->
  5 <= actual_length tx ->
  byte_at (buffer tx) 0 = BUTTON_EVENT_GP ->
  byte_at (buffer tx) 1 = 0x55 ->
  byte_at (buffer tx) 3 = 0xAA ->
  0 <= byte_at (buffer tx) 2 <= 0x3f ->
  0 <= byte_at (buffer tx) 4 <= 0x3f ->
  wheel_in_range g ->
  let left := byte_at (buffer tx) 2 in
  let right := byte_at (buffer tx) 4 in
  let r := callback_default env tx g in
  uinput_events (trace r) =
    map evdev_of
      (spec_wheel_events 0x1f (g_wheel_position g) left
       ++ spec_wheel_events 0x1f left right
       ++ [SyncBatchEnd])
  /\ state r = set_wheel_position right g.
Proof.
  intros Hst Hud Hlen H0 H1 H3 Hl Hr Hrange left right r. unfold r.
  rewrite (callback_default_events env tx ud g Hst Hud) by lia.
  rewrite (callback_default_state env tx ud g Hst Hud) by lia.
  rewrite (switch_msgtype_general env ud tx Hlen H0).
  rewrite H1, H3. cbn [Z.eqb Pos.eqb when_ bind state trace].
  fold left right.
  rewrite (wheel_branch_state env ud lbuttons 4 left g Hrange Hl).
  destruct (wheel_branch env ud lbuttons 4 left g Hl) as (Hev1 & _ & _).
  assert (Hrange1 : wheel_in_range (set_wheel_position left g)) by exact Hl.
  destruct (wheel_branch env ud rbuttons 4 right (set_wheel_position left g) Hr)
    as (Hev2 & _ & _).
  rewrite (wheel_branch_state env ud rbuttons 4 right _ Hrange1 Hr).
  rewrite uinput_events_app, Hev1, Hev2, !map_app, <- !app_assoc.
  split; reflexivity.
Qed.

Lemma two_wheel_bytes_decoded_witness :
  uinput_events (trace (callback_default all_succeed two_wheels_example (wheel_at 0x07))) =
    map evdev_of [RelAxis Wheel (-2); RelAxis Wheel 2; SyncBatchEnd]
  /\ state (callback_default all_succeed two_wheels_example (wheel_at 0x07)) = wheel_at 0x07.
Proof.
  refine (two_wheel_bytes_decoded all_succeed (wheel_at 0x07) example_sink
            two_wheels_example eq_refl eq_refl _ eq_refl eq_refl eq_refl _ _ _).
  - simpl. lia.
  - change (0 <= 0x05 <= 0x3f). lia.
  - change (0 <= 0x07 <= 0x3f). lia.
  - unfold wheel_in_range. simpl. lia.
Defined.

(** ** What the decoder does to resources *)

Lemma report_buttons_quiet
  (env : environment) (ud : libevdev_uinput) (buttons : list ev_code)
  (num_buttons data : Z) (g : globals) :
  let r := report_buttons env ud buttons num_buttons data g in
  resource_calls (trace r) = []
  /\ g_running (state r) = g_running g
  /\ g_dev_handle (state r) = g_dev_handle g.
Proof.
  unfold report_buttons.
  destruct (Z.land data 0xf0 =? 0xa0).
  - destruct (num_buttons >? 1), (num_buttons >? 2), (num_buttons >? 3);
      run; resources; repeat split.
  - destruct (data <=? 0x3f); [|repeat split]. run.
    match goal with
    | |- context [when_ ?c _] => destruct c
    end; run; resources; repeat split.
Qed.

Lemma when_report_buttons_quiet
  (env : environment) (ud : libevdev_uinput) (buttons : list ev_code)
  (c : bool) (num_buttons data : Z) (g : globals) :
  let r := when_ c (report_buttons env ud buttons num_buttons data) g in
  resource_calls (trace r) = []
  /\ g_running (state r) = g_running g
  /\ g_dev_handle (state r) = g_dev_handle g.
Proof.
  destruct c; cbn [when_]; [apply report_buttons_quiet | repeat split].
Qed.

Lemma switch_msgtype_quiet
  (env : environment) (ud : libevdev_uinput) (tx : libusb_transfer) (g : globals) :
  let r := switch_msgtype env ud tx g in
  resource_calls (trace r) = []
  /\ g_running (state r) = g_running g
  /\ g_dev_handle (state r) = g_dev_handle g.
Proof.
  unfold switch_msgtype.
  destruct (byte_at (buffer tx) 0 =? BUTTON_EVENT_GP).
  { unfold case_BUTTON_EVENT_GP.
    destruct (actual_length tx <? 5); [repeat split|].
    cbn [bind state trace value].
    destruct (when_report_buttons_quiet env ud lbuttons
                (byte_at (buffer tx) 1 =? 0x55) (Z.of_nat (List.length lbuttons))
                (byte_at (buffer tx) 2) g) as (Ht1 & Hr1 & Hh1).
    match goal with
    | |- context [when_ (byte_at (buffer tx) 3 =? 0xAA) ?m ?s] =>
        destruct (when_report_buttons_quiet env ud rbuttons
                    (byte_at (buffer tx) 3 =? 0xAA) (Z.of_nat (List.length rbuttons))
                    (byte_at (buffer tx) 4) s) as (Ht2 & Hr2 & Hh2)
    end.
    cbv zeta in *.
    rewrite resource_calls_app, Ht1, Ht2, Hr2, Hr1, Hh2, Hh1. repeat split. }
  destruct (byte_at (buffer tx) 0 =? PEN_EVENT).
  { rewrite case_PEN_EVENT_state. split; [|split; reflexivity].
    unfold case_PEN_EVENT.
    destruct (actual_length tx <? AM_PACKET_LEN); [reflexivity|].
    match goal with
    | |- context [when_ (nonzero (Z.land ?a ?b)) _] => destruct (nonzero (Z.land a b))
    end; run; resources; reflexivity. }
  destruct (byte_at (buffer tx) 0 =? BUTTON_EVENT_0906).
  { rewrite case_BUTTON_EVENT_0906_state. split; [|split; reflexivity].
    unfold case_BUTTON_EVENT_0906.
    destruct (actual_length tx <? 4); [reflexivity|].
    run; resources; reflexivity. }
  repeat split.
Qed.

Lemma resubmit_resources (env : environment) (tx : libusb_transfer) (g : globals) :
  resource_calls (trace (resubmit env tx g)) =
  if g_running g && negb (is_null (g_dev_handle g))
  then [Call.libusb_submit_transfer (Some tx)] else [].
Proof.
  unfold resubmit. run.
  destruct (g_running g && negb (is_null (g_dev_handle g))); run; resources; reflexivity.
Qed.

(** The one resource call of [callback_default]: the resubmission. *)
Lemma callback_default_resources
  (env : environment) (tx : libusb_transfer) (g : globals) :
  resource_calls (trace (callback_default env tx g)) =
  if is_completed (status tx) && g_running g && negb (is_null (g_dev_handle g))
  then [Call.libusb_submit_transfer (Some tx)] else [].
Proof.
  unfold callback_default.
  destruct (status tx); try reflexivity.
  cbn [is_completed andb].
  destruct (user_data tx) as [ud|];
    [|run; resources; rewrite resubmit_resources; reflexivity].
  destruct (actual_length tx <? 1);
    [run; resources; rewrite resubmit_resources; reflexivity|].
  run. resources.
  destruct (switch_msgtype_quiet env ud tx g) as (Ht & Hr & Hh).
  rewrite Ht, resubmit_resources, Hr, Hh. reflexivity.
Qed.

(** X3: [callback_default] makes at most one call on a resource: it
    hands the transfer back to libusb exactly when the transfer completed,
    the program is running and a device is open, whatever the packet, the
    sink and the results of the event writes.  A transfer that did not
    complete, has no sink or holds no byte writes no event and leaves the
    statics as they are. *)
Theorem transfer_resubmission (env : environment) (tx : libusb_transfer) (g : globals) :
  let r := callback_default env tx g in
  resource_calls (trace r) =
    (if is_completed (status tx) && g_running g && negb (is_null (g_dev_handle g))
     then [Call.libusb_submit_transfer (Some tx)] else [])
  /\ (is_completed (status tx) = false \/ user_data tx = None \/ actual_length tx < 1 ->
      uinput_events (trace r) = [] /\ state r = g).
Proof.
  cbv zeta. split; [apply callback_default_resources|].
  unfold callback_default.
  destruct (status tx); try (intros _; split; reflexivity).
  destruct (user_data tx) as [ud|].
  - destruct (Z.ltb_spec (actual_length tx) 1) as [Hlt|Hge].
    + intros _. run. events. rewrite resubmit_events, resubmit_state.
      split; reflexivity.
    + intros [H | [H | H]]; [discriminate H | discriminate H | lia].
  - intros _. run. events. rewrite resubmit_events, resubmit_state.
    split; reflexivity.
Qed.

(** X4: on a buffer of bytes [callback_default] changes no static but
    the wheel position, and that stays within 0..0x3f; a packet whose type
    is not 0x01 changes nothing at all. *)
Theorem decoder_touches_only_wheel
  (env : environment) (tx : libusb_transfer) (g : globals) :
  Forall is_byte (buffer tx) ->
  wheel_in_range g ->
  let s := state (callback_default env tx g) in
  s = set_wheel_position (g_wheel_position s) g
  /\ wheel_in_range s
  /\ (byte_at (buffer tx) 0 <> BUTTON_EVENT_GP -> s = g).
Proof.
  intros Hbytes Hrange s.
  destruct (callback_default_statics env tx g Hbytes) as (Hrest & Hkeep).
  fold s in Hrest, Hkeep.
  split; [|split].
  - apply (only_wheel_changed (g_wheel_position g)); [exact Hrest | reflexivity].
  - apply Hkeep. exact Hrange.
  - intros Hno. unfold s, callback_default.
    destruct (status tx); try reflexivity.
    destruct (user_data tx) as [ud|]; [|run; apply resubmit_state].
    destruct (actual_length tx <? 1); [run; apply resubmit_state|].
    run. rewrite resubmit_state. unfold switch_msgtype.
    destruct (Z.eqb_spec (byte_at (buffer tx) 0) BUTTON_EVENT_GP); [contradiction|].
    destruct (byte_at (buffer tx) 0 =? PEN_EVENT); [apply case_PEN_EVENT_state|].
    destruct (byte_at (buffer tx) 0 =? BUTTON_EVENT_0906);
      [apply case_BUTTON_EVENT_0906_state | reflexivity].
Qed.

Lemma decoder_touches_only_wheel_witness :
  state (callback_default all_succeed pen_example (wheel_at 0x07)) = wheel_at 0x07.
Proof.
  refine (proj2 (proj2 (decoder_touches_only_wheel all_succeed pen_example (wheel_at 0x07)
                          _ _)) _).
  - repeat constructor; unfold is_byte; lia.
  - unfold wheel_in_range. simpl. lia.
  - simpl. intros H. discriminate H.
Defined.

(** ** The shape of what is written *)

Lemma b2z_0_or_1 (b : bool) : Z.b2z b = 0 \/ Z.b2z b = 1.
Proof. destruct b; [right | left]; reflexivity. Qed.

Lemma decoder_event_right (e : input_event) :
  decoder_event false e -> decoder_event true e.
Proof.
  unfold decoder_event. destruct (type e); try (intros H; exact H).
  intros (Hin & Hv). split; [|exact Hv].
  rewrite app_nil_r in Hin. apply in_or_app. left. exact Hin.
Qed.

Lemma key_shape (right : bool) (c : ev_code) (b : bool) :
  In c ([BTN_TOOL_PEN; BTN_TOOL_RUBBER; BTN_TOUCH; BTN_STYLUS;
         BTN_0; BTN_1; BTN_2; BTN_3]
        ++ (if right then [BTN_5; BTN_6; BTN_7] else [])) ->
  decoder_event right (key c b).
Proof. intros Hin. split; [exact Hin | apply b2z_0_or_1]. Qed.

(** Membership in a list of codes that is known in full. *)
Ltac in_codes := vm_compute; repeat ((left; reflexivity) || right).

Ltac each_event := repeat apply Forall_cons; [..|apply Forall_nil].

(** [report_buttons] on one of the two button sets. *)
Lemma report_buttons_shape
  (env : environment) (ud : libevdev_uinput) (right : bool) (data : Z) (g : globals) :
  0 <= data ->
  wheel_in_range g ->
  Forall (decoder_event right)
    (uinput_events
       (trace (report_buttons env ud (if right then rbuttons else lbuttons) 4 data g))).
Proof.
  intros Hdata Hrange.
  destruct (Z.eqb_spec (Z.land data 0xf0) 0xa0) as [Hb|Hnb].
  - destruct (button_branch env ud (if right then rbuttons else lbuttons) data g Hb)
      as (Hev & _). rewrite Hev.
    destruct right; each_event; apply key_shape; in_codes.
  - destruct (Z.leb_spec data 0x3f) as [Hle|Hgt].
    + destruct (wheel_branch env ud (if right then rbuttons else lbuttons) 4 data g
                  (conj Hdata Hle)) as (Hev & _).
      rewrite Hev. unfold spec_wheel_events.
      destruct (Z.eqb_spec (spec_wheel_delta 0x1f (g_wheel_position g) data) 0);
        [constructor|].
      constructor; [|constructor].
      pose proof (spec_wheel_delta_bounds (g_wheel_position g) data Hrange
                    (conj Hdata Hle)).
      cbn. repeat split; lia || assumption.
    + unfold report_buttons.
      destruct (Z.eqb_spec (Z.land data 0xf0) 0xa0); [contradiction|].
      destruct (Z.leb_spec data 0x3f); [lia | constructor].
Qed.

Lemma case_PEN_EVENT_shape
  (env : environment) (ud : libevdev_uinput) (tx : libusb_transfer) (g : globals) :
  Forall is_byte (buffer tx) ->
  Forall (decoder_event false) (uinput_events (trace (case_PEN_EVENT env ud tx g))).
Proof.
  intros Hbytes.
  destruct (Z.ltb_spec (actual_length tx) AM_PACKET_LEN) as [Hlt|Hge].
  { unfold case_PEN_EVENT.
    destruct (Z.ltb_spec (actual_length tx) AM_PACKET_LEN); [constructor | lia]. }
  rewrite (case_PEN_EVENT_events env ud tx g Hge).
  pose proof (fun i => byte_at_is_byte (buffer tx) i Hbytes) as Hb.
  assert (H16 : forall hi lo, is_byte hi -> is_byte lo ->
                  0 <= uint16 (Z.lor (Z.shiftl (uint16 hi) 8) lo) <= 0xffff).
  { intros hi lo Hhi Hlo. rewrite be16 by assumption. unfold is_byte in *. lia. }
  assert (Hp : forall hi lo, is_byte hi -> is_byte lo ->
                 0 <= Z.shiftr (uint16 (Z.lor (Z.shiftl (uint16 hi) 8) lo)) 6
                   < AM_MAX_PRESSURE).
  { intros hi lo Hhi Hlo. rewrite be16 by assumption.
    rewrite Z.shiftr_div_pow2 by lia. unfold is_byte, AM_MAX_PRESSURE in *.
    change (2 ^ 6) with 64. split.
    - apply Z.div_pos; lia.
    - apply Z.div_lt_upper_bound; lia. }
  assert (Htilt : forall i, 0 <= byte_at (buffer tx) i <= 0xff).
  { intros i. specialize (Hb i). unfold is_byte in Hb. lia. }
  apply Forall_app. split; [|apply Forall_app; split].
  - each_event.
    destruct (nonzero (Z.land (byte_at (buffer tx) 1) 0x20));
      apply (key_shape false); in_codes.
  - destruct (nonzero (Z.land (byte_at (buffer tx) 1) (Z.lor (Z.lor 0x80 0x10) 0x01)));
      [|constructor].
    each_event; cbn [decoder_event type code value_]; auto.
  - each_event; apply (key_shape false); in_codes.
Qed.

Lemma case_BUTTON_EVENT_0906_shape
  (env : environment) (ud : libevdev_uinput) (tx : libusb_transfer) (g : globals) :
  Forall (decoder_event false)
    (uinput_events (trace (case_BUTTON_EVENT_0906 env ud tx g))).
Proof.
  destruct (Z.ltb_spec (actual_length tx) 4) as [Hlt|Hge].
  { unfold case_BUTTON_EVENT_0906.
    destruct (Z.ltb_spec (actual_length tx) 4); [constructor | lia]. }
  rewrite (case_BUTTON_EVENT_0906_events env ud tx g Hge).
  each_event; apply (key_shape false); in_codes.
Qed.

Lemma Forall_decoder_event_right (l : list input_event) :
  Forall (decoder_event false) l -> Forall (decoder_event true) l.
Proof. apply Forall_impl. exact decoder_event_right. Qed.

(** The switch on a buffer of bytes, from a wheel position in range. *)
Lemma switch_msgtype_shape
  (env : environment) (ud : libevdev_uinput) (tx : libusb_transfer) (g : globals) :
  Forall is_byte (buffer tx) ->
  wheel_in_range g ->
  Forall (decoder_event (has_right_marker tx))
    (uinput_events (trace (switch_msgtype env ud tx g))).
Proof.
  intros Hbytes Hrange.
  assert (Hany : forall l, Forall (decoder_event false) l ->
                           Forall (decoder_event (has_right_marker tx)) l).
  { intros l Hl. destruct (has_right_marker tx);
      [apply Forall_decoder_event_right|]; exact Hl. }
  unfold switch_msgtype, has_right_marker.
  destruct (Z.eqb_spec (byte_at (buffer tx) 0) BUTTON_EVENT_GP) as [H0|_].
  { unfold case_BUTTON_EVENT_GP.
    destruct (actual_length tx <? 5); [constructor|].
    cbn [bind trace state value andb]. rewrite uinput_events_app.
    assert (Hb2 : 0 <= byte_at (buffer tx) 2) by (apply (byte_at_is_byte _ 2 Hbytes)).
    assert (Hb4 : 0 <= byte_at (buffer tx) 4) by (apply (byte_at_is_byte _ 4 Hbytes)).
    apply Forall_app. split.
    - destruct (byte_at (buffer tx) 1 =? 0x55); cbn [when_]; [|constructor].
      assert (Hleft := report_buttons_shape env ud false (byte_at (buffer tx) 2) g
                         Hb2 Hrange).
      destruct (byte_at (buffer tx) 3 =? 0xAA);
        [apply Forall_decoder_event_right|]; exact Hleft.
    - destruct (byte_at (buffer tx) 3 =? 0xAA); cbn [when_]; [|constructor].
      apply (report_buttons_shape env ud true); [exact Hb4|].
      destruct (byte_at (buffer tx) 1 =? 0x55); cbn [when_ state ret]; [|exact Hrange].
      apply report_buttons_statics; assumption. }
  cbn [andb].
  destruct (byte_at (buffer tx) 0 =? PEN_EVENT);
    [apply case_PEN_EVENT_shape; exact Hbytes|].
  destruct (byte_at (buffer tx) 0 =? BUTTON_EVENT_0906);
    [apply case_BUTTON_EVENT_0906_shape | constructor].
Qed.

(** X5: every event [callback_default] writes for a buffer of bytes,
    from a wheel position in range, is one of: SYN_REPORT with value 0; a
    key among the tool, touch and stylus codes and BTN_0..BTN_3 (BTN_5..BTN_7
    too, for a packet with the right marker only) with value 0 or 1; a
    wheel step within -0x20..0x20 other than 0; X or Y within 16 bits; a
    pressure below AM_MAX_PRESSURE; a tilt within one byte. *)
Theorem decoder_events_well_formed
  (env : environment) (tx : libusb_transfer) (g : globals) :
  Forall is_byte (buffer tx) ->
  wheel_in_range g ->
  Forall (decoder_event (has_right_marker tx))
    (uinput_events (trace (callback_default env tx g))).
Proof.
  intros Hbytes Hrange. unfold callback_default.
  destruct (status tx); try constructor.
  destruct (user_data tx) as [ud|];
    [|run; events; rewrite resubmit_events; constructor].
  destruct (actual_length tx <? 1);
    [run; events; rewrite resubmit_events; constructor|].
  run. events. rewrite resubmit_events.
  apply Forall_app. split.
  - apply switch_msgtype_shape; assumption.
  - constructor; [|constructor]. split; reflexivity.
Qed.

Lemma decoder_events_well_formed_witness :
  Forall (decoder_event true)
    (uinput_events
       (trace (callback_default all_succeed two_wheels_example (wheel_at 0x3e)))).
Proof.
  refine (decoder_events_well_formed all_succeed two_wheels_example (wheel_at 0x3e) _ _).
  - repeat constructor; unfold is_byte; lia.
  - unfold wheel_in_range. simpl. lia.
Defined.

(** X6: [find_device] on a list of at least [count] entries, for a
    [count] whose indices fit an int (at most INT_MAX + 1 entries), returns
    the index of the first entry among the first [count] that is a readable
    Hanvon device with a product id of the switch; null entries and devices
    whose descriptor cannot be read are skipped; it returns -1 when there is
    no such entry.  Beyond INT_MAX the unsigned index no longer fits the
    int the function returns. *)
Theorem find_device_first_supported
  (l : list (option libusb_device)) (count : nat) :
  (count <= List.length l)%nat ->
  Z.of_nat count <= INT_MAX + 1 ->
  let r := find_device (Some l) count in
  (r = -1
   /\ forall j, (j < count)%nat -> is_supported_entry (nth j l None) = false)
  \/ (0 <= r < Z.of_nat count
      /\ is_supported_entry (nth (Z.to_nat r) l None) = true
      /\ forall j, (j < Z.to_nat r)%nat -> is_supported_entry (nth j l None) = false).
Proof.
  intros _ Hcount r. unfold r, find_device.
  destruct (find_device_from_first l count 0 ltac:(lia))
    as [(Hr & Hnone) | (j & Hj & Hr & Hyes & Hnone)]; cbv zeta in *.
  - left. split; [exact Hr | exact Hnone].
  - right. cbn [Z.to_nat Nat.add] in Hyes, Hnone.
    assert (Hfit : int_of_unsigned (0 + Z.of_nat j) = Z.of_nat j).
    { unfold int_of_unsigned.
      destruct (Z.leb_spec (0 + Z.of_nat j) INT_MAX); lia. }
    rewrite Hr, Hfit, Nat2Z.id.
    split; [lia|]. split; [exact Hyes | exact Hnone].
Qed.

Lemma find_device_first_supported_witness :
  (5 <= List.length device_list_example)%nat
  /\ Z.of_nat 5 <= INT_MAX + 1
  /\ find_device (Some device_list_example) 5 = 3.
Proof.
  assert (Hlen : (5 <= List.length device_list_example)%nat) by (simpl; lia).
  assert (Hcount : Z.of_nat 5 <= INT_MAX + 1) by (vm_compute; discriminate).
  split; [exact Hlen|]. split; [exact Hcount|].
  destruct (find_device_first_supported device_list_example 5 Hlen Hcount)
    as [(_ & Hnone) | (_ & _ & _)].
  - specialize (Hnone 3%nat ltac:(lia)). discriminate Hnone.
  - reflexivity.
Defined.

(** ** init_ctrl when nothing fails *)

Lemma enable_event_code_succeeds
  (env : environment) (e : libevdev) (t : ev_type) (c : ev_code)
  (d : option input_absinfo) :
  0 <= enable_event_code_rc env t c ->
  libevdev_enable_event_code env e t c d =
  (enable_event_code_rc env t c,
   {| evdev_name := evdev_name e; id_vendor := id_vendor e; id_product := id_product e;
      id_bustype := id_bustype e; id_version := id_version e;
      properties := properties e; event_types := event_types e;
      event_codes := event_codes e ++ [(t, c, d)] |}).
Proof.
  intros H. unfold libevdev_enable_event_code.
  destruct (Z.ltb_spec (enable_event_code_rc env t c) 0); [lia | reflexivity].
Qed.

Lemma fold_left_enable_key
  (env : environment) (codes : list ev_code) (e : libevdev) :
  (forall t c, 0 <= enable_event_code_rc env t c) ->
  fold_left (enable_key env) codes e =
  {| evdev_name := evdev_name e; id_vendor := id_vendor e; id_product := id_product e;
     id_bustype := id_bustype e; id_version := id_version e;
     properties := properties e; event_types := event_types e;
     event_codes := event_codes e ++ map (fun c => (EV_KEY, c, None)) codes |}.
Proof.
  intros Hok. revert e. induction codes as [|c codes IH]; intros e; cbn [fold_left map].
  - rewrite app_nil_r. destruct e; reflexivity.
  - rewrite IH. unfold enable_key.
    rewrite enable_event_code_succeeds by apply Hok.
    cbn [snd evdev_name id_vendor id_product id_bustype id_version properties
         event_types event_codes].
    rewrite <- app_assoc. reflexivity.
Qed.

(** Rewrites the calls of libevdev_enable_event_code from the innermost
    one outwards, so that the description stays a record written out. *)
Ltac flatten_description :=
  cbn [fst snd evdev_name id_vendor id_product id_bustype id_version properties
       event_types event_codes libevdev_set_name libevdev_set_id_vendor
       libevdev_set_id_product libevdev_set_id_bustype libevdev_set_id_version
       libevdev_enable_property libevdev_enable_event_type empty_evdev app
       minimum maximum fuzz flat resolution set_maximum].

Ltac enable_codes Hok :=
  repeat match goal with
  | |- context [libevdev_enable_event_code ?env ?e ?t ?c ?d] =>
      lazymatch e with
      | context [libevdev_enable_event_code] => fail
      | _ => rewrite (enable_event_code_succeeds env e t c d (Hok t c));
             flatten_description
      end
  end.

Lemma common_properties_success
  (env : environment) (desc : libusb_device_descriptor) :
  (forall t c, 0 <= enable_event_code_rc env t c) ->
  common_properties env desc empty_evdev =
  {| evdev_name := "Hanvon Tablet (Userspace)";
     id_vendor := idVendor desc; id_product := idProduct desc;
     id_bustype := BUS_USB; id_version := bcdDevice desc;
     properties := [INPUT_PROP_POINTER; INPUT_PROP_DIRECT];
     event_types := [EV_SYN; EV_KEY; EV_ABS];
     event_codes :=
       [ (EV_SYN, SYN_REPORT, None);
         (EV_KEY, BTN_TOOL_PEN, None); (EV_KEY, BTN_TOOL_RUBBER, None);
         (EV_KEY, BTN_TOUCH, None); (EV_KEY, BTN_STYLUS, None);
         (EV_KEY, BTN_STYLUS2, None) ] |}.
Proof.
  intros Hok. unfold common_properties, enable_key. cbv zeta.
  enable_codes Hok. flatten_description. reflexivity.
Qed.

Lemma init_ctrl_success
  (env : environment) (dev : libusb_device) (desc : libusb_device_descriptor)
  (g : globals) :
  dev_descriptor dev = Some desc ->
  init_ctrl_succeeds env ->
  outcome (init_ctrl env (Some dev) g) =
  (0,
   set_uidev (Some {| uinput_evdev := full_description desc |})
     (set_evdev (Some (full_description desc)) (set_wheel_position 0 g)),
   [Call.libevdev_new;
    Call.libevdev_uinput_create_from_device (full_description desc)]).
Proof.
  intros Hd (Hnew & Hok & Hcreate).
  assert (Hlt : forall t c, (enable_event_code_rc env t c <? 0) = false)
    by (intros t c; apply Z.ltb_ge, Hok).
  assert (Hct : (uinput_create_rc env <? 0) = false) by (apply Z.ltb_ge, Hcreate).
  unfold outcome, init_ctrl. rewrite Hd.
  unfold libevdev_new. run_hotplug. rewrite Hnew. run_hotplug.
  rewrite (common_properties_success env desc Hok).
  repeat (enable_codes Hok; rewrite ?Hlt; run_hotplug).
  unfold wheel_buttons_name.
  repeat (enable_codes Hok; rewrite ?Hlt; run_hotplug).
  rewrite fold_left_enable_key by exact Hok. flatten_description.
  unfold libevdev_uinput_create_from_device. run_hotplug. rewrite Hct. run_hotplug.
  resources. reflexivity.
Qed.

(** X7: when the allocation of the description, the enabling of the
    codes and the creation of the uinput device succeed, [init_ctrl] on a
    supported product returns 0, resets the wheel position, and leaves in
    the statics a description and the uinput device made from it, with this
    profile: the ids of the descriptor, the name of the product, maxima
    0x5750 and 0x3692 for X and Y on the APPIV0906 and 0x27DE and 0x1CFE
    otherwise, pressure 0x400, tilts 0x3F and 0x7F, nine buttons for the
    APPIV0906, eight for the AM1107 and AM1209, four otherwise, and a
    wheel. *)
Theorem init_ctrl_profile
  (env : environment) (dev : libusb_device) (desc : libusb_device_descriptor)
  (g : globals) :
  dev_descriptor dev = Some desc ->
  In (idProduct desc) supported_products ->
  init_ctrl_succeeds env ->
  let r := init_ctrl env (Some dev) g in
  let appiv := idProduct desc =? PRODUCT_ID_APPIV0906 in
  value r = 0
  /\ exists e,
       state r = set_uidev (Some {| uinput_evdev := e |})
                   (set_evdev (Some e) (set_wheel_position 0 g))
       /\ profile_of e =
          {| vendorId := idVendor desc;
             productId := idProduct desc;
             displayName := device_name (idProduct desc);
             maxX := if appiv then APPIV_MAX_ABS_X else AM_MAX_ABS_X;
             maxY := if appiv then APPIV_MAX_ABS_Y else AM_MAX_ABS_Y;
             maxPressure := AM_MAX_PRESSURE;
             maxTiltX := AM_MAX_TILT_X;
             maxTiltY := AM_MAX_TILT_Y;
             buttonSet := button_set_for (idProduct desc);
             hasWheel := true |}.
Proof.
  intros Hd Hin Hok r appiv.
  pose proof (init_ctrl_success env dev desc g Hd Hok) as Hout.
  split; [exact (f_equal (fun o => fst (fst o)) Hout)|].
  exists (full_description desc).
  split; [exact (f_equal (fun o => snd (fst o)) Hout)|].
  unfold appiv. clear - Hin. destruct desc as [vendor product version].
  cbn [idProduct idVendor bcdDevice] in *. unfold supported_products in Hin.
  cbn [In] in Hin.
  repeat (destruct Hin as [<-|Hin]; [reflexivity|]).
  contradiction.
Qed.

Lemma init_ctrl_profile_witness :
  exists e,
    g_evdev (state (init_ctrl all_succeed
                      (Some (device 1 VENDOR_ID_HANVON PRODUCT_ID_APPIV0906))
                      initial_globals)) = Some e
    /\ maxX (profile_of e) = APPIV_MAX_ABS_X
    /\ buttonSet (profile_of e) = NineMixed.
Proof.
  assert (Hin : In PRODUCT_ID_APPIV0906 supported_products)
    by (unfold supported_products; cbn [In]; tauto).
  assert (Hok : init_ctrl_succeeds all_succeed)
    by (split; [reflexivity | split; [intros t c; simpl; lia | simpl; lia]]).
  destruct (init_ctrl_profile all_succeed
              (device 1 VENDOR_ID_HANVON PRODUCT_ID_APPIV0906)
              {| idVendor := VENDOR_ID_HANVON; idProduct := PRODUCT_ID_APPIV0906;
                 bcdDevice := 0 |}
              initial_globals eq_refl Hin Hok) as (_ & e & Hs & Hp).
  exists e. rewrite Hs, Hp. repeat split.
Defined.

(** ** What the decoder writes and what the description allows *)

Lemma has_code_full_description
  (desc : libusb_device_descriptor) (right : bool) (ev : input_event) :
  In (idProduct desc) supported_products ->
  (right = true -> button_set_for (idProduct desc) <> FourLeft) ->
  decoder_event right ev ->
  has_code (full_description desc) (type ev) (code ev) = true.
Proof.
  intros Hin Hright Hev.
  destruct desc as [vendor product version]. destruct ev as [t c v].
  unfold decoder_event in Hev. cbn [type code value_ idProduct] in *.
  unfold supported_products in Hin. cbn [In] in Hin.
  destruct t.
  - destruct Hev as (-> & _).
    repeat (destruct Hin as [<-|Hin]; [reflexivity|]). contradiction.
  - destruct Hev as (Hc & _).
    destruct right; cbn [app In] in Hc.
    + repeat (destruct Hin as [<-|Hin];
              [first [ exfalso; apply Hright; reflexivity
                     | repeat (destruct Hc as [<-|Hc]; [reflexivity|]);
                       contradiction ]|]).
      contradiction.
    + repeat (destruct Hin as [<-|Hin];
              [repeat (destruct Hc as [<-|Hc]; [reflexivity|]); contradiction|]).
      contradiction.
  - destruct Hev as (-> & _).
    repeat (destruct Hin as [<-|Hin]; [reflexivity|]). contradiction.
  - destruct c; try contradiction;
      repeat (destruct Hin as [<-|Hin]; [reflexivity|]); contradiction.
Qed.

(** X8: for a supported product whose description [init_ctrl] built
    without failure, every event the decoder writes has a code that the
    description enables, as long as packets with the right marker come from
    the products with a right button set (AM1107, AM1209, APPIV0906). *)
Theorem decoder_writes_enabled_codes
  (env : environment) (dev : libusb_device) (desc : libusb_device_descriptor)
  (g : globals) (e : libevdev)
  (env' : environment) (tx : libusb_transfer) (s : globals) :
  dev_descriptor dev = Some desc ->
  In (idProduct desc) supported_products ->
  init_ctrl_succeeds env ->
  g_evdev (state (init_ctrl env (Some dev) g)) = Some e ->
  Forall is_byte (buffer tx) ->
  wheel_in_range s ->
  (has_right_marker tx = true -> button_set_for (idProduct desc) <> FourLeft) ->
  Forall (fun ev => has_code e (type ev) (code ev) = true)
    (uinput_events (trace (callback_default env' tx s))).
Proof.
  intros Hd Hin Hok He Hbytes Hrange Hright.
  pose proof (init_ctrl_success env dev desc g Hd Hok) as Hout.
  apply (f_equal (fun o => snd (fst o))) in Hout. cbn [outcome fst snd] in Hout.
  rewrite Hout in He. cbn [g_evdev set_uidev set_evdev] in He. injection He as <-.
  assert (Hsync : has_code (full_description desc) EV_SYN SYN_REPORT = true).
  { apply (has_code_full_description desc false (evdev_of SyncBatchEnd) Hin);
      [intros H; discriminate H | split; reflexivity]. }
  unfold callback_default.
  destruct (status tx); try constructor.
  destruct (user_data tx) as [ud|];
    [|run; events; rewrite resubmit_events; constructor].
  destruct (actual_length tx <? 1);
    [run; events; rewrite resubmit_events; constructor|].
  run. events. rewrite resubmit_events.
  apply Forall_app. split.
  - apply (Forall_impl _ (fun ev => has_code_full_description desc
                                      (has_right_marker tx) ev Hin Hright)).
    apply switch_msgtype_shape; assumption.
  - constructor; [exact Hsync | constructor].
Qed.

Lemma decoder_writes_enabled_codes_witness :
  Forall (fun ev => has_code (full_description
                                {| idVendor := VENDOR_ID_HANVON;
                                   idProduct := PRODUCT_ID_AM1209; bcdDevice := 0 |})
                      (type ev) (code ev) = true)
    (uinput_events (trace (callback_default all_succeed both_sides_example
                             initial_globals))).
Proof.
  assert (Hin : In PRODUCT_ID_AM1209 supported_products)
    by (unfold supported_products; cbn [In]; tauto).
  assert (Hok : init_ctrl_succeeds all_succeed)
    by (split; [reflexivity | split; [intros t c; simpl; lia | simpl; lia]]).
  refine (decoder_writes_enabled_codes all_succeed
            (device 1 VENDOR_ID_HANVON PRODUCT_ID_AM1209)
            {| idVendor := VENDOR_ID_HANVON; idProduct := PRODUCT_ID_AM1209;
               bcdDevice := 0 |}
            initial_globals _ all_succeed both_sides_example initial_globals
            eq_refl Hin Hok _ _ _ _).
  - vm_compute. reflexivity.
  - repeat constructor; unfold is_byte; lia.
  - unfold wheel_in_range. simpl. lia.
  - intros _ H. discriminate H.
Defined.

(** ** init_ctrl when something fails *)

Lemma enable_event_code_fst
  (env : environment) (e : libevdev) (t : ev_type) (c : ev_code)
  (d : option input_absinfo) :
  fst (libevdev_enable_event_code env e t c d) = enable_event_code_rc env t c.
Proof. reflexivity. Qed.

(** X9: the return code of [init_ctrl] on a readable device is the first
    failure among the allocation of the description (-ENOMEM), the axes
    ABS_X, ABS_Y, ABS_PRESSURE, ABS_TILT_X, ABS_TILT_Y in this order and
    the creation of the uinput device; failing to enable the other codes is
    ignored; the code is never positive.  On failure g_evdev is null, no
    static other than the wheel position (now 0) has changed, and a
    description that was allocated is freed once, as the last call. *)
Theorem init_ctrl_failure
  (env : environment) (dev : libusb_device) (desc : libusb_device_descriptor)
  (g : globals) :
  dev_descriptor dev = Some desc ->
  let r := init_ctrl env (Some dev) g in
  value r = first_failure env
  /\ value r <= 0
  /\ (value r < 0 ->
      state r = set_evdev None (set_wheel_position 0 g)
      /\ if evdev_new_ok env
         then exists e,
                resource_calls (trace r) =
                  [Call.libevdev_new; Call.libevdev_free e]
                \/ resource_calls (trace r) =
                     [Call.libevdev_new; Call.libevdev_uinput_create_from_device e;
                      Call.libevdev_free e]
         else resource_calls (trace r) = [Call.libevdev_new]).
Proof.
  intros Hd r. unfold r. cbv beta zeta delta [first_failure].
  unfold init_ctrl. rewrite Hd.
  unfold libevdev_new. run_hotplug.
  destruct (evdev_new_ok env); run_hotplug; cbn [negb];
    [|split; [reflexivity | split; [unfold ENOMEM; lia | intros _; split; reflexivity]]].
  repeat match goal with
  | |- context [libevdev_enable_event_code env ?e ?t ?c ?d] =>
      let rc := fresh "rc" in
      let e' := fresh "e" in
      let E := fresh "E" in
      pose proof (enable_event_code_fst env e t c d) as E;
      destruct (libevdev_enable_event_code env e t c d) as [rc e'];
      cbn [fst] in E; subst rc;
      destruct (Z.ltb_spec (enable_event_code_rc env t c) 0); run_hotplug;
      [unfold error_free_evdev; run_hotplug; resources;
       split; [reflexivity|]; split; [lia|]; intros _;
       split; [reflexivity | eexists; left; reflexivity]|]
  end.
  match goal with
  | |- context [wheel_buttons_name env desc ?e _] =>
      destruct (wheel_buttons_name_run env desc e
                  (set_evdev (Some empty_evdev) (set_wheel_position 0 g)))
        as (Hs & _ & Ht)
  end.
  rewrite Hs.
  unfold libevdev_uinput_create_from_device. run_hotplug.
  destruct (Z.ltb_spec (uinput_create_rc env) 0); run_hotplug.
  - unfold error_free_evdev. run_hotplug. resources. rewrite Ht.
    split; [reflexivity|]. split; [lia|]. intros _.
    split; [reflexivity | eexists; right; reflexivity].
  - split; [reflexivity|]. split; [lia|]. intros Hneg. lia.
Qed.

Lemma init_ctrl_failure_witness :
  value (init_ctrl uinput_create_fails
           (Some (device 1 VENDOR_ID_HANVON PRODUCT_ID_AM1209)) initial_globals)
  = - ENOMEM.
Proof.
  exact (proj1 (init_ctrl_failure uinput_create_fails
                  (device 1 VENDOR_ID_HANVON PRODUCT_ID_AM1209)
                  {| idVendor := VENDOR_ID_HANVON; idProduct := PRODUCT_ID_AM1209;
                     bcdDevice := 0 |}
                  initial_globals eq_refl)).
Defined.

(** ** What a hotplug event never does *)

Lemma then_quiet (b k : block) :
  quiet_block b -> quiet_block k -> quiet_block (then_ b k).
Proof.
  intros Hb Hk g. unfold then_, bind. cbn [state value trace].
  destruct (Hb g) as (Hrun & [Hv | Hv] & Hev); rewrite Hv;
    cbn [ret state value trace]; rewrite uinput_events_app, Hev.
  - split; [exact Hrun | split; [left; reflexivity | reflexivity]].
  - destruct (Hk (state (b g))) as (Hrun' & Hv' & Hev').
    split; [congruence | split; [exact Hv' | exact Hev']].
Qed.

Ltac quiet :=
  split; [reflexivity
         |split; [(left; reflexivity) || (right; reflexivity)
                 |events; reflexivity]].

Lemma single_device_check_quiet (desc : libusb_device_descriptor) :
  quiet_block (single_device_check desc).
Proof.
  intros g. unfold single_device_check. run_hotplug.
  destruct (g_dev_handle g); run_hotplug; quiet.
Qed.

Lemma supported_check_quiet (dev : libusb_device) : quiet_block (supported_check dev).
Proof.
  intros g. unfold supported_check.
  destruct (find_device (Some [Some dev]) 1 <? 0); quiet.
Qed.

Lemma open_device_quiet
  (env : environment) (dev : libusb_device) (desc : libusb_device_descriptor) :
  quiet_block (open_device env dev desc).
Proof.
  intros g. unfold open_device. run_hotplug.
  destruct (open_rc env =? LIBUSB_SUCCESS); run_hotplug; quiet.
Qed.

Lemma detach_driver_quiet (env : environment) : quiet_block (detach_driver env).
Proof.
  intros g. unfold detach_driver. run_hotplug.
  destruct (kernel_driver_active_rc env =? 1); run_hotplug.
  - destruct (detach_kernel_driver_rc env =? LIBUSB_SUCCESS); run_hotplug; quiet.
  - destruct ((kernel_driver_active_rc env <? 0)
              && negb (kernel_driver_active_rc env =? LIBUSB_ERROR_NOT_SUPPORTED));
      run_hotplug; quiet.
Qed.

Lemma claim_interface_quiet (env : environment) : quiet_block (claim_interface env).
Proof.
  intros g. unfold claim_interface. run_hotplug.
  destruct (claim_interface_rc env =? LIBUSB_SUCCESS); run_hotplug; quiet.
Qed.

Lemma init_ctrl_no_event
  (env : environment) (dev : option libusb_device) (g : globals) :
  uinput_events (trace (init_ctrl env dev g)) = [].
Proof.
  unfold init_ctrl. destruct dev as [dev|]; [|reflexivity].
  destruct (dev_descriptor dev) as [desc|]; [|reflexivity].
  unfold libevdev_new. run_hotplug.
  destruct (evdev_new_ok env); run_hotplug; [|reflexivity].
  repeat match goal with
  | |- context [libevdev_enable_event_code ?x ?e ?t ?c ?d] =>
      let rc := fresh "rc" in
      let e' := fresh "e" in
      destruct (libevdev_enable_event_code x e t c d) as [rc e'];
      destruct (rc <? 0); run_hotplug;
      [unfold error_free_evdev; run_hotplug; events; reflexivity|]
  end.
  unfold wheel_buttons_name.
  match goal with
  | |- context [libevdev_enable_event_code ?x ?e ?t ?c ?d] =>
      destruct (libevdev_enable_event_code x e t c d) as [rcw ew]
  end.
  run_hotplug.
  unfold libevdev_uinput_create_from_device. run_hotplug.
  destruct (uinput_create_rc env <? 0); run_hotplug;
    unfold error_free_evdev; run_hotplug; events; reflexivity.
Qed.

Lemma initialize_controls_quiet
  (env : environment) (dev : libusb_device) (desc : libusb_device_descriptor) :
  dev_descriptor dev = Some desc ->
  quiet_block (initialize_controls env dev).
Proof.
  intros Hd g.
  pose proof (initialize_controls_outcome env dev desc g Hd) as Hout.
  cbv zeta in Hout.
  assert (Hev : uinput_events (trace (initialize_controls env dev g)) = []).
  { unfold initialize_controls. cbn [bind trace value state].
    rewrite uinput_events_app, init_ctrl_no_event.
    destruct (value (init_ctrl env (Some dev) g) <? 0); [|reflexivity].
    run_hotplug.
    destruct (g_evdev (state (init_ctrl env (Some dev) g)));
      run_hotplug; events; reflexivity. }
  destruct (init_ctrl_rc env dev <? 0).
  - destruct Hout as (attempts & Hout & _).
    pose proof (f_equal (fun o => fst (fst o)) Hout) as Hv.
    pose proof (f_equal (fun o => snd (fst o)) Hout) as Hs.
    cbn [outcome fst snd] in Hv, Hs. rewrite Hv, Hs, Hev.
    split; [reflexivity | split; [left|]; reflexivity].
  - destruct Hout as (e & Hout).
    pose proof (f_equal (fun o => fst (fst o)) Hout) as Hv.
    pose proof (f_equal (fun o => snd (fst o)) Hout) as Hs.
    cbn [outcome fst snd] in Hv, Hs. rewrite Hv, Hs, Hev.
    split; [reflexivity | split; [right|]; reflexivity].
Qed.

Lemma allocate_transfer_quiet (env : environment) : quiet_block (allocate_transfer env).
Proof.
  intros g. unfold allocate_transfer. run_hotplug.
  destruct (alloc_transfer_ok env); run_hotplug; quiet.
Qed.

Lemma submit_first_transfer_quiet
  (env : environment) (desc : libusb_device_descriptor) :
  quiet_block (submit_first_transfer env desc).
Proof.
  intros g. unfold submit_first_transfer. run_hotplug.
  destruct (submit_transfer_rc env =? LIBUSB_SUCCESS); run_hotplug; quiet.
Qed.

Lemma device_left_quiet
  (env : environment) (dev : libusb_device) (desc : libusb_device_descriptor)
  (g : globals) :
  g_running (state (device_left env dev desc g)) = g_running g
  /\ uinput_events (trace (device_left env dev desc g)) = [].
Proof.
  unfold device_left. run_hotplug.
  destruct (g_dev_handle g) as [h|]; [|split; reflexivity].
  destruct (same_device (libusb_get_device h) dev); [|split; reflexivity].
  destruct (g_tx g), (g_uidev g); run_hotplug; events; split; reflexivity.
Qed.

(** A hotplug event returns 0, leaves the running flag alone and writes
    no input event. *)
Lemma hotplug_callback_quiet
  (env : environment) (dev : libusb_device) (event : libusb_hotplug_event)
  (g : globals) :
  let r := hotplug_callback env dev event g in
  value r = 0
  /\ g_running (state r) = g_running g
  /\ uinput_events (trace r) = [].
Proof.
  cbv zeta. unfold hotplug_callback.
  destruct (dev_descriptor dev) as [desc|] eqn:Hd; [|repeat split].
  cbn [bind body DEBUG emit ret value state trace].
  rewrite !uinput_events_app. cbn [uinput_events app].
  destruct event as [| |n].
  - assert (Hq : quiet_block (device_arrived env dev desc)).
    { unfold device_arrived.
      repeat lazymatch goal with
             | |- quiet_block (then_ _ _) => apply then_quiet
             | |- quiet_block (single_device_check _) => apply single_device_check_quiet
             | |- quiet_block (supported_check _) => apply supported_check_quiet
             | |- quiet_block (open_device _ _ _) => apply open_device_quiet
             | |- quiet_block (detach_driver _) => apply detach_driver_quiet
             | |- quiet_block (claim_interface _) => apply claim_interface_quiet
             | |- quiet_block (initialize_controls _ _) =>
                 apply (initialize_controls_quiet env dev desc Hd)
             | |- quiet_block (allocate_transfer _) => apply allocate_transfer_quiet
             | |- quiet_block (submit_first_transfer _ _) =>
                 apply submit_first_transfer_quiet
             end. }
    destruct (Hq g) as (Hrun & [Hv | Hv] & Hev); rewrite Hv, Hev;
      repeat split; assumption.
  - cbn [bind fall_through ret value state trace]. rewrite uinput_events_app.
    destruct (device_left_quiet env dev desc g) as (Hrun & Hev). rewrite Hev.
    repeat split. exact Hrun.
  - repeat split.
Qed.

(** ** A successful arrival *)

(** The steps after the kernel-driver hand-off when none fails, with the
    transfer written out. *)
Lemma arrival_after_detach_session
  (env : environment) (dev : libusb_device) (desc : libusb_device_descriptor)
  (running : bool) (wheel : Z) :
  dev_descriptor dev = Some desc ->
  failing_after_detach env dev = None ->
  let h := {| libusb_get_device := dev |} in
  exists e,
    outcome
      (then_ (claim_interface env)
         (then_ (initialize_controls env dev)
            (then_ (allocate_transfer env) (submit_first_transfer env desc)))
         {| g_dev_handle := Some h; g_uidev := None; g_evdev := None; g_tx := None;
            g_running := running; g_wheel_position := wheel |})
    = (inr tt, session_on dev e running 0,
       [Call.libusb_claim_interface (Some h) 0; Call.libevdev_new;
        Call.libevdev_uinput_create_from_device e; Call.libusb_alloc_transfer 0;
        Call.libusb_submit_transfer
          (Some (session_transfer h {| uinput_evdev := e |}))]).
Proof.
  intros Hd Hf. cbv zeta. unfold failing_after_detach in Hf.
  match goal with
  | |- context [outcome (then_ (claim_interface env) _ ?s)] =>
      step (claim_interface_outcome env s)
  end.
  destruct (claim_interface_rc env =? LIBUSB_SUCCESS); cbn [negb] in Hf;
    cbv beta iota; [|discriminate Hf].
  rewrite then_outcome.
  match goal with
  | |- context [outcome (initialize_controls env dev ?s)] =>
      pose proof (initialize_controls_outcome env dev desc s Hd) as Hinit
  end.
  cbv zeta in Hinit.
  destruct (init_ctrl_rc env dev <? 0); [discriminate Hf|].
  destruct Hinit as (e & Hout). rewrite Hout. cbv beta iota. simpl_statics.
  match goal with
  | |- context [outcome (then_ (allocate_transfer env) _ ?s)] =>
      step (allocate_transfer_outcome env s)
  end.
  destruct (alloc_transfer_ok env); cbn [negb] in Hf; cbv beta iota;
    [|discriminate Hf].
  match goal with
  | |- context [outcome (submit_first_transfer env desc ?s)] =>
      pose proof (submit_first_transfer_outcome env desc s) as Hsub
  end.
  cbv zeta in Hsub.
  cbn [g_dev_handle g_uidev g_evdev g_tx g_running g_wheel_position
       set_dev_handle set_uidev set_evdev set_tx set_running set_wheel_position
       libusb_fill_interrupt_transfer modify state option_map] in Hsub.
  rewrite Hsub. clear Hsub.
  destruct (submit_transfer_rc env =? LIBUSB_SUCCESS); cbn [negb] in Hf;
    cbv beta iota; [|discriminate Hf].
  exists e. reflexivity.
Qed.

(** The calls of an arrival up to the kernel-driver hand-off. *)
Lemma arrival_outcome_session
  (env : environment) (g : globals) (dev : libusb_device)
  (desc : libusb_device_descriptor) :
  session_empty g ->
  dev_descriptor dev = Some desc ->
  0 <= find_device (Some [Some dev]) 1 ->
  failing_step env dev = None ->
  let h := {| libusb_get_device := dev |} in
  exists e,
    outcome (hotplug_callback env dev LIBUSB_HOTPLUG_EVENT_DEVICE_ARRIVED g) =
    (0, session_on dev e (g_running g) 0,
     [Call.libusb_open dev; Call.libusb_kernel_driver_active (Some h) 0]
     ++ (if kernel_driver_active_rc env =? 1
         then [Call.libusb_detach_kernel_driver (Some h) 0] else [])
     ++ [Call.libusb_claim_interface (Some h) 0; Call.libevdev_new;
         Call.libevdev_uinput_create_from_device e; Call.libusb_alloc_transfer 0;
         Call.libusb_submit_transfer
           (Some (session_transfer h {| uinput_evdev := e |}))]).
Proof.
  intros Hempty Hd Hsup Hfail. cbv zeta.
  rewrite (hotplug_arrival_outcome env dev desc g Hd).
  unfold device_arrived.
  rewrite then_outcome, single_device_check_outcome by apply Hempty.
  rewrite then_outcome, supported_check_outcome by exact Hsup.
  destruct Hempty as (Hh & Hu & He & Ht).
  destruct g as [gh gu ge gt grun gw].
  cbn [g_dev_handle g_uidev g_evdev g_tx g_running] in *. subst gh gu ge gt.
  match goal with
  | |- context [outcome (then_ (open_device env dev desc) _ ?s)] =>
      step (open_device_outcome env dev desc s)
  end.
  unfold failing_step in Hfail.
  destruct (open_rc env =? LIBUSB_SUCCESS); cbn [negb] in Hfail; cbv beta iota;
    [|discriminate Hfail].
  match goal with
  | |- context [outcome (then_ (detach_driver env) _ ?s)] =>
      step (detach_driver_outcome env s)
  end.
  destruct (kernel_driver_active_rc env =? 1).
  - destruct (detach_kernel_driver_rc env =? LIBUSB_SUCCESS); cbn [negb] in Hfail;
      cbv beta iota; [|discriminate Hfail].
    destruct (arrival_after_detach_session env dev desc grun gw Hd Hfail) as (e & Ho).
    unfold set_dev_handle. simpl_statics. rewrite Ho. cbv beta iota.
    exists e. reflexivity.
  - destruct ((kernel_driver_active_rc env <? 0)
              && negb (kernel_driver_active_rc env =? LIBUSB_ERROR_NOT_SUPPORTED));
      cbv beta iota; [discriminate Hfail|].
    destruct (arrival_after_detach_session env dev desc grun gw Hd Hfail) as (e & Ho).
    unfold set_dev_handle. simpl_statics. rewrite Ho. cbv beta iota.
    exists e. reflexivity.
Qed.

(** X11: the arrival of a supported device on empty statics, when no step
    fails, leaves a whole session: the handle open on this device, the
    uinput device made from the description, the transfer filled for
    endpoint 0x81 with the 10-byte buffer, no timeout and the uinput device
    as user data; the running flag as before and the wheel position 0.  The
    resource calls are, in order: open, kernel_driver_active, the detach
    when a kernel driver was active, claim, libevdev_new, the creation of
    the uinput device, alloc_transfer and the submission of that transfer. *)
Theorem arrival_establishes_session
  (env : environment) (g : globals) (dev : libusb_device)
  (desc : libusb_device_descriptor) :
  session_empty g ->
  dev_descriptor dev = Some desc ->
  0 <= find_device (Some [Some dev]) 1 ->
  failing_step env dev = None ->
  let r := hotplug_callback env dev LIBUSB_HOTPLUG_EVENT_DEVICE_ARRIVED g in
  let h := {| libusb_get_device := dev |} in
  exists e,
    state r = session_on dev e (g_running g) 0
    /\ resource_calls (trace r) =
         [Call.libusb_open dev; Call.libusb_kernel_driver_active (Some h) 0]
         ++ (if kernel_driver_active_rc env =? 1
             then [Call.libusb_detach_kernel_driver (Some h) 0] else [])
         ++ [Call.libusb_claim_interface (Some h) 0; Call.libevdev_new;
             Call.libevdev_uinput_create_from_device e; Call.libusb_alloc_transfer 0;
             Call.libusb_submit_transfer
               (Some (session_transfer h {| uinput_evdev := e |}))].
Proof.
  intros Hempty Hd Hsup Hfail r h.
  destruct (arrival_outcome_session env g dev desc Hempty Hd Hsup Hfail) as (e & Hout).
  fold r in Hout. exists e.
  pose proof (f_equal (fun o => snd (fst o)) Hout) as Hs.
  pose proof (f_equal snd Hout) as Hc.
  cbn [outcome fst snd] in Hs, Hc.
  split; [exact Hs | exact Hc].
Qed.

Lemma arrival_establishes_session_witness :
  exists e,
    session_of PRODUCT_ID_AM1209 =
    session_on (device 1 VENDOR_ID_HANVON PRODUCT_ID_AM1209) e true 0.
Proof.
  destruct (arrival_establishes_session all_succeed initial_globals
              (device 1 VENDOR_ID_HANVON PRODUCT_ID_AM1209)
              {| idVendor := VENDOR_ID_HANVON; idProduct := PRODUCT_ID_AM1209;
                 bcdDevice := 0 |})
    as (e & Hs & _).
  - repeat split.
  - reflexivity.
  - cbn. lia.
  - reflexivity.
  - exists e. exact Hs.
Defined.

(** ** Departure *)

(** X12: the departure of the device of the session takes the session
    down whatever the libraries answer: cancel and free the transfer,
    destroy the uinput device, release the interface, re-attach the kernel
    driver, close the handle, in this order; afterwards every handle is
    null, the running flag and the wheel position are as before. *)
Theorem departure_releases_session
  (env : environment) (dev : libusb_device) (desc : libusb_device_descriptor)
  (h : libusb_device_handle) (g : globals) :
  dev_descriptor dev = Some desc ->
  session_active g ->
  g_dev_handle g = Some h ->
  same_device (libusb_get_device h) dev = true ->
  let r := hotplug_callback env dev LIBUSB_HOTPLUG_EVENT_DEVICE_LEFT g in
  state r = without_session g
  /\ resource_calls (trace r) = teardown_calls g.
Proof.
  intros Hd (_ & Hu & _ & Ht) Hh Hsame. cbv zeta.
  unfold hotplug_callback, teardown_calls. rewrite Hd.
  unfold device_left. run_hotplug. rewrite Hh, Hsame.
  destruct (g_tx g); [|discriminate Ht].
  destruct (g_uidev g); [|discriminate Hu].
  run_hotplug. resources. split; reflexivity.
Qed.

Lemma departure_releases_session_witness :
  state (hotplug_callback uinput_create_fails
           (device 1 VENDOR_ID_HANVON PRODUCT_ID_GP0504)
           LIBUSB_HOTPLUG_EVENT_DEVICE_LEFT gp_session)
  = without_session gp_session.
Proof.
  refine (proj1 (departure_releases_session uinput_create_fails
                   (device 1 VENDOR_ID_HANVON PRODUCT_ID_GP0504)
                   {| idVendor := VENDOR_ID_HANVON; idProduct := PRODUCT_ID_GP0504;
                      bcdDevice := 0 |}
                   {| libusb_get_device := device 1 VENDOR_ID_HANVON PRODUCT_ID_GP0504 |}
                   gp_session eq_refl _ _ _)).
  - repeat split.
  - reflexivity.
  - reflexivity.
Defined.

(** X13: an arrival that succeeds followed by the departure of the same
    device brings the statics back to where they were, but for the wheel
    position, which is 0: the first transfer was submitted, the departure
    makes the six calls of the teardown on what the arrival acquired, and
    these are the only calls of the two callbacks that give a resource
    back. *)
Theorem arrival_departure_round_trip
  (env1 env2 : environment) (g : globals) (dev : libusb_device)
  (desc : libusb_device_descriptor) :
  session_empty g ->
  dev_descriptor dev = Some desc ->
  0 <= find_device (Some [Some dev]) 1 ->
  failing_step env1 dev = None ->
  let r1 := hotplug_callback env1 dev LIBUSB_HOTPLUG_EVENT_DEVICE_ARRIVED g in
  let r2 := hotplug_callback env2 dev LIBUSB_HOTPLUG_EVENT_DEVICE_LEFT (state r1) in
  state r2 = set_wheel_position 0 g
  /\ resource_calls (trace r2) = teardown_calls (state r1)
  /\ List.length (filter is_release (resource_calls (trace r1 ++ trace r2))) = 5%nat
  /\ submitted (trace r1) = true.
Proof.
  intros Hempty Hd Hsup Hfail r1 r2.
  destruct (arrival_outcome_session env1 g dev desc Hempty Hd Hsup Hfail) as (e & Hout).
  fold r1 in Hout.
  pose proof (f_equal (fun o => snd (fst o)) Hout) as Hs.
  pose proof (f_equal snd Hout) as Hc.
  cbn [outcome fst snd] in Hs, Hc.
  assert (Hsub : submitted (trace r1) = true).
  { assert (Hgen : forall t, submitted t = submitted (resource_calls t)).
    { induction t as [|c t IH]; [reflexivity|].
      destruct c; cbn [resource_calls]; unfold submitted in *; cbn [existsb];
        rewrite ?IH; reflexivity. }
    rewrite Hgen, Hc. destruct (kernel_driver_active_rc env1 =? 1); reflexivity. }
  assert (Hdep : state r2 = without_session (state r1)
                 /\ resource_calls (trace r2) = teardown_calls (state r1)).
  { unfold r2. rewrite Hs. unfold hotplug_callback, teardown_calls. rewrite Hd.
    unfold device_left, session_on. run_hotplug.
    unfold same_device. cbn [libusb_get_device]. rewrite Z.eqb_refl.
    run_hotplug. resources. split; reflexivity. }
  destruct Hdep as (Hs2 & Hc2).
  split; [|split; [exact Hc2 | split; [|exact Hsub]]].
  - rewrite Hs2, Hs. destruct Hempty as (Hh & Hu & He & Ht).
    destruct g; cbn in *. subst. reflexivity.
  - rewrite resource_calls_app, Hc, Hc2, Hs.
    destruct (kernel_driver_active_rc env1 =? 1); reflexivity.
Qed.

Lemma arrival_departure_round_trip_witness :
  state (hotplug_callback all_succeed (device 1 VENDOR_ID_HANVON PRODUCT_ID_AM1209)
           LIBUSB_HOTPLUG_EVENT_DEVICE_LEFT (session_of PRODUCT_ID_AM1209))
  = initial_globals.
Proof.
  refine (proj1 (arrival_departure_round_trip all_succeed all_succeed initial_globals
                   (device 1 VENDOR_ID_HANVON PRODUCT_ID_AM1209)
                   {| idVendor := VENDOR_ID_HANVON; idProduct := PRODUCT_ID_AM1209;
                      bcdDevice := 0 |} _ eq_refl _ eq_refl)).
  - repeat split.
  - cbn. lia.
Defined.

(** ** Devices the driver does not take *)




(** ** The handles belong together *)

Lemma session_consistent_cases (g : globals) :
  session_consistent g ->
  session_empty g
  \/ (session_active g
      /\ exists h e,
           g_dev_handle g = Some h
           /\ g_uidev g = Some {| uinput_evdev := e |}
           /\ g_evdev g = Some e
           /\ g_tx g = Some (session_transfer h {| uinput_evdev := e |})).
Proof.
  unfold session_consistent, session_empty, session_active.
  destruct (g_dev_handle g) as [h|], (g_uidev g) as [[e']|], (g_evdev g) as [e|],
    (g_tx g) as [tx|]; try contradiction.
  - intros (He & Htx). cbn [uinput_evdev] in He. subst. right.
    split; [repeat split|]. exists h, e. repeat split.
  - intros _. left. repeat split.
Qed.

Lemma session_consistent_handles (g g' : globals) :
  g_dev_handle g' = g_dev_handle g -> g_uidev g' = g_uidev g ->
  g_evdev g' = g_evdev g -> g_tx g' = g_tx g ->
  session_consistent g -> session_consistent g'.
Proof. unfold session_consistent. intros -> -> -> ->. trivial. Qed.

Lemma hotplug_callback_consistent
  (env : environment) (dev : libusb_device) (event : libusb_hotplug_event)
  (g : globals) :
  session_consistent g ->
  session_consistent (state (hotplug_callback env dev event g)).
Proof.
  intros Hinv.
  assert (Hsame : state (hotplug_callback env dev event g) = g ->
                  session_consistent (state (hotplug_callback env dev event g)))
    by (intros ->; exact Hinv).
  destruct (dev_descriptor dev) as [desc|] eqn:Hd;
    [|apply Hsame, hotplug_unchanged_cases; left; exact Hd].
  destruct (session_consistent_cases g Hinv) as [Hempty | (Hactive & h & e & Hg & _)].
  - pose proof Hempty as (Hh & Hu & He & Ht).
    destruct event as [| |n].
    + destruct (Z.ltb_spec (find_device (Some [Some dev]) 1) 0) as [Hno|Hsup].
      { apply Hsame, hotplug_unchanged_cases. right. right. left. auto. }
      destruct (failing_step env dev) as [k|] eqn:Hfail.
      * destruct (arrival_failure_outcome env g dev desc k Hempty Hd Hsup Hfail)
          as (attempts & Hout & _).
        pose proof (f_equal (fun o => snd (fst o)) Hout) as Hs.
        cbn [outcome fst snd] in Hs. rewrite Hs.
        apply (session_consistent_handles g); try reflexivity. exact Hinv.
      * destruct (arrival_outcome_session env g dev desc Hempty Hd Hsup Hfail)
          as (e & Hout).
        pose proof (f_equal (fun o => snd (fst o)) Hout) as Hs.
        cbn [outcome fst snd] in Hs. rewrite Hs. split; reflexivity.
    + apply Hsame, hotplug_unchanged_cases. right. right. right. left. auto.
    + apply Hsame, hotplug_unchanged_cases. do 5 right. exists n. reflexivity.
  - destruct event as [| |n].
    + apply Hsame, hotplug_unchanged_cases. right. left. rewrite Hg. auto.
    + destruct (same_device (libusb_get_device h) dev) eqn:Hs.
      * rewrite (departure_of_active env dev desc h g Hd Hactive Hg Hs). exact I.
      * apply Hsame, hotplug_unchanged_cases. do 4 right. left.
        split; [reflexivity|]. exists h. auto.
    + apply Hsame, hotplug_unchanged_cases. do 5 right. exists n. reflexivity.
Qed.

(** X15: in every state the program can reach from its initial statics
    by hotplug events, transfers of bytes and signals, the four handles
    belong together: all are null, or the handle is open, the uinput device
    was made from the description in g_evdev, and the transfer is the one
    filled for endpoint 0x81 of that handle with that uinput device as user
    data; and the wheel position is within 0..0x3f. *)
Theorem reachable_session_consistent (g : globals) :
  reachable g -> session_consistent g /\ wheel_in_range g.
Proof.
  intros Hreach. split; [|apply reachable_invariant; exact Hreach].
  induction Hreach as [| env dev event g _ IH | env tx g _ IH Hbytes | signum g _ IH].
  - exact I.
  - apply hotplug_callback_consistent. exact IH.
  - destruct (callback_default_statics env tx g Hbytes) as (Hrest & _).
    revert IH. rewrite <- Hrest at 1.
    apply session_consistent_handles; reflexivity.
  - exact IH.
Qed.

Lemma reachable_session_consistent_witness :
  session_consistent (session_of PRODUCT_ID_AM1209)
  /\ wheel_in_range (session_of PRODUCT_ID_AM1209).
Proof.
  apply reachable_session_consistent.
  apply reach_hotplug. apply reach_start.
Defined.

(** ** Who clears the running flag *)

Lemma callback_default_running
  (env : environment) (tx : libusb_transfer) (g : globals) :
  g_running (state (callback_default env tx g)) = g_running g.
Proof.
  unfold callback_default.
  destruct (status tx); try reflexivity.
  destruct (user_data tx) as [ud|]; [|run; rewrite resubmit_state; reflexivity].
  destruct (actual_length tx <? 1); [run; rewrite resubmit_state; reflexivity|].
  run. rewrite resubmit_state. apply switch_msgtype_quiet.
Qed.

Lemma deliver_running (d : delivery) (g : globals) :
  g_running (state (deliver d g)) = g_running g && negb (is_signal d).
Proof.
  destruct d as [env dev event | env tx | s]; cbn [deliver is_signal negb].
  - cbn [bind ret state]. rewrite andb_true_r. apply hotplug_callback_quiet.
  - rewrite andb_true_r. apply callback_default_running.
  - rewrite andb_false_r. reflexivity.
Qed.

Lemma deliver_all_running (ds : list delivery) (g : globals) :
  g_running (state (deliver_all ds g)) = g_running g && negb (has_signal ds).
Proof.
  revert g. induction ds as [|d ds IH]; intros g; cbn [deliver_all has_signal existsb].
  - cbn. rewrite andb_true_r. reflexivity.
  - cbn [bind state]. rewrite IH, deliver_running. unfold has_signal.
    rewrite negb_orb, andb_assoc. reflexivity.
Qed.

(** X10: [hotplug_callback] always returns 0, so that libusb keeps it
    registered, writes no input event and leaves g_running alone;
    [callback_default] leaves g_running alone; hence after any sequence of
    callbacks and signals g_running is as before when no signal was among
    them and false otherwise: nothing sets it again. *)
Theorem running_cleared_only_by_signal :
  (forall env dev event g,
     value (hotplug_callback env dev event g) = 0
     /\ g_running (state (hotplug_callback env dev event g)) = g_running g
     /\ uinput_events (trace (hotplug_callback env dev event g)) = [])
  /\ (forall env tx g,
        g_running (state (callback_default env tx g)) = g_running g)
  /\ (forall ds g,
        g_running (state (deliver_all ds g)) = g_running g && negb (has_signal ds)).
Proof.
  split; [|split].
  - intros env dev event g. apply hotplug_callback_quiet.
  - exact callback_default_running.
  - exact deliver_all_running.
Qed.

(** ** After the signal *)

Lemma deliver_all_app (ds1 ds2 : list delivery) (g : globals) :
  state (deliver_all (ds1 ++ ds2) g) = state (deliver_all ds2 (state (deliver_all ds1 g)))
  /\ trace (deliver_all (ds1 ++ ds2) g) =
       trace (deliver_all ds1 g) ++ trace (deliver_all ds2 (state (deliver_all ds1 g))).
Proof.
  revert g. induction ds1 as [|d ds1 IH]; intros g; cbn [app deliver_all].
  - split; reflexivity.
  - cbn [bind state trace]. destruct (IH (state (deliver d g))) as (Hs & Ht).
    rewrite Hs, Ht, app_assoc. split; reflexivity.
Qed.

(** X20: once the running flag is cleared, transfer callbacks and further
    signals call neither library: no completed transfer is submitted again,
    and the flag stays cleared. *)
Theorem no_resubmission_after_shutdown (ds : list delivery) (g : globals) :
  g_running g = false ->
  Forall (fun d => is_hotplug d = false) ds ->
  resource_calls (trace (deliver_all ds g)) = []
  /\ g_running (state (deliver_all ds g)) = false.
Proof.
  intros Hrun Hds. split; [|rewrite deliver_all_running, Hrun; reflexivity].
  revert g Hrun. induction Hds as [|d ds Hd _ IH]; intros g Hrun; [reflexivity|].
  cbn [deliver_all bind trace state]. rewrite resource_calls_app.
  rewrite IH by (rewrite deliver_running, Hrun; reflexivity).
  rewrite app_nil_r.
  destruct d as [env dev event | env tx | s]; [discriminate Hd | |reflexivity].
  cbn [deliver]. rewrite callback_default_resources, Hrun, andb_false_r.
  reflexivity.
Qed.

Lemma no_resubmission_after_shutdown_witness :
  resource_calls
    (trace (deliver_all [transfer_done all_succeed pen_example]
              (state (sigterm_handler 15 (session_of PRODUCT_ID_AM1209))))) = [].
Proof.
  refine (proj1 (no_resubmission_after_shutdown
                   [transfer_done all_succeed pen_example]
                   (state (sigterm_handler 15 (session_of PRODUCT_ID_AM1209))) _ _)).
  - reflexivity.
  - repeat constructor.
Defined.

(** ** The final cleanup *)

Lemma final_cleanup_frame (env : environment) (g : globals) :
  session_empty g \/ session_active g ->
  state (final_cleanup env g) = without_session g.
Proof.
  intros Hg. unfold final_cleanup, without_session. run_hotplug.
  destruct Hg as [(Hh & Hu & He & Ht) | (Hh & Hu & He & Ht)].
  - rewrite Hh. run_hotplug. destruct g; cbn in *; subst; reflexivity.
  - destruct (g_dev_handle g); [|discriminate Hh].
    destruct (g_tx g); [|discriminate Ht].
    destruct (g_uidev g); [|discriminate Hu].
    run_hotplug. reflexivity.
Qed.

(** X18: the final cleanup of [main], on statics that hold no session or
    a whole one: with no session it does nothing; with a session it makes
    the same six calls as the departure of the device, in the same order,
    whatever they return; afterwards every handle is null.  It writes no
    input event. *)
Theorem final_cleanup_releases_session (env : environment) (g : globals) :
  session_empty g \/ session_active g ->
  let r := final_cleanup env g in
  state r = without_session g
  /\ resource_calls (trace r) =
       (if is_null (g_dev_handle g) then [] else teardown_calls g)
  /\ uinput_events (trace r) = [].
Proof.
  intros Hg. cbv zeta. unfold final_cleanup, teardown_calls, without_session.
  run_hotplug.
  destruct Hg as [(Hh & Hu & He & Ht) | (Hh & Hu & He & Ht)].
  - rewrite Hh. run_hotplug. split; [|split; reflexivity].
    destruct g; cbn in *; subst; reflexivity.
  - destruct (g_dev_handle g); [|discriminate Hh].
    destruct (g_tx g); [|discriminate Ht].
    destruct (g_uidev g); [|discriminate Hu].
    run_hotplug. resources. events. repeat split.
Qed.

Lemma final_cleanup_releases_session_witness :
  state (final_cleanup uinput_create_fails gp_session) = without_session gp_session
  /\ resource_calls (trace (final_cleanup uinput_create_fails gp_session)) =
       teardown_calls gp_session.
Proof.
  destruct (final_cleanup_releases_session uinput_create_fails gp_session)
    as (Hs & Hc & _).
  - right. repeat split.
  - split; [exact Hs | exact Hc].
Defined.

(** ** The event loop *)

Ltac run_main :=
  cbn [Main.bind Main.ret Main.call_ Main.lift Main.returned Main.statics Main.calls
       DEBUG emit value state trace map app].

Lemma own_calls_app (cs1 cs2 : list Main.call) :
  own_calls (cs1 ++ cs2) = own_calls cs1 ++ own_calls cs2.
Proof.
  induction cs1 as [|c cs1 IH]; [reflexivity|].
  destruct c; cbn [app own_calls]; rewrite IH; reflexivity.
Qed.

Lemma own_calls_driver (t : list Call.t) : own_calls (map Main.driver t) = [].
Proof. induction t as [|c t IH]; [reflexivity | exact IH]. Qed.

Ltac own :=
  repeat (cbn [own_calls app];
          rewrite ?own_calls_app, ?own_calls_driver, ?app_nil_r).

(** One round of the loop, from statics in which the program is running. *)
Lemma event_loop_round
  (ds : list delivery) (rc : Z) (rounds : list (list delivery * Z)) (g : globals) :
  g_running g = true ->
  let g' := state (deliver_all ds g) in
  Main.returned (event_loop ((ds, rc) :: rounds) g) = Main.returned (event_loop rounds g')
  /\ Main.statics (event_loop ((ds, rc) :: rounds) g) =
       Main.statics (event_loop rounds g')
  /\ own_calls (Main.calls (event_loop ((ds, rc) :: rounds) g)) =
       Main.libusb_handle_events_timeout_completed 1
       :: own_calls (Main.calls (event_loop rounds g')).
Proof.
  intros Hrun g'. cbn [event_loop]. rewrite Hrun. run_main.
  rewrite when_DEBUG. cbn [state trace own_calls].
  fold g'. rewrite !own_calls_app, !own_calls_driver.
  repeat split.
Qed.

Lemma event_loop_stopped (rounds : list (list delivery * Z)) (g : globals) :
  g_running g = false ->
  event_loop rounds g = Main.ret true g.
Proof. intros Hrun. destruct rounds as [|[ds rc] rounds]; cbn; rewrite Hrun; reflexivity. Qed.

Lemma event_loop_spec (rounds : list (list delivery * Z)) (g : globals) :
  let r := event_loop rounds g in
  Main.returned r =
    negb (g_running g) || existsb (fun round => has_signal (fst round)) rounds
  /\ g_running (Main.statics r) = negb (Main.returned r)
  /\ own_calls (Main.calls r) =
       repeat (Main.libusb_handle_events_timeout_completed 1)
              (rounds_run rounds (g_running g)).
Proof.
  cbv zeta. revert g. induction rounds as [|[ds rc] rounds IH]; intros g.
  - cbn [event_loop rounds_run existsb]. destruct (g_running g) eqn:Hrun; cbn;
      rewrite ?Hrun; repeat split.
  - destruct (g_running g) eqn:Hrun.
    + destruct (event_loop_round ds rc rounds g Hrun) as (Hr & Hs & Hc).
      rewrite Hr, Hs, Hc.
      destruct (IH (state (deliver_all ds g))) as (IHr & IHs & IHc).
      rewrite IHs, IHc, !IHr, !deliver_all_running, Hrun.
      cbn [rounds_run existsb fst negb orb andb repeat].
      rewrite negb_involutive. repeat split.
    + rewrite (event_loop_stopped _ g Hrun). cbn. rewrite Hrun. repeat split.
Qed.

Lemma deliver_reachable (d : delivery) (g : globals) :
  reachable g -> delivers_bytes d -> reachable (state (deliver d g)).
Proof.
  intros Hg Hd. destruct d as [env dev event | env tx | s]; cbn [deliver].
  - cbn [bind ret state]. apply reach_hotplug. exact Hg.
  - apply reach_transfer; assumption.
  - apply reach_signal. exact Hg.
Qed.

Lemma deliver_all_reachable (ds : list delivery) (g : globals) :
  reachable g -> Forall delivers_bytes ds -> reachable (state (deliver_all ds g)).
Proof.
  intros Hg Hds. revert g Hg.
  induction Hds as [|d ds Hd _ IH]; intros g Hg; [exact Hg|].
  cbn [deliver_all bind state]. apply IH. apply deliver_reachable; assumption.
Qed.

Lemma event_loop_reachable (rounds : list (list delivery * Z)) (g : globals) :
  reachable g ->
  Forall (fun round => Forall delivers_bytes (fst round)) rounds ->
  reachable (Main.statics (event_loop rounds g)).
Proof.
  intros Hg Hr. revert g Hg.
  induction Hr as [|[ds rc] rounds Hds _ IH]; intros g Hg.
  - cbn. destruct (g_running g); exact Hg.
  - destruct (g_running g) eqn:Hrun.
    + destruct (event_loop_round ds rc rounds g Hrun) as (_ & Hs & _).
      rewrite Hs. apply IH. apply deliver_all_reachable; assumption.
    + rewrite (event_loop_stopped _ g Hrun). exact Hg.
Qed.

(** ** main *)

(** X16: when libusb_init fails, libusb has no hotplug support or the
    registration of the callback fails, [main] returns EXIT_FAILURE without
    entering the event loop; its own calls are then libusb_init alone in the
    first case, and otherwise the start-up calls up to the one that failed
    followed by libusb_exit. *)
Theorem main_startup_failure (w : schedule) :
  startup_ok w = false ->
  let r := main w initial_globals in
  Main.returned r = Some EXIT_FAILURE
  /\ own_calls (Main.calls r) =
       (if init_rc w <? 0 then [Main.libusb_init]
        else [Main.libusb_init; Main.sigaction SIGINT; Main.sigaction SIGTERM;
              Main.libusb_has_capability]
             ++ (if has_hotplug w
                 then [Main.libusb_hotplug_register_callback VENDOR_ID_HANVON
                         LIBUSB_HOTPLUG_MATCH_ANY LIBUSB_HOTPLUG_MATCH_ANY]
                 else [])
             ++ [Main.libusb_exit]).
Proof.
  unfold startup_ok. intros Hfail. cbv zeta. unfold main. run_main.
  destruct (init_rc w <? 0); [split; reflexivity|]. run_main.
  destruct (has_hotplug w); cbn [negb]; run_main; [|split; reflexivity].
  cbn [negb andb] in Hfail. rewrite Hfail. cbn [negb]. run_main.
  own. split; reflexivity.
Qed.

Lemma main_startup_failure_witness :
  Main.returned (main no_hotplug_example initial_globals) = Some EXIT_FAILURE.
Proof.
  exact (proj1 (main_startup_failure no_hotplug_example eq_refl)).
Defined.

(** X17: when start-up succeeds, [main] polls libusb once per round up
    to and including the first round during which a signal arrives (not at
    all when one arrived during the registration), whatever
    libusb_handle_events_timeout_completed returns; it then deregisters the
    callback, calls libusb_exit and returns EXIT_SUCCESS.  Without a signal
    the loop is still going when the schedule ends. *)
Theorem main_runs_until_signal (w : schedule) :
  startup_ok w = true ->
  let r := main w initial_globals in
  let polls := rounds_run (rounds w) (negb (has_signal (enumeration w))) in
  let started :=
    [Main.libusb_init; Main.sigaction SIGINT; Main.sigaction SIGTERM;
     Main.libusb_has_capability;
     Main.libusb_hotplug_register_callback VENDOR_ID_HANVON
       LIBUSB_HOTPLUG_MATCH_ANY LIBUSB_HOTPLUG_MATCH_ANY]
    ++ repeat (Main.libusb_handle_events_timeout_completed 1) polls in
  if signalled w
  then Main.returned r = Some EXIT_SUCCESS
       /\ own_calls (Main.calls r) =
            started ++ [Main.libusb_hotplug_deregister_callback; Main.libusb_exit]
  else Main.returned r = None
       /\ own_calls (Main.calls r) = started.
Proof.
  unfold startup_ok. intros Hok. cbv zeta.
  apply andb_prop in Hok. destruct Hok as (Hok & Hreg).
  apply andb_prop in Hok. destruct Hok as (Hinit & Hcap).
  apply negb_true_iff in Hinit.
  unfold main. run_main. rewrite Hinit. run_main. rewrite Hcap. cbn [negb]. run_main.
  rewrite Hreg. cbn [negb]. run_main.
  match goal with
  | |- context [event_loop (rounds w) ?g] =>
      destruct (event_loop_spec (rounds w) g) as (Hr & _ & Hc);
      assert (Hrun : g_running g = negb (has_signal (enumeration w)))
        by (rewrite deliver_all_running; reflexivity)
  end.
  rewrite Hrun in Hr, Hc. rewrite negb_involutive in Hr.
  fold (signalled w) in Hr. rewrite Hr.
  destruct (signalled w); run_main; own; rewrite Hc; own;
    rewrite <- ?app_assoc; split; reflexivity.
Qed.

Lemma main_runs_until_signal_witness :
  Main.returned (main schedule_example initial_globals) = Some EXIT_SUCCESS
  /\ List.length (filter is_poll (Main.calls (main schedule_example initial_globals)))
     = 2%nat.
Proof.
  split.
  - exact (proj1 (main_runs_until_signal schedule_example eq_refl)).
  - vm_compute. reflexivity.
Defined.

(** X19: when [main] returns EXIT_SUCCESS, whatever was delivered to the
    callbacks (transfers of bytes), no session is left: every handle is
    null, the running flag is cleared and the wheel position is within
    0..0x3f. *)
Theorem main_leaves_no_session (w : schedule) :
  schedule_of_bytes w ->
  let r := main w initial_globals in
  Main.returned r = Some EXIT_SUCCESS ->
  session_empty (Main.statics r)
  /\ g_running (Main.statics r) = false
  /\ wheel_in_range (Main.statics r).
Proof.
  intros (Henum & Hrounds). cbv zeta. unfold main. run_main.
  destruct (init_rc w <? 0); [intros H; discriminate H|]. run_main.
  destruct (has_hotplug w); cbn [negb]; run_main; [|intros H; discriminate H].
  destruct (register_rc w =? LIBUSB_SUCCESS); cbn [negb]; run_main;
    [|intros H; discriminate H].
  match goal with
  | |- context [event_loop (rounds w) ?g] =>
      destruct (event_loop_spec (rounds w) g) as (_ & Hrun & _);
      assert (Hreach : reachable (Main.statics (event_loop (rounds w) g)))
        by (apply event_loop_reachable;
            [apply (deliver_all_reachable (enumeration w) initial_globals
                      reach_start Henum)
            |exact Hrounds]);
      set (loop := event_loop (rounds w) g) in *
  end.
  destruct (Main.returned loop); run_main; [|intros H; discriminate H].
  intros _. cbn [negb] in Hrun.
  destruct (reachable_invariant _ Hreach) as (Hsession & Hwheel).
  rewrite (final_cleanup_frame (shutdown_env w) (Main.statics loop) Hsession).
  unfold without_session.
  split; [repeat split | split; [exact Hrun | exact Hwheel]].
Qed.

Lemma main_leaves_no_session_witness :
  session_empty (Main.statics (main schedule_example initial_globals)).
Proof.
  refine (proj1 (main_leaves_no_session schedule_example _ _)).
  - split; repeat constructor; unfold is_byte; lia.
  - vm_compute. reflexivity.
Defined.
